(** * Gambling tracker: the session hook and the banker board

    A shallow embedding of [src/hooks/useGameSession.js] (the session hook)
    and of the majority-round computation of [src/components/BankerBoard.jsx].

    Modelling conventions.
    - In the session model money amounts and multipliers are integers
      ([Z]): it is the hook on stakes and nets that are integers below
      2^53, which doubles add, subtract and multiply exactly.  What the
      hook does on decimal stakes, where doubles round, is stated over
      binary64 in module [F64].
    - The hook's [useState] cells are the fields of one record, [Session];
      every [setX] of the source is the setter of the same name here.  A
      callback runs to completion on the state it was created from, so the
      values its closure captured are the values of the cells when it is
      called.
    - The Supabase tables are finite maps keyed by their primary key
      ([rooms] by [id], [players] by [uuid]).  A write is given the
      store's verdict for that call ([None]: the write is applied,
      [Some e]: it is refused with error [e]).  So are the two reads of
      [joinRoom] whose [error] the hook does not look at (the reconnection
      read and the count): when such a read fails, its [data] or [count] is
      null.  The reads whose [error] the hook checks (the room read, the
      player list) are answered from the table.
    - Code inside [try]/[catch]/[finally] runs in a small state-and-exception
      monad over the [World] (session, store, local storage). *)

From Stdlib Require Import ZArith List Bool Lia SpecFloat.
From stdpp Require Import base numbers option list strings gmap fin_maps.

Local Open Scope Z_scope.

(* ===================================================================== *)
(** ** Data model *)
(* ===================================================================== *)

Inductive Role := banker | player.
Inductive RoomStatus := active | ended.
Inductive Mode := single | multi.

#[global] Instance Role_eq_dec : EqDecision Role.
Proof. solve_decision. Defined.
#[global] Instance RoomStatus_eq_dec : EqDecision RoomStatus.
Proof. solve_decision. Defined.
#[global] Instance Mode_eq_dec : EqDecision Mode.
Proof. solve_decision. Defined.

(** One entry of a player's [round_history] (most recent first). *)
Module Round.
Record t := mk { id : Z; multiplier : Z; amount : Z; time : string }.
End Round.

(** Rows of the two tables (schema of PRD.md: [id] is the primary key of
    [rooms], [uuid] the primary key of [players]).  A nullable column is an
    [option]. *)
Module Db.
Record RoomRow := mkRoom {
  id : string;
  banker_uuid : string;
  status : RoomStatus
}.

Record PlayerRow := mkPlayer {
  uuid : string;
  room_id : string;
  role : Role;
  name : string;
  base_amount : option Z;
  current_net : option Z;
  last_action_amount : option Z;
  round_history : option (list Round.t);
  updated_at : option string
}.

Record Store := mkStore {
  rooms : gmap string RoomRow;
  players : gmap string PlayerRow
}.

(** What the store reports when it refuses a call. *)
Record StoreError := mkError { message : string }.
End Db.

(** [x || 0] on a nullable numeric column. *)
Definition or0 (x : option Z) : Z := default 0 x.

(** [s || fallback] on a string: the empty string is falsy. *)
Definition str_or (s fallback : string) : string :=
  if decide (s = "") then fallback else s.

(** The hook's state cells. *)
Record Session := mkSession {
  deviceUUID : string;
  playerName : string;
  mode : option Mode;
  singleBase : Z;
  singleNet : Z;
  singleLastAction : Z;
  roomId : option string;
  role : option Role;
  baseAmount : Z;
  currentNet : Z;
  lastActionAmount : Z;
  bankerNet : Z;
  players : list Db.PlayerRow;
  roomStatus : option RoomStatus;
  tiePromptActive : option Z;
  error : option string;
  loading : bool
}.

Definition setMode v s :=
  mkSession (deviceUUID s) (playerName s) v (singleBase s) (singleNet s)
    (singleLastAction s) (roomId s) (role s) (baseAmount s) (currentNet s)
    (lastActionAmount s) (bankerNet s) (players s) (roomStatus s)
    (tiePromptActive s) (error s) (loading s).
Definition setSingleBase v s :=
  mkSession (deviceUUID s) (playerName s) (mode s) v (singleNet s)
    (singleLastAction s) (roomId s) (role s) (baseAmount s) (currentNet s)
    (lastActionAmount s) (bankerNet s) (players s) (roomStatus s)
    (tiePromptActive s) (error s) (loading s).
(** [setSingleNet] is always called with an updater [prev => ...]. *)
Definition setSingleNet (f : Z -> Z) s :=
  mkSession (deviceUUID s) (playerName s) (mode s) (singleBase s)
    (f (singleNet s)) (singleLastAction s) (roomId s) (role s) (baseAmount s)
    (currentNet s) (lastActionAmount s) (bankerNet s) (players s)
    (roomStatus s) (tiePromptActive s) (error s) (loading s).
Definition setSingleLastAction v s :=
  mkSession (deviceUUID s) (playerName s) (mode s) (singleBase s)
    (singleNet s) v (roomId s) (role s) (baseAmount s) (currentNet s)
    (lastActionAmount s) (bankerNet s) (players s) (roomStatus s)
    (tiePromptActive s) (error s) (loading s).
Definition setRoomId v s :=
  mkSession (deviceUUID s) (playerName s) (mode s) (singleBase s)
    (singleNet s) (singleLastAction s) v (role s) (baseAmount s)
    (currentNet s) (lastActionAmount s) (bankerNet s) (players s)
    (roomStatus s) (tiePromptActive s) (error s) (loading s).
Definition setRole v s :=
  mkSession (deviceUUID s) (playerName s) (mode s) (singleBase s)
    (singleNet s) (singleLastAction s) (roomId s) v (baseAmount s)
    (currentNet s) (lastActionAmount s) (bankerNet s) (players s)
    (roomStatus s) (tiePromptActive s) (error s) (loading s).
Definition setBaseAmount v s :=
  mkSession (deviceUUID s) (playerName s) (mode s) (singleBase s)
    (singleNet s) (singleLastAction s) (roomId s) (role s) v
    (currentNet s) (lastActionAmount s) (bankerNet s) (players s)
    (roomStatus s) (tiePromptActive s) (error s) (loading s).
Definition setCurrentNet v s :=
  mkSession (deviceUUID s) (playerName s) (mode s) (singleBase s)
    (singleNet s) (singleLastAction s) (roomId s) (role s) (baseAmount s)
    v (lastActionAmount s) (bankerNet s) (players s)
    (roomStatus s) (tiePromptActive s) (error s) (loading s).
Definition setLastActionAmount v s :=
  mkSession (deviceUUID s) (playerName s) (mode s) (singleBase s)
    (singleNet s) (singleLastAction s) (roomId s) (role s) (baseAmount s)
    (currentNet s) v (bankerNet s) (players s)
    (roomStatus s) (tiePromptActive s) (error s) (loading s).
Definition setBankerNet v s :=
  mkSession (deviceUUID s) (playerName s) (mode s) (singleBase s)
    (singleNet s) (singleLastAction s) (roomId s) (role s) (baseAmount s)
    (currentNet s) (lastActionAmount s) v (players s)
    (roomStatus s) (tiePromptActive s) (error s) (loading s).
Definition setPlayers v s :=
  mkSession (deviceUUID s) (playerName s) (mode s) (singleBase s)
    (singleNet s) (singleLastAction s) (roomId s) (role s) (baseAmount s)
    (currentNet s) (lastActionAmount s) (bankerNet s) v
    (roomStatus s) (tiePromptActive s) (error s) (loading s).
Definition setRoomStatus v s :=
  mkSession (deviceUUID s) (playerName s) (mode s) (singleBase s)
    (singleNet s) (singleLastAction s) (roomId s) (role s) (baseAmount s)
    (currentNet s) (lastActionAmount s) (bankerNet s) (players s)
    v (tiePromptActive s) (error s) (loading s).
Definition setTiePromptActive v s :=
  mkSession (deviceUUID s) (playerName s) (mode s) (singleBase s)
    (singleNet s) (singleLastAction s) (roomId s) (role s) (baseAmount s)
    (currentNet s) (lastActionAmount s) (bankerNet s) (players s)
    (roomStatus s) v (error s) (loading s).
Definition setError v s :=
  mkSession (deviceUUID s) (playerName s) (mode s) (singleBase s)
    (singleNet s) (singleLastAction s) (roomId s) (role s) (baseAmount s)
    (currentNet s) (lastActionAmount s) (bankerNet s) (players s)
    (roomStatus s) (tiePromptActive s) v (loading s).
Definition setLoading v s :=
  mkSession (deviceUUID s) (playerName s) (mode s) (singleBase s)
    (singleNet s) (singleLastAction s) (roomId s) (role s) (baseAmount s)
    (currentNet s) (lastActionAmount s) (bankerNet s) (players s)
    (roomStatus s) (tiePromptActive s) (error s) v.

(** The state of a freshly mounted hook with nothing in local storage. *)
Definition initial_session (device name : string) : Session :=
  mkSession device name None 0 0 0 None None 0 0 0 0 [] None None None false.

(* ===================================================================== *)
(** ** Single-player actions *)
(* ===================================================================== *)

(** Apply a multiplier in single-player mode. *)
Definition singlePlayerAction (multiplier : Z) (s : Session) : Session :=
  if singleBase s <=? 0 then s
  else
    let delta := singleBase s * multiplier in
    setSingleLastAction delta (setSingleNet (fun prev => prev + delta) s).

(** Undo the last single-player action (one step). *)
Definition singlePlayerUndo (s : Session) : Session :=
  if singleLastAction s =? 0 then s
  else
    setSingleLastAction 0
      (setSingleNet (fun prev => prev - singleLastAction s) s).

(** A sequence of [applyAction]/[undo] calls on the single-player store. *)
Inductive SingleOp := OpAction (multiplier : Z) | OpUndo.

Definition single_step (s : Session) (op : SingleOp) : Session :=
  match op with
  | OpAction m => singlePlayerAction m s
  | OpUndo => singlePlayerUndo s
  end.

Definition run_single (ops : list SingleOp) (s : Session) : Session :=
  fold_left single_step ops s.

(* ===================================================================== *)
(** ** The backing store (Supabase client calls used by the hook) *)
(* ===================================================================== *)

Module Supabase.
Import Db.

(** The [{ data, error }] object a query resolves to. *)
Record Response (A : Type) := mkResponse {
  data : option A;
  error : option StoreError
}.
Arguments mkResponse {A} _ _.
Arguments data {A} _.
Arguments error {A} _.

(** The columns an [update] call sets; [None]: the key is not in the
    payload. *)
Record Payload := mkPayload {
  set_name : option string;
  set_base_amount : option Z;
  set_current_net : option Z;
  set_last_action_amount : option Z;
  set_room_id : option string;
  set_updated_at : option string;
  set_round_history : option (list Round.t)
}.

Definition no_rows : StoreError :=
  mkError "JSON object requested, multiple (or no) rows returned".
Definition duplicate_key : StoreError :=
  mkError "duplicate key value violates unique constraint".

(** [from('rooms').select('*').eq('id', code).single()]: an error unless
    exactly one row matches. *)
Definition rooms_select_single (code : string) (db : Store)
  : Response RoomRow :=
  match rooms db !! code with
  | Some r => mkResponse (Some r) None
  | None => mkResponse None (Some no_rows)
  end.

(** [from('players').select('*').eq('room_id', code).eq('uuid', u)
    .maybeSingle()]: [uuid] is the primary key, so at most one row
    matches.  A read that fails resolves to null [data] and the error. *)
Definition players_select_maybeSingle (verdict : option StoreError)
    (code u : string) (db : Store) : Response PlayerRow :=
  match verdict with
  | Some e => mkResponse None (Some e)
  | None =>
      match players db !! u with
      | Some p =>
          if decide (room_id p = code) then mkResponse (Some p) None
          else mkResponse None None
      | None => mkResponse None None
      end
  end.

(** The rows of [players] whose [room_id] is [code]. *)
Definition in_room (code : string) (kv : string * PlayerRow) : Prop :=
  room_id kv.2 = code.

#[global] Instance in_room_dec code kv : Decision (in_room code kv).
Proof. unfold in_room. apply _. Defined.

Definition room_rows (code : string) (db : Store) : gmap string PlayerRow :=
  filter (in_room code) (players db).

(** The number of rows of [players] whose [room_id] is [code]. *)
Definition players_count (code : string) (db : Store) : nat :=
  size (room_rows code db).

(** The [{ count, error }] object a [head: true] count query resolves to. *)
Record CountResponse := mkCount {
  count : option nat;
  count_error : option StoreError
}.

(** [from('players').select('uuid', { count: 'exact', head: true })
    .eq('room_id', code)]: a read that fails resolves to a null [count]. *)
Definition players_select_count (verdict : option StoreError)
    (code : string) (db : Store) : CountResponse :=
  match verdict with
  | Some e => mkCount None (Some e)
  | None => mkCount (Some (players_count code db)) None
  end.

(** [from('players').select('*').eq('room_id', code)]. *)
Definition players_select_room (code : string) (db : Store)
  : Response (list PlayerRow) :=
  mkResponse (Some ((map_to_list (room_rows code db)).*2)) None.

(** [from('rooms').insert(row)]: refused on a primary-key conflict. *)
Definition rooms_insert (verdict : option StoreError) (r : RoomRow)
    (db : Store) : option StoreError * Store :=
  match verdict with
  | Some e => (Some e, db)
  | None =>
      match rooms db !! id r with
      | Some _ => (Some duplicate_key, db)
      | None => (None, mkStore (<[id r := r]> (rooms db)) (players db))
      end
  end.

(** [from('players').upsert(row)]: insert, or overwrite the given columns
    of the row with the same primary key.  The hook's rows never carry
    [updated_at], which therefore keeps its old value. *)
Definition players_upsert (verdict : option StoreError) (r : PlayerRow)
    (db : Store) : option StoreError * Store :=
  match verdict with
  | Some e => (Some e, db)
  | None =>
      let kept := players db !! uuid r ≫= updated_at in
      let r' := mkPlayer (uuid r) (room_id r) (Db.role r) (name r)
                  (base_amount r) (current_net r) (last_action_amount r)
                  (round_history r) kept in
      (None, mkStore (rooms db) (<[uuid r := r']> (players db)))
  end.

Definition choose {A} (new old : option A) : option A :=
  match new with Some v => Some v | None => old end.

Definition apply_payload (p : Payload) (r : PlayerRow) : PlayerRow :=
  mkPlayer (uuid r)
    (default (room_id r) (set_room_id p))
    (Db.role r)
    (default (name r) (set_name p))
    (choose (set_base_amount p) (base_amount r))
    (choose (set_current_net p) (current_net r))
    (choose (set_last_action_amount p) (last_action_amount r))
    (choose (set_round_history p) (round_history r))
    (choose (set_updated_at p) (updated_at r)).

(** [from('players').update(payload).eq('uuid', u).eq('room_id', room)]:
    changes the matching row if there is one; matching no row is not an
    error.  A null [room] matches no row. *)
Definition players_update (verdict : option StoreError) (p : Payload)
    (u : string) (room : option string) (db : Store)
  : option StoreError * Store :=
  match verdict with
  | Some e => (Some e, db)
  | None =>
      match room, players db !! u with
      | Some code, Some r =>
          if decide (room_id r = code)
          then (None, mkStore (rooms db)
                        (<[u := apply_payload p r]> (players db)))
          else (None, db)
      | _, _ => (None, db)
      end
  end.
End Supabase.

(* ===================================================================== *)
(** ** A state-and-exception monad over the world *)
(* ===================================================================== *)

Record World := mkWorld {
  session : Session;
  store : Db.Store;
  localStorage : gmap string string
}.

(** What a [throw] carries: [new Error(msg)] or the store's error object. *)
Inductive Exn :=
| JsError (msg : string)
| StoreExn (e : Db.StoreError).

Definition exn_message (e : Exn) : string :=
  match e with
  | JsError msg => msg
  | StoreExn e => Db.message e
  end.

Definition M (A : Type) : Type := World -> (Exn + A) * World.

Definition ret {A} (a : A) : M A := fun w => (inr a, w).

Definition bind {A B} (c : M A) (k : A -> M B) : M B :=
  fun w =>
    match c w with
    | (inl e, w') => (inl e, w')
    | (inr a, w') => k a w'
    end.

Definition throw {A} (e : Exn) : M A := fun w => (inl e, w).

Notation "'let*' x ':=' c 'in' k" := (bind c (fun x => k))
  (at level 10, x name, c at level 100, k at level 200).
Notation "c1 ';;' c2" := (bind c1 (fun _ => c2))
  (at level 100, c2 at level 200, right associativity).

(** The values captured by the callback's closure. *)
Definition closure : M Session := fun w => (inr (session w), w).

(** A [setX(...)] call. *)
Definition upd (f : Session -> Session) : M unit :=
  fun w => (inr tt, mkWorld (f (session w)) (store w) (localStorage w)).

(** An awaited read. *)
Definition query {A} (q : Db.Store -> A) : M A :=
  fun w => (inr (q (store w)), w).

(** An awaited write; the result is the [error] of its response. *)
Definition remote (op : Db.Store -> option Db.StoreError * Db.Store)
  : M (option Db.StoreError) :=
  fun w =>
    let '(e, db) := op (store w) in
    (inr e, mkWorld (session w) db (localStorage w)).

Definition localStorage_setItem (k v : string) : M unit :=
  fun w => (inr tt, mkWorld (session w) (store w) (<[k := v]> (localStorage w))).

(** [try { body } catch (err) { handler err } finally { fin }]. *)
Definition try_catch_finally (body : M unit) (handler : Exn -> M unit)
    (fin : M unit) : M unit :=
  fun w =>
    let '(r, w1) := body w in
    let '(r', w2) :=
      match r with
      | inl e => handler e w1
      | inr _ => (inr tt, w1)
      end in
    let '(rf, w3) := fin w2 in
    match rf with
    | inl e => (inl e, w3)
    | inr _ => (r', w3)
    end.

(** The world a call leaves behind, and what it returned or threw. *)
Definition exec {A} (c : M A) (w : World) : World := (c w).2.
Definition outcome {A} (c : M A) (w : World) : Exn + A := (c w).1.

(* ===================================================================== *)
(** ** Multiplayer: create and join a room *)
(* ===================================================================== *)

Definition is_player (r : option Role) : bool :=
  bool_decide (r = Some player).

(** The body of [createRoom]'s [try] block.  [code] is the result of
    [generateRoomCode()] and [suffix] the four characters of the fresh UUID
    used in the fallback name; both are random draws of the call.  The
    closure's [playerName] is the name the callback was created with; no
    operation of this model changes it. *)
Definition createRoom_try (code suffix : string)
    (roomVerdict playerVerdict : option Db.StoreError) : M unit :=
  let* c := closure in
  let* roomErr :=
    remote (Supabase.rooms_insert roomVerdict
              (Db.mkRoom code (deviceUUID c) active)) in
  match roomErr with
  | Some e => throw (StoreExn e)
  | None =>
      let* playerErr :=
        remote (Supabase.players_upsert playerVerdict
                  (Db.mkPlayer (deviceUUID c) code banker
                     (str_or (playerName c) ("Player " ++ suffix))
                     (Some 0) (Some 0) (Some 0) (Some []) None)) in
      match playerErr with
      | Some e => throw (StoreExn e)
      | None =>
          upd (setRoomId (Some code)) ;;
          upd (setRole (Some banker)) ;;
          upd (setRoomStatus (Some active)) ;;
          upd (setMode (Some multi)) ;;
          localStorage_setItem "auto_join_room" code
      end
  end.

Definition createRoom (code suffix : string)
    (roomVerdict playerVerdict : option Db.StoreError) : M unit :=
  upd (setLoading true) ;;
  upd (setError None) ;;
  try_catch_finally
    (createRoom_try code suffix roomVerdict playerVerdict)
    (fun err =>
       upd (setError (Some (str_or (exn_message err) "Failed to create room"))))
    (upd (setLoading false)).

Definition room_full_message : string := "Room is full (max 15 players)".

(** The store's verdicts for the calls of one [joinRoom]: the reconnection
    read, the count read and the upsert. *)
Record JoinVerdicts := mkJoin {
  existingVerdict : option Db.StoreError;
  countVerdict : option Db.StoreError;
  insertVerdict : option Db.StoreError
}.

(** Both reads are answered; the upsert gets the verdict [v]. *)
Definition answered (v : option Db.StoreError) : JoinVerdicts :=
  mkJoin None None v.

(** [count >= 15] on the [count] of the response: [null >= 15] is false. *)
Definition count_at_least_15 (count : option nat) : bool :=
  match count with
  | Some n => (15 <=? n)%nat
  | None => false
  end.

(** The body of [joinRoom]'s [try] block. *)
Definition joinRoom_try (code : string) (j : JoinVerdicts) : M unit :=
  let* c := closure in
  (* 1. Check if room exists and is active *)
  let* found := query (Supabase.rooms_select_single code) in
  match Supabase.error found, Supabase.data found with
  | None, Some room =>
      if bool_decide (Db.status room <> active)
      then throw (JsError "Room has ended")
      else
        (* 2. Check for reconnection *)
        let* existing :=
          query (Supabase.players_select_maybeSingle (existingVerdict j)
                   code (deviceUUID c)) in
        match Supabase.data existing with
        | Some row =>
            upd (setRoomId (Some code)) ;;
            upd (setRole (Some (Db.role row))) ;;
            upd (setBaseAmount (or0 (Db.base_amount row))) ;;
            upd (setCurrentNet (or0 (Db.current_net row))) ;;
            upd (setLastActionAmount (or0 (Db.last_action_amount row))) ;;
            upd (setRoomStatus (Some (Db.status room))) ;;
            upd (setMode (Some multi)) ;;
            localStorage_setItem "auto_join_room" code
        | None =>
            (* 3. Check player count (max 15) *)
            let* counted :=
              query (Supabase.players_select_count (countVerdict j) code) in
            if count_at_least_15 (Supabase.count counted)
            then throw (JsError room_full_message)
            else
              (* 4. Determine role *)
              let assignedRole :=
                if bool_decide (Db.banker_uuid room = deviceUUID c)
                then banker else player in
              (* 5. Upsert player *)
              let* insertErr :=
                remote (Supabase.players_upsert (insertVerdict j)
                          (Db.mkPlayer (deviceUUID c) code assignedRole
                             (playerName c)
                             (Some 0) (Some 0) (Some 0) (Some []) None)) in
              match insertErr with
              | Some e => throw (StoreExn e)
              | None =>
                  upd (setRoomId (Some code)) ;;
                  upd (setRole (Some assignedRole)) ;;
                  upd (setRoomStatus (Some (Db.status room))) ;;
                  upd (setMode (Some multi)) ;;
                  localStorage_setItem "auto_join_room" code
              end
        end
  | _, _ => throw (JsError "Room not found")
  end.

Definition joinRoom (code : string) (j : JoinVerdicts) : M unit :=
  upd (setLoading true) ;;
  upd (setError None) ;;
  try_catch_finally
    (joinRoom_try code j)
    (fun err =>
       upd (setError (Some (str_or (exn_message err) "Failed to join room"))))
    (upd (setLoading false)).

(* ===================================================================== *)
(** ** Multiplayer: player actions *)
(* ===================================================================== *)

(** The readings of the clock a call makes: [Date.now()],
    [new Date().toISOString()], and the [toLocaleTimeString] of the [i]-th
    loop iteration. *)
Record Clock := mkClock {
  now : Z;
  iso : string;
  locale_time : nat -> string
}.

(** Set the player's base amount and persist it; the response is not
    looked at. *)
Definition setPlayerBase (verdict : option Db.StoreError) (amount : Z)
  : M unit :=
  let* c := closure in
  upd (setBaseAmount amount) ;;
  match roomId c with
  | Some r =>
      if bool_decide (r = "") then ret tt
      else
        let* _ :=
          remote (Supabase.players_update verdict
                    (Supabase.mkPayload None (Some amount) None None
                       (Some r) None None)
                    (deviceUUID c) (roomId c)) in
        ret tt
  | None => ret tt
  end.

(** Apply a multiplier action in multiplayer mode. *)
Definition playerAction (clock : Clock) (verdict : option Db.StoreError)
    (multiplier : Z) (updatedHistory : option (list Round.t)) : M unit :=
  let* c := closure in
  if (baseAmount c <=? 0) || negb (is_player (role c)) then ret tt
  else
    let delta := baseAmount c * multiplier in
    let newNet := currentNet c + delta in
    (* Optimistic update *)
    upd (setCurrentNet newNet) ;;
    upd (setLastActionAmount delta) ;;
    let payload :=
      Supabase.mkPayload None None (Some newNet) (Some delta) (roomId c)
        (Some (iso clock)) updatedHistory in
    let* updateErr :=
      remote (Supabase.players_update verdict payload
                (deviceUUID c) (roomId c)) in
    match updateErr with
    | Some _ =>
        (* Rollback optimistic update on error *)
        upd (setCurrentNet (currentNet c)) ;;
        upd (setLastActionAmount (lastActionAmount c)) ;;
        upd (setError (Some "Failed to update. Please try again."))
    | None => ret tt
    end.

(** Undo the last multiplayer action (one step). *)
Definition playerUndo (clock : Clock) (verdict : option Db.StoreError)
    (updatedHistory : option (list Round.t)) : M unit :=
  let* c := closure in
  if (lastActionAmount c =? 0) || negb (is_player (role c)) then ret tt
  else
    let newNet := currentNet c - lastActionAmount c in
    upd (setCurrentNet newNet) ;;
    let prevLastAction := lastActionAmount c in
    upd (setLastActionAmount 0) ;;
    let payload :=
      Supabase.mkPayload None None (Some newNet) (Some 0) (roomId c)
        (Some (iso clock)) updatedHistory in
    let* updateErr :=
      remote (Supabase.players_update verdict payload
                (deviceUUID c) (roomId c)) in
    match updateErr with
    | Some _ =>
        upd (setCurrentNet (currentNet c)) ;;
        upd (setLastActionAmount prevLastAction) ;;
        upd (setError (Some "Undo failed. Please try again."))
    | None => ret tt
    end.

(** The loop [for (let i = 0; i < count; i++) newRecords.push({...})]:
    [todo] iterations are left and the loop counter is [i]. *)
Fixpoint push_ties (clock : Clock) (todo i : nat) (newRecords : list Round.t)
  : list Round.t :=
  match todo with
  | O => newRecords
  | S todo' =>
      push_ties clock todo' (S i)
        (newRecords ++ [Round.mk (now clock + Z.of_nat i) 0 0
                          (locale_time clock i)])
  end.

(** Mass insert ties.  The result is the returned history; [None] is the
    [undefined] of the guarded early return. *)
Definition playerMassTie (clock : Clock) (verdict : option Db.StoreError)
    (count : Z) (currentRoundHistory : list Round.t)
  : M (option (list Round.t)) :=
  let* c := closure in
  if (count <=? 0) || negb (is_player (role c)) then ret None
  else
    let newRecords := push_ties clock (Z.to_nat count) 0 [] in
    let updatedHistory := newRecords ++ currentRoundHistory in
    upd (setLastActionAmount 0) ;;
    let payload :=
      Supabase.mkPayload None None (Some (currentNet c)) (Some 0) (roomId c)
        (Some (iso clock)) (Some updatedHistory) in
    let* updateErr :=
      remote (Supabase.players_update verdict payload
                (deviceUUID c) (roomId c)) in
    match updateErr with
    | Some _ =>
        upd (setError (Some "Failed to log missing rounds. Please try again.")) ;;
        ret (Some updatedHistory)
    | None => ret (Some updatedHistory)
    end.

(* ===================================================================== *)
(** ** Multiplayer: the banker's view *)
(* ===================================================================== *)

(** [data.reduce((sum, p) => sum + (p.current_net || 0), 0)]. *)
Definition totalPlayerNet (data : list Db.PlayerRow) : Z :=
  fold_left (fun sum p => sum + or0 (Db.current_net p)) data 0.

(** What [fetchRoomPlayers] does with the response of its query. *)
Definition on_players_fetched (resp : Supabase.Response (list Db.PlayerRow))
  : M unit :=
  match Supabase.error resp, Supabase.data resp with
  | None, Some data =>
      upd (setPlayers data) ;;
      upd (setBankerNet (- totalPlayerNet data))
  | _, _ => ret tt
  end.

(** Fetch all players in the room and compute the banker's net. *)
Definition fetchRoomPlayers : M unit :=
  let* c := closure in
  match roomId c with
  | None => ret tt
  | Some r =>
      if bool_decide (r = "") then ret tt
      else
        let* resp := query (Supabase.players_select_room r) in
        on_players_fetched resp
  end.

(* ===================================================================== *)
(** ** BankerBoard: the majority round count *)
(* ===================================================================== *)

Module BankerBoard.

(** The loop variables: the [counts] object, [maxCount] and
    [majorityRounds]. *)
Record Tally := mkTally {
  counts : gmap nat nat;
  maxCount : nat;
  majorityRounds : nat
}.

Definition activePlayers (players : list Db.PlayerRow) : list Db.PlayerRow :=
  filter (fun p => Db.role p = player) players.

Definition roundCounts (players : list Db.PlayerRow) : list nat :=
  map (fun p => length (default [] (Db.round_history p)))
      (activePlayers players).

(** One iteration of [for (const rounds of roundCounts)]. *)
Definition tally_step (t : Tally) (rounds : nat) : Tally :=
  let c := (default 0 (counts t !! rounds) + 1)%nat in
  let counts' := <[rounds := c]> (counts t) in
  if (maxCount t <? c)%nat then mkTally counts' c rounds
  else if (c =? maxCount t)%nat && (majorityRounds t <? rounds)%nat
       then mkTally counts' (maxCount t) rounds
       else mkTally counts' (maxCount t) (majorityRounds t).

Definition majority_of (roundCounts : list nat) : nat :=
  if (0 <? length roundCounts)%nat
  then majorityRounds (fold_left tally_step roundCounts (mkTally ∅ 0 0))
  else 0%nat.

(** The value of [majorityRounds] the board renders. *)
Definition majority (players : list Db.PlayerRow) : nat :=
  majority_of (roundCounts players).

End BankerBoard.

(** How often a round count occurs among the players' round counts. *)
Definition frequency (l : list nat) (x : nat) : nat :=
  count_occ Nat.eq_dec l x.

(** What the loop variables of the majority computation say about the round
    counts seen so far. *)
Record tally_inv (seen : list nat) (t : BankerBoard.Tally) : Prop := mkInv {
  inv_counts : forall x,
    default 0%nat (BankerBoard.counts t !! x) = frequency seen x;
  inv_bound : forall x, (frequency seen x <= BankerBoard.maxCount t)%nat;
  inv_reached : seen <> [] ->
    frequency seen (BankerBoard.majorityRounds t) = BankerBoard.maxCount t;
  inv_largest : forall x, seen <> [] ->
    frequency seen x = BankerBoard.maxCount t ->
    (x <= BankerBoard.majorityRounds t)%nat;
  inv_start : seen = [] -> BankerBoard.maxCount t = 0%nat
}.

(* ===================================================================== *)
(** ** Several devices on one store *)
(* ===================================================================== *)

(** A device whose hook has just mounted, with empty local storage. *)
Definition fresh_world (device : string) (db : Db.Store) : World :=
  mkWorld (initial_session device "") db ∅.

Definition empty_store : Db.Store := Db.mkStore ∅ ∅.

(** Device [device] calls [joinRoom(code)] on store [db], every read being
    answered and every write accepted: the [error] cell it ends with, and
    the store afterwards. *)
Definition join_as (code device : string) (db : Db.Store)
  : option string * Db.Store :=
  let w := exec (joinRoom code (answered None)) (fresh_world device db) in
  (error (session w), store w).

Fixpoint join_in_sequence (code : string) (devices : list string)
    (db : Db.Store) : list (option string) :=
  match devices with
  | [] => []
  | d :: ds =>
      let '(r, db') := join_as code d db in
      r :: join_in_sequence code ds db'
  end.

(** The banker's device creates room [code]; then [devices] join one after
    the other. *)
Definition create_then_join (code bankerDevice : string)
    (devices : list string) (db : Db.Store) : list (option string) :=
  join_in_sequence code devices
    (store (exec (createRoom code "" None None) (fresh_world bankerDevice db))).

(** Device [u] has no participant record in room [code]. *)
Definition not_in_room (code u : string) (db : Db.Store) : Prop :=
  forall row, Db.players db !! u = Some row -> Db.room_id row <> code.

(** A room as the capacity check sees it: [c] participant records, then [n]
    further identities asking to join one after the other. *)
Fixpoint capacity_outcomes (c n : nat) : list (option string) :=
  match n with
  | O => []
  | S n' =>
      if (c <? 15)%nat then None :: capacity_outcomes (S c) n'
      else Some room_full_message :: capacity_outcomes c n'
  end.

(** The session fields a failed room operation must not touch. *)
Definition session_kept (s s' : Session) : Prop :=
  mode s' = mode s
  /\ roomId s' = roomId s
  /\ role s' = role s
  /\ baseAmount s' = baseAmount s
  /\ currentNet s' = currentNet s
  /\ lastActionAmount s' = lastActionAmount s
  /\ roomStatus s' = roomStatus s.

(** The record a first join of room [code] writes for the device of [w]. *)
Definition joining_row (code : string) (w : World) (room : Db.RoomRow)
  : Db.PlayerRow :=
  Db.mkPlayer (deviceUUID (session w)) code
    (if bool_decide (Db.banker_uuid room = deviceUUID (session w))
     then banker else player)
    (playerName (session w)) (Some 0) (Some 0) (Some 0) (Some []) None.

(** The reconnection read shows no record of the device in room [code]:
    there is none, or the read failed. *)
Definition no_record_seen (code : string) (j : JoinVerdicts) (w : World)
  : Prop :=
  existingVerdict j <> None
  \/ not_in_room code (deviceUUID (session w)) (store w).

(** The count read shows fewer than 15 records in room [code]: there are
    fewer, or the read failed. *)
Definition room_seen_free (code : string) (j : JoinVerdicts) (w : World)
  : Prop :=
  countVerdict j <> None
  \/ (Supabase.players_count code (store w) < 15)%nat.

(** The six paths through [joinRoom]'s [try] block, by what the store holds
    and how it answers the two unchecked reads and the one write. *)
Inductive join_path (code : string) (j : JoinVerdicts) (w : World) : Prop :=
| path_not_found :
    Db.rooms (store w) !! code = None -> join_path code j w
| path_ended room :
    Db.rooms (store w) !! code = Some room ->
    Db.status room <> active -> join_path code j w
| path_reconnect room row :
    Db.rooms (store w) !! code = Some room ->
    Db.status room = active ->
    existingVerdict j = None ->
    Db.players (store w) !! deviceUUID (session w) = Some row ->
    Db.room_id row = code -> join_path code j w
| path_full room :
    Db.rooms (store w) !! code = Some room ->
    Db.status room = active ->
    no_record_seen code j w ->
    countVerdict j = None ->
    (15 <= Supabase.players_count code (store w))%nat ->
    join_path code j w
| path_refused room e :
    Db.rooms (store w) !! code = Some room ->
    Db.status room = active ->
    no_record_seen code j w ->
    room_seen_free code j w ->
    insertVerdict j = Some e -> join_path code j w
| path_joined room :
    Db.rooms (store w) !! code = Some room ->
    Db.status room = active ->
    no_record_seen code j w ->
    room_seen_free code j w ->
    insertVerdict j = None -> join_path code j w.

(* ===================================================================== *)
(** ** The specification's wording, for comparison *)
(* ===================================================================== *)

Definition sum_nets (rows : list Db.PlayerRow) : Z :=
  foldr (fun p acc => or0 (Db.current_net p) + acc) 0 rows.

(** The banker aggregate as the specification words it: the negated sum of
    [currentNet] over the records whose role is Player. *)
Definition spec_banker_aggregate (rows : list Db.PlayerRow) : Z :=
  - sum_nets (filter (fun p => Db.role p = player) rows).

(* ===================================================================== *)
(** ** Sample data *)
(* ===================================================================== *)

Definition sample_clock : Clock :=
  mkClock 1700000000000 "2024-01-01T12:00:00.000Z" (fun _ => "12:00:00").

Definition sample_devices : list string :=
  ["p01"; "p02"; "p03"; "p04"; "p05"; "p06"; "p07"; "p08";
   "p09"; "p10"; "p11"; "p12"; "p13"; "p14"; "p15"; "p16"].

Fixpoint store_after_joins (code : string) (devices : list string)
    (db : Db.Store) : Db.Store :=
  match devices with
  | [] => db
  | d :: ds => store_after_joins code ds (join_as code d db).2
  end.

(** Room 4821, just created by device [bank]. *)
Definition room_4821 : Db.Store :=
  store (exec (createRoom "4821" "" None None) (fresh_world "bank" empty_store)).

(** Device [p01] has joined room 4821, set base 2 and won twice at x1. *)
Definition player_world : World :=
  exec (playerAction sample_clock None 1 None)
    (exec (playerAction sample_clock None 1 None)
       (exec (setPlayerBase None 2)
          (exec (joinRoom "4821" (answered None))
             (fresh_world "p01" room_4821)))).

(** Room 4821 with the banker, [p01] as above, and [p02] .. [p14]. *)
Definition busy_room : Db.Store :=
  store_after_joins "4821" (drop 1 (take 14 sample_devices))
    (store player_world).

(** A refusal of the store. *)
Definition refused : Db.StoreError := Db.mkError "network error".

Definition sample_round (i : Z) : Round.t := Round.mk i 1 2 "12:00:00".

(** Fetched rows: a banker record carrying a net of 5 and two players. *)
Definition sample_rows : list Db.PlayerRow :=
  [ Db.mkPlayer "bank" "4821" banker "B" (Some 0) (Some 5) (Some 0)
      (Some []) None;
    Db.mkPlayer "p01" "4821" player "A" (Some 2) (Some 3) (Some 2)
      (Some [sample_round 3; sample_round 2; sample_round 1]) None;
    Db.mkPlayer "p02" "4821" player "C" (Some 5) None (Some 0)
      None None ].

Definition sample_store : Db.Store :=
  Db.mkStore {[ "4821" := Db.mkRoom "4821" "bank" active ]}
    (list_to_map (map (fun p => (Db.uuid p, p)) sample_rows)).

(** The banker's device, in room 4821 over [sample_store]. *)
Definition banker_world : World :=
  exec (joinRoom "4821" (answered None)) (fresh_world "bank" sample_store).

(* ===================================================================== *)
(** ** The rest of the hook: identity, leaving, the tie prompt *)
(* ===================================================================== *)

(** A string in a boolean position: [null] and the empty string are falsy. *)
Definition truthy (o : option string) : bool :=
  match o with
  | Some s => negb (bool_decide (s = ""))
  | None => false
  end.

(** Get or create the device UUID; [fresh] is the draw of [uuidv4()].  The
    result is the id and the local storage afterwards. *)
Definition getDeviceUUID (fresh : string) (ls : gmap string string)
  : string * gmap string string :=
  if truthy (ls !! "device_uuid")
  then (default "" (ls !! "device_uuid"), ls)
  else (fresh, <["device_uuid" := fresh]> ls).

Definition localStorage_getItem (k : string) : M (option string) :=
  fun w => (inr (localStorage w !! k), w).

Definition localStorage_removeItem (k : string) : M unit :=
  fun w => (inr tt, mkWorld (session w) (store w) (delete k (localStorage w))).

(** Set the base amount for single-player. *)
Definition setSinglePlayerBase (amount : Z) : M unit :=
  upd (setSingleBase amount).

(** Reset the single-player session. *)
Definition singlePlayerExit : M unit :=
  upd (setSingleBase 0) ;;
  upd (setSingleNet (fun _ => 0)) ;;
  upd (setSingleLastAction 0) ;;
  localStorage_removeItem "single_base" ;;
  localStorage_removeItem "single_net" ;;
  localStorage_removeItem "single_last_action" ;;
  localStorage_removeItem "auto_join_room" ;;
  upd (setMode None).

(** [from('rooms').update({ status }).eq('id', code)]: matching no row is
    not an error. *)
Definition rooms_update_status (verdict : option Db.StoreError)
    (st : RoomStatus) (code : string) (db : Db.Store)
  : option Db.StoreError * Db.Store :=
  match verdict with
  | Some e => (Some e, db)
  | None =>
      match Db.rooms db !! code with
      | Some r =>
          (None,
           Db.mkStore
             (<[code := Db.mkRoom (Db.id r) (Db.banker_uuid r) st]>
                (Db.rooms db))
             (Db.players db))
      | None => (None, db)
      end
  end.

(** The hook together with its [realtimeChannelRef]: the name of the channel
    it is subscribed to, if any. *)
Record Device := mkDevice {
  world : World;
  realtimeChannelRef : option string
}.

(** What [leaveRoom] does to the session, the store and local storage: a
    banker who leaves marks the room as ended (the response is not looked
    at); then every multiplayer cell is reset. *)
Definition leaveRoom_world (verdict : option Db.StoreError) : M unit :=
  let* c := closure in
  (if bool_decide (role c = Some banker) && truthy (roomId c)
   then
     let* _ :=
       remote (rooms_update_status verdict ended (default "" (roomId c))) in
     ret tt
   else ret tt) ;;
  upd (setRoomId None) ;;
  upd (setRole None) ;;
  upd (setBaseAmount 0) ;;
  upd (setCurrentNet 0) ;;
  upd (setLastActionAmount 0) ;;
  upd (setBankerNet 0) ;;
  upd (setPlayers []) ;;
  upd (setRoomStatus None) ;;
  upd (setTiePromptActive None) ;;
  upd (setMode None) ;;
  upd (setError None) ;;
  localStorage_removeItem "auto_join_room".

(** [leaveRoom]: the above, and the subscription is dropped. *)
Definition leaveRoom (verdict : option Db.StoreError) (d : Device) : Device :=
  mkDevice (exec (leaveRoom_world verdict) (world d)) None.

(** The body of the subscription effect: in a multiplayer room, a banker
    fetches the players, and the hook subscribes to the channel
    [room-<roomId>]. *)
Definition subscription_effect (d : Device) : Device :=
  let s := session (world d) in
  if negb (bool_decide (mode s = Some multi)) || negb (truthy (roomId s))
  then d
  else
    mkDevice
      (if bool_decide (role s = Some banker)
       then exec fetchRoomPlayers (world d)
       else world d)
      (Some ("room-" +:+ default "" (roomId s))).

(** The clean-up of the subscription effect. *)
Definition subscription_cleanup (d : Device) : Device :=
  mkDevice (world d) None.

(** The payload of a [prompt_tie] broadcast as the receiver reads it
    ([payload.payload?.x]: a field may be missing). *)
Record TiePayload := mkTiePayload {
  target_uuid : option string;
  missedRounds : option Z
}.

(** A broadcast on a room channel. *)
Record Broadcast := mkBroadcast {
  channel_name : string;
  payload : TiePayload
}.

(** Banker: prompt one player to log missing rounds.  The result is the
    message handed to the channel, if any. *)
Definition promptPlayerTie (playerId : string) (missingCount : Z)
    (d : Device) : option Broadcast :=
  if negb (bool_decide (role (session (world d)) = Some banker))
  then None
  else
    match realtimeChannelRef d with
    | None => None
    | Some ch =>
        Some (mkBroadcast ch (mkTiePayload (Some playerId) (Some missingCount)))
    end.

(** [missedRounds || 1]. *)
Definition missed_or_1 (m : option Z) : Z :=
  match m with
  | Some n => if n =? 0 then 1 else n
  | None => 1
  end.

(** Player: the handler of the [prompt_tie] broadcast. *)
Definition on_prompt_tie (p : TiePayload) : M unit :=
  let* c := closure in
  if bool_decide (target_uuid p = Some (deviceUUID c))
  then upd (setTiePromptActive (Some (missed_or_1 (missedRounds p))))
  else ret tt.

(** A broadcast reaches a device subscribed to its channel; only a player's
    subscription carries the [prompt_tie] handler. *)
Definition receive (b : Broadcast) (d : Device) : Device :=
  if bool_decide (realtimeChannelRef d = Some (channel_name b))
     && is_player (role (session (world d)))
  then mkDevice (exec (on_prompt_tie (payload b)) (world d))
         (realtimeChannelRef d)
  else d.

(** The player answers the tie prompt.  [None] is the [null] (or the
    [undefined] of [playerMassTie]'s guard) the call resolves to. *)
Definition resolveTiePrompt (clock : Clock) (verdict : option Db.StoreError)
    (accept : bool) (currentRoundHistory : list Round.t)
  : M (option (list Round.t)) :=
  let* c := closure in
  let missingCount := default 1 (tiePromptActive c) in
  upd (setTiePromptActive None) ;;
  if accept
  then
    if 1 <? missingCount
    then playerMassTie clock verdict missingCount currentRoundHistory
    else ret None
  else ret None.

(** The auto-join effect, run when the hook mounts; [j] holds the store's
    verdicts for the [joinRoom] it may start. *)
Definition autoJoin_effect (j : JoinVerdicts) : M unit :=
  let* c := closure in
  let* savedRoom := localStorage_getItem "auto_join_room" in
  if truthy savedRoom
     && negb (bool_decide (is_Some (mode c)))
     && negb (loading c)
     && negb (truthy (roomId c))
  then joinRoom (default "" savedRoom) j
  else ret tt.

(* ===================================================================== *)
(** ** BankerBoard: the player list *)
(* ===================================================================== *)

Module BankerView.

(** Count active players (non-banker). *)
Definition playerCount (players : list Db.PlayerRow) : nat :=
  length (BankerBoard.activePlayers players).

Definition pRounds (p : Db.PlayerRow) : nat :=
  length (default [] (Db.round_history p)).

Definition isBehind (players : list Db.PlayerRow) (p : Db.PlayerRow) : bool :=
  (pRounds p <? BankerBoard.majority players)%nat.

End BankerView.

(* ===================================================================== *)
(** ** PlayerBoard: the round history kept by the board *)
(* ===================================================================== *)

Module PlayerBoard.
Section Handlers.

(** [JSON.stringify] on a round history. *)
Variable stringify : list Round.t -> string.

(** The board: the hook it renders and its own [roundHistory] cell. *)
Record Board := mkBoard {
  device : Device;
  roundHistory : list Round.t
}.

(** The props App passes in, by mode. *)
Definition baseAmount_prop (md : Mode) (s : Session) : Z :=
  match md with
  | single => singleBase s
  | multi => baseAmount s
  end.

Definition currentNet_prop (md : Mode) (s : Session) : Z :=
  match md with
  | single => singleNet s
  | multi => currentNet s
  end.

Definition lastActionAmount_prop (md : Mode) (s : Session) : Z :=
  match md with
  | single => singleLastAction s
  | multi => lastActionAmount s
  end.

Definition onAction (md : Mode) (clock : Clock)
    (verdict : option Db.StoreError) (m : Z) : M unit :=
  match md with
  | single => upd (singlePlayerAction m)
  | multi => playerAction clock verdict m None
  end.

Definition onUndo (md : Mode) (clock : Clock)
    (verdict : option Db.StoreError) : M unit :=
  match md with
  | single => upd singlePlayerUndo
  | multi => playerUndo clock verdict None
  end.

Definition onExit (md : Mode) (verdict : option Db.StoreError) (d : Device)
  : Device :=
  match md with
  | single => mkDevice (exec singlePlayerExit (world d)) (realtimeChannelRef d)
  | multi => leaveRoom verdict d
  end.

Definition store_history (h : list Round.t) (d : Device) : Device :=
  mkDevice
    (exec (localStorage_setItem "player_round_history" (stringify h)) (world d))
    (realtimeChannelRef d).

Definition handleAction (md : Mode) (clock : Clock)
    (verdict : option Db.StoreError) (m : Z) (b : Board) : Board :=
  let d := mkDevice (exec (onAction md clock verdict m) (world (device b)))
             (realtimeChannelRef (device b)) in
  let amount := m * baseAmount_prop md (session (world (device b))) in
  let newRecord := Round.mk (now clock) m amount (locale_time clock 0) in
  let updatedHistory := newRecord :: roundHistory b in
  mkBoard (store_history updatedHistory d) updatedHistory.

Definition handleUndo (md : Mode) (clock : Clock)
    (verdict : option Db.StoreError) (b : Board) : Board :=
  let d := mkDevice (exec (onUndo md clock verdict) (world (device b)))
             (realtimeChannelRef (device b)) in
  if (0 <? length (roundHistory b))%nat
  then
    let updatedHistory := drop 1 (roundHistory b) in
    mkBoard (store_history updatedHistory d) updatedHistory
  else mkBoard d (roundHistory b).

Definition handleExit (md : Mode) (verdict : option Db.StoreError)
    (b : Board) : Board :=
  let d := onExit md verdict (device b) in
  mkBoard
    (mkDevice (exec (localStorage_removeItem "player_round_history") (world d))
       (realtimeChannelRef d))
    [].

End Handlers.
End PlayerBoard.

(** The sum of the amounts of a round history. *)
Definition history_total (h : list Round.t) : Z :=
  foldr (fun r acc => Round.amount r + acc) 0 h.

(* ===================================================================== *)
(** ** Relations between a session and the store *)
(* ===================================================================== *)

(** The session's net and last delta are those of the device's stored
    record, which lies in the session's room. *)
Definition in_sync (w : World) : Prop :=
  exists row,
    Db.players (store w) !! deviceUUID (session w) = Some row
    /\ roomId (session w) = Some (Db.room_id row)
    /\ Db.current_net row = Some (currentNet (session w))
    /\ Db.last_action_amount row = Some (lastActionAmount (session w)).

(** From [db] to [db'] nothing changed but, at most, the amounts, history
    and timestamp of the record of [u]. *)
Definition own_record_only (u : string) (db db' : Db.Store) : Prop :=
  Db.rooms db' = Db.rooms db
  /\ (forall v, v <> u -> Db.players db' !! v = Db.players db !! v)
  /\ (Db.players db !! u = None -> Db.players db' !! u = None)
  /\ (forall row, Db.players db !! u = Some row ->
        exists row',
          Db.players db' !! u = Some row'
          /\ Db.uuid row' = Db.uuid row
          /\ Db.room_id row' = Db.room_id row
          /\ Db.role row' = Db.role row
          /\ Db.name row' = Db.name row).

(** The payload [playerAction] sends. *)
Definition action_payload (clock : Clock) (s : Session) (multiplier : Z)
    (updatedHistory : option (list Round.t)) : Supabase.Payload :=
  Supabase.mkPayload None None
    (Some (currentNet s + baseAmount s * multiplier))
    (Some (baseAmount s * multiplier)) (roomId s) (Some (iso clock))
    updatedHistory.

(** The payload [playerUndo] sends. *)
Definition undo_payload (clock : Clock) (s : Session)
    (updatedHistory : option (list Round.t)) : Supabase.Payload :=
  Supabase.mkPayload None None
    (Some (currentNet s - lastActionAmount s)) (Some 0) (roomId s)
    (Some (iso clock)) updatedHistory.

(** The multiplayer cells after [leaveRoom]. *)
Definition reset_multiplayer (s : Session) : Session :=
  setError None
    (setMode None
       (setTiePromptActive None
          (setRoomStatus None
             (setPlayers []
                (setBankerNet 0
                   (setLastActionAmount 0
                      (setCurrentNet 0
                         (setBaseAmount 0
                            (setRole None (setRoomId None s)))))))))).

(** The session after [joinRoom] found the device's record [row] in the
    active room [room]. *)
Definition reconnected (code : string) (room : Db.RoomRow)
    (row : Db.PlayerRow) (s : Session) : Session :=
  setLoading false
    (setMode (Some multi)
       (setRoomStatus (Some (Db.status room))
          (setLastActionAmount (or0 (Db.last_action_amount row))
             (setCurrentNet (or0 (Db.current_net row))
                (setBaseAmount (or0 (Db.base_amount row))
                   (setRole (Some (Db.role row))
                      (setRoomId (Some code)
                         (setError None (setLoading true s))))))))).

(** The session after a first [joinRoom] wrote the record [row]. *)
Definition joined (code : string) (room : Db.RoomRow) (row : Db.PlayerRow)
    (s : Session) : Session :=
  setLoading false
    (setMode (Some multi)
       (setRoomStatus (Some (Db.status room))
          (setRole (Some (Db.role row))
             (setRoomId (Some code)
                (setError None (setLoading true s)))))).

(** The session after a room operation failed with message [msg]. *)
Definition failed_with (msg : string) (s : Session) : Session :=
  setLoading false (setError (Some msg) (setError None (setLoading true s))).

(** The board's history accounts for the net: the net is [c] plus the total
    of the recorded amounts, and a pending last action is the amount of the
    most recent record. *)
Definition board_balanced (md : Mode) (c : Z) (b : PlayerBoard.Board) : Prop :=
  let s := session (world (PlayerBoard.device b)) in
  PlayerBoard.currentNet_prop md s
    = c + history_total (PlayerBoard.roundHistory b)
  /\ (PlayerBoard.lastActionAmount_prop md s <> 0 ->
      exists r rest,
        PlayerBoard.roundHistory b = r :: rest
        /\ Round.amount r = PlayerBoard.lastActionAmount_prop md s).

(** The board of the sample player, showing the two rounds played. *)
Definition sample_board : PlayerBoard.Board :=
  PlayerBoard.mkBoard (mkDevice player_world None)
    [sample_round 2; sample_round 1].

(* ===================================================================== *)
(** ** Single-player actions on JavaScript numbers *)
(* ===================================================================== *)

(** The single-player cells hold JavaScript numbers, and the base stake is
    whatever [parseFloat] read: the reducer below is the one above with
    IEEE 754 binary64 values and operations (round to nearest, ties to
    even) in place of the integers. *)
Module F64.

Definition prec : Z := 53.
Definition emax : Z := 1024.

(** A number: zero, infinity, the one NaN or a finite value
    [(-1)^s * m * 2^e]. *)
Definition number : Type := spec_float.

Definition add : number -> number -> number := SFadd prec emax.
Definition sub : number -> number -> number := SFsub prec emax.
Definition mul : number -> number -> number := SFmul prec emax.
Definition div : number -> number -> number := SFdiv prec emax.

(** [x <= y] and [x === y] on numbers. *)
Definition leb : number -> number -> bool := SFleb.
Definition eqb : number -> number -> bool := SFeqb.

(** The literal [0], and the number an integer literal denotes. *)
Definition zero : number := S754_zero false.
Definition of_Z (z : Z) : number := binary_normalize prec emax z 0 false.

(** [p] shifted left by [k] bits. *)
Definition shl (p : positive) (k : Z) : positive :=
  match k with
  | Zpos n => Pos.iter xO p n
  | _ => p
  end.

(** The number of binary digits of [p]. *)
Definition digits (p : positive) : Z := Zpos (digits2_pos p).

(** The double that is the integer [p] (below 2^53) with sign [s]: a 53-bit
    mantissa and the matching exponent. *)
Definition canon (s : bool) (p : positive) : number :=
  S754_finite s (shl p (53 - digits p)) (digits p - 53).

(** The integer [p] with sign [s]. *)
Definition signed (s : bool) (p : positive) : Z :=
  if s then Zneg p else Zpos p.

Record Cells := mkCells {
  singleBase : number;
  singleNet : number;
  singleLastAction : number
}.

(** Apply a multiplier in single-player mode. *)
Definition singlePlayerAction (multiplier : number) (s : Cells) : Cells :=
  if leb (singleBase s) zero then s
  else
    let delta := mul (singleBase s) multiplier in
    mkCells (singleBase s) (add (singleNet s) delta) delta.

(** Undo the last single-player action (one step). *)
Definition singlePlayerUndo (s : Cells) : Cells :=
  if eqb (singleLastAction s) zero then s
  else mkCells (singleBase s) (sub (singleNet s) (singleLastAction s)) zero.

Inductive SingleOp := OpAction (multiplier : number) | OpUndo.

Definition single_step (s : Cells) (op : SingleOp) : Cells :=
  match op with
  | OpAction m => singlePlayerAction m s
  | OpUndo => singlePlayerUndo s
  end.

Definition run_single (ops : list SingleOp) (s : Cells) : Cells :=
  fold_left single_step ops s.

(** The call [applyAction m] on state [s] stores a nonzero [lastDelta]. *)
Definition sets_nonzero_delta (m : number) (s : Cells) : Prop :=
  leb (singleBase s) zero = false
  /\ eqb (mul (singleBase s) m) zero = false.

(** The undo property as the specification words it, "equals" being [===]:
    the trace is [before], an [applyAction] that stores a nonzero
    [lastDelta], [between] (in which no call stores a nonzero [lastDelta])
    and an [undo]. *)
Definition spec_undo_restores : Prop :=
  forall (s0 : Cells) (before between : list SingleOp) (m : number),
    sets_nonzero_delta m (run_single before s0) ->
    (forall l1 m' l2,
        between = l1 ++ OpAction m' :: l2 ->
        ~ sets_nonzero_delta m'
            (run_single (before ++ OpAction m :: l1) s0)) ->
    eqb (singleNet
           (run_single (before ++ OpAction m :: between ++ [OpUndo]) s0))
        (singleNet (run_single before s0)) = true.

(** A stake of 0.1: the double nearest to 1/10, which is what
    [parseFloat("0.1")] returns. *)
Definition tenth : number := div (of_Z 1) (of_Z 10).

End F64.

(* ===================================================================== *)
(** ** The player's name, and the banker's change notifications *)
(* ===================================================================== *)

(** Set the player's name and persist it to local storage and, for a player
    in a room, to the store; the response is not looked at.  The
    [playerName] cell this call also sets is the one the views render;
    [createRoom] and [joinRoom] keep the name they captured when the hook
    mounted (their dependency list is [deviceUUID] alone), and that captured
    name is the [playerName] of [Session]. *)
Definition setPlayerName (clock : Clock) (verdict : option Db.StoreError)
    (name : string) : M unit :=
  let* c := closure in
  localStorage_setItem "player_name" name ;;
  if bool_decide (mode c = Some multi) && truthy (roomId c)
     && is_player (role c)
  then
    let* _ :=
      remote (Supabase.players_update verdict
                (Supabase.mkPayload (Some name) None None None None
                   (Some (iso clock)) None)
                (deviceUUID c) (roomId c)) in
    ret tt
  else ret tt.

(** Banker: the handler of a [postgres_changes] notification. *)
Definition on_postgres_change : M unit := fetchRoomPlayers.

(** A change of a participant record of the room is announced on the room's
    channel; only a banker's subscription carries the handler. *)
Definition notify_change (d : Device) : Device :=
  if bool_decide (is_Some (realtimeChannelRef d))
     && bool_decide (role (session (world d)) = Some banker)
  then mkDevice (exec on_postgres_change (world d)) (realtimeChannelRef d)
  else d.

(* ===================================================================== *)
(** ** Several hooks on one store *)
(* ===================================================================== *)

(** A mounted hook: its cells and the local storage of its browser. *)
Record Hook := mkHook {
  hook_session : Session;
  hook_storage : gmap string string
}.

(** The store and the hooks mounted on it. *)
Record System := mkSystem {
  database : Db.Store;
  hooks : list Hook
}.

Definition world_of (db : Db.Store) (h : Hook) : World :=
  mkWorld (hook_session h) db (hook_storage h).

Definition hook_of (w : World) : Hook :=
  mkHook (session w) (localStorage w).

(** A call of one of the hook's operations that reach the store, with the
    arguments and the store's verdicts of that call. *)
Inductive Call :=
| call_createRoom (code suffix : string)
    (roomVerdict playerVerdict : option Db.StoreError)
| call_joinRoom (code : string) (j : JoinVerdicts)
| call_autoJoin (j : JoinVerdicts)
| call_setPlayerName (clock : Clock) (verdict : option Db.StoreError)
    (name : string)
| call_setPlayerBase (verdict : option Db.StoreError) (amount : Z)
| call_playerAction (clock : Clock) (verdict : option Db.StoreError)
    (multiplier : Z) (updatedHistory : option (list Round.t))
| call_playerUndo (clock : Clock) (verdict : option Db.StoreError)
    (updatedHistory : option (list Round.t))
| call_playerMassTie (clock : Clock) (verdict : option Db.StoreError)
    (count : Z) (currentRoundHistory : list Round.t)
| call_resolveTiePrompt (clock : Clock) (verdict : option Db.StoreError)
    (accept : bool) (currentRoundHistory : list Round.t)
| call_fetchRoomPlayers
| call_leaveRoom (verdict : option Db.StoreError).

Definition run_call (c : Call) (w : World) : World :=
  match c with
  | call_createRoom code suffix rv pv => exec (createRoom code suffix rv pv) w
  | call_joinRoom code j => exec (joinRoom code j) w
  | call_autoJoin j => exec (autoJoin_effect j) w
  | call_setPlayerName clock v name => exec (setPlayerName clock v name) w
  | call_setPlayerBase v amount => exec (setPlayerBase v amount) w
  | call_playerAction clock v m h => exec (playerAction clock v m h) w
  | call_playerUndo clock v h => exec (playerUndo clock v h) w
  | call_playerMassTie clock v n hist => exec (playerMassTie clock v n hist) w
  | call_resolveTiePrompt clock v accept hist =>
      exec (resolveTiePrompt clock v accept hist) w
  | call_fetchRoomPlayers => exec fetchRoomPlayers w
  | call_leaveRoom v => exec (leaveRoom_world v) w
  end.

(** Hook number [i] makes the call [c]. *)
Definition call (i : nat) (c : Call) (sys : System) : System :=
  match hooks sys !! i with
  | Some h =>
      let w' := run_call c (world_of (database sys) h) in
      mkSystem (store w') (<[i := hook_of w']> (hooks sys))
  | None => sys
  end.

(** A hook mounts on device [device], with captured name [name]. *)
Definition mount (device name : string) (ls : gmap string string)
    (sys : System) : System :=
  mkSystem (database sys)
    (hooks sys ++ [mkHook (initial_session device name) ls]).

(** What no step of a hook other than the calls above changes: its
    identity, its room and its role. *)
Definition same_identity (s s' : Session) : Prop :=
  deviceUUID s' = deviceUUID s
  /\ roomId s' = roomId s
  /\ role s' = role s.

(** The states the program reaches from the empty store: hooks mount, make
    calls, and change their other cells and their local storage (mode
    selection, the single-player store, the tie prompt). *)
Inductive reachable : System -> Prop :=
| reach_start : reachable (mkSystem empty_store [])
| reach_mount sys device name ls :
    reachable sys -> reachable (mount device name ls sys)
| reach_call sys i c :
    reachable sys -> reachable (call i c sys)
| reach_local sys i h s' ls' :
    reachable sys ->
    hooks sys !! i = Some h ->
    same_identity (hook_session h) s' ->
    reachable (mkSystem (database sys) (<[i := mkHook s' ls']> (hooks sys))).

(** What the program keeps true of the store: every participant record
    lies in an existing room, is a banker's record exactly when its key is
    the room's banker, and then carries a net of 0. *)
Definition store_ok (db : Db.Store) : Prop :=
  forall u row,
    Db.players db !! u = Some row ->
    exists room,
      Db.rooms db !! Db.room_id row = Some room
      /\ (Db.role row = banker <-> Db.banker_uuid room = u)
      /\ (Db.role row = banker -> or0 (Db.current_net row) = 0).

(** What the program keeps true of a hook: a hook with the role of player
    is in an existing room of which its device is not the banker. *)
Definition hook_ok (db : Db.Store) (s : Session) : Prop :=
  role s = Some player ->
  forall code, roomId s = Some code ->
  exists room,
    Db.rooms db !! code = Some room
    /\ Db.banker_uuid room <> deviceUUID s.

(** Rooms are never deleted and keep their banker. *)
Definition rooms_extend (db db' : Db.Store) : Prop :=
  forall code room,
    Db.rooms db !! code = Some room ->
    exists room',
      Db.rooms db' !! code = Some room'
      /\ Db.banker_uuid room' = Db.banker_uuid room.

(** The store after a ledger operation of a hook with cells [s]: untouched,
    or the caller's record in the caller's room updated, the net being
    written by a player only. *)
Definition ledger_write (s : Session) (db db' : Db.Store) : Prop :=
  db' = db
  \/ exists p,
       db' = (Supabase.players_update None p (deviceUUID s) (roomId s) db).2
       /\ (Supabase.set_room_id p = None
           \/ Supabase.set_room_id p = roomId s)
       /\ (is_Some (Supabase.set_current_net p) -> role s = Some player).

(** What a call that takes the world from [w] to [w'] keeps. *)
Definition preserved (w w' : World) : Prop :=
  store_ok (store w')
  /\ hook_ok (store w') (session w')
  /\ rooms_extend (store w) (store w').

Definition system_ok (sys : System) : Prop :=
  store_ok (database sys)
  /\ Forall (fun h => hook_ok (database sys) (hook_session h)) (hooks sys).

(** A banker creates room 4821; a player joins, sets a stake of 2 and wins
    once. *)
Definition sample_system : System :=
  call 1 (call_playerAction sample_clock None 1 None)
    (call 1 (call_setPlayerBase None 2)
       (call 1 (call_joinRoom "4821" (answered None))
          (mount "p01" "" ∅
             (call 0 (call_createRoom "4821" "" None None)
                (mount "bank" "" ∅ (mkSystem empty_store [])))))).

(** The banker's hook in [sample_system]. *)
Definition sample_banker : Hook :=
  mkHook
    (setLoading false
       (setMode (Some multi)
          (setRoomStatus (Some active)
             (setRole (Some banker)
                (setRoomId (Some "4821")
                   (setError None
                      (setLoading true (initial_session "bank" ""))))))))
    {[ "auto_join_room" := "4821" ]}.

(* ===================================================================== *)
(** * Properties *)
(* ===================================================================== *)

(** ** Single-player store *)

Section SinglePlayer.

Lemma singlePlayerAction_applied (m : Z) (s : Session) :
  0 < singleBase s ->
  singleNet (singlePlayerAction m s) = singleNet s + singleBase s * m
  /\ singleLastAction (singlePlayerAction m s) = singleBase s * m
  /\ singleBase (singlePlayerAction m s) = singleBase s.
Proof.
  intros Hb. unfold singlePlayerAction.
  destruct (singleBase s <=? 0) eqn:E.
  - apply Z.leb_le in E. lia.
  - simpl. auto.
Qed.

End SinglePlayer.

(** C8. In single-player mode, [applyAction(multiplier)] changes nothing when
    the base stake is zero or negative; otherwise it adds
    [baseStake * multiplier] to [currentNet] and stores that delta as
    [lastDelta]. *)
Theorem single_applyAction_spec (s : Session) (multiplier : Z) :
  (singleBase s <= 0 -> singlePlayerAction multiplier s = s)
  /\ (0 < singleBase s ->
      singleNet (singlePlayerAction multiplier s)
        = singleNet s + singleBase s * multiplier
      /\ singleLastAction (singlePlayerAction multiplier s)
        = singleBase s * multiplier).
Proof.
  split.
  - intros Hb. unfold singlePlayerAction.
    destruct (singleBase s <=? 0) eqn:E; [reflexivity |].
    apply Z.leb_gt in E. lia.
  - intros Hb.
    destruct (singlePlayerAction_applied multiplier s Hb) as (Hn & Hl & _).
    now split.
Qed.

Lemma single_applyAction_spec_witness :
  let s := setSingleNet (fun _ => 4) (setSingleBase 2 (initial_session "d" "")) in
  singleNet (singlePlayerAction 3 s) = 10
  /\ singleLastAction (singlePlayerAction 3 s) = 6
  /\ singlePlayerAction 3 (initial_session "d" "") = initial_session "d" "".
Proof.
  intros s.
  destruct (single_applyAction_spec s 3) as [_ Hpos].
  destruct (single_applyAction_spec (initial_session "d" "") 3) as [Hzero _].
  destruct Hpos as [Hn Hl]; [simpl; lia |].
  split; [| split].
  - rewrite Hn. reflexivity.
  - rewrite Hl. reflexivity.
  - apply Hzero. simpl. lia.
Defined.

(** ** Integers below 2^53 are computed exactly *)

Section Exactness.

Lemma iter_xO_val (p n : positive) :
  Zpos (Pos.iter xO p n) = Zpos p * 2 ^ Zpos n.
Proof.
  induction n as [| n IH] using Pos.peano_ind.
  - cbn [Pos.iter]. rewrite (Pos2Z.inj_xO p). change (2 ^ 1) with 2. lia.
  - rewrite Pos.iter_succ, (Pos2Z.inj_xO (Pos.iter xO p n)), IH, Pos2Z.inj_succ.
    rewrite Z.pow_succ_r by lia. lia.
Qed.

Lemma shl_val (p : positive) (k : Z) :
  0 <= k -> Zpos (F64.shl p k) = Zpos p * 2 ^ k.
Proof.
  intros Hk. destruct k as [| n | n]; [cbn; lia | apply iter_xO_val | lia].
Qed.

Lemma iter_xO_digits (p n : positive) :
  digits2_pos (Pos.iter xO p n) = (digits2_pos p + n)%positive.
Proof.
  induction n as [| n IH] using Pos.peano_ind.
  - cbn. lia.
  - rewrite Pos.iter_succ. cbn [digits2_pos]. rewrite IH. lia.
Qed.

Lemma shl_digits (p : positive) (k : Z) :
  0 <= k -> F64.digits (F64.shl p k) = F64.digits p + k.
Proof.
  intros Hk. unfold F64.digits.
  destruct k as [| n | n]; [cbn; lia | | lia].
  cbn [F64.shl]. rewrite iter_xO_digits. lia.
Qed.

Lemma shl_inv (M p : positive) (k : Z) :
  0 <= k -> Zpos M = Zpos p * 2 ^ k -> M = F64.shl p k.
Proof.
  intros Hk H. apply Pos2Z.inj. now rewrite shl_val.
Qed.

Lemma shl_shl (p : positive) (a b : Z) :
  0 <= a -> 0 <= b -> F64.shl (F64.shl p a) b = F64.shl p (a + b).
Proof.
  intros Ha Hb. apply shl_inv; [lia |].
  rewrite !shl_val by lia. rewrite Z.pow_add_r by lia. lia.
Qed.

Lemma digits_bounds (p : positive) :
  2 ^ (F64.digits p - 1) <= Zpos p < 2 ^ F64.digits p.
Proof.
  unfold F64.digits.
  induction p as [p IH | p IH |]; cbn [digits2_pos].
  - rewrite Pos2Z.inj_succ, (Pos2Z.inj_xI p).
    replace (Z.succ (Zpos (digits2_pos p)) - 1) with
      (Z.succ (Zpos (digits2_pos p) - 1)) by lia.
    rewrite !Z.pow_succ_r by lia. lia.
  - rewrite Pos2Z.inj_succ, (Pos2Z.inj_xO p).
    replace (Z.succ (Zpos (digits2_pos p)) - 1) with
      (Z.succ (Zpos (digits2_pos p) - 1)) by lia.
    rewrite !Z.pow_succ_r by lia. lia.
  - cbn. lia.
Qed.

Lemma digits_le_53 (p : positive) : Zpos p < 2 ^ 53 -> F64.digits p <= 53.
Proof.
  intros Hp. destruct (Z_le_gt_dec (F64.digits p) 53) as [H | H]; [exact H |].
  exfalso. pose proof (digits_bounds p) as [Hlo _].
  assert (2 ^ 53 <= 2 ^ (F64.digits p - 1))
    by (apply Z.pow_le_mono_r; lia).
  lia.
Qed.

Lemma digits_pos (p : positive) : 1 <= F64.digits p.
Proof. unfold F64.digits. lia. Qed.

Lemma digits_mono (p q : positive) :
  (p <= q)%positive -> F64.digits p <= F64.digits q.
Proof.
  intros Hpq. destruct (Z_le_gt_dec (F64.digits p) (F64.digits q)); [easy |].
  exfalso. pose proof (digits_bounds p) as [Hlo _].
  pose proof (digits_bounds q) as [_ Hhi].
  assert (2 ^ F64.digits q <= 2 ^ (F64.digits p - 1))
    by (apply Z.pow_le_mono_r; lia).
  lia.
Qed.

Lemma iter_pos_iter {A : Type} (f : A -> A) (n : positive) :
  forall x, SpecFloat.iter_pos f n x = Pos.iter f x n.
Proof.
  induction n as [n IH | n IH |]; intros x; cbn [SpecFloat.iter_pos Pos.iter].
  - rewrite !IH. now rewrite <- !Pos.iter_swap.
  - now rewrite !IH.
  - reflexivity.
Qed.

(** Shifting right the zeros that a left shift put in loses nothing. *)
Lemma shr_exact (m n : positive) :
  SpecFloat.iter_pos shr_1 n
    {| shr_m := Zpos (Pos.iter xO m n); shr_r := false; shr_s := false |}
  = {| shr_m := Zpos m; shr_r := false; shr_s := false |}.
Proof.
  rewrite iter_pos_iter. revert m.
  induction n as [| n IH] using Pos.peano_ind; intros m.
  - reflexivity.
  - rewrite !Pos.iter_succ. rewrite <- Pos.iter_swap. cbn [shr_1 orb].
    apply IH.
Qed.

(** Rounding a canonical mantissa that carries [k] extra zero bits. *)
Lemma round_aux_exact (s : bool) (m : positive) (e k : Z) :
  F64.digits m = 53 ->
  -1074 <= e <= 971 ->
  0 <= k ->
  binary_round_aux F64.prec F64.emax s (Zpos (F64.shl m k)) (e - k) loc_Exact
  = S754_finite s m e.
Proof.
  intros Hd He Hk.
  assert (Hfexp : forall x, fexp F64.prec F64.emax (53 + x) = Z.max x (-1074)).
  { intros x. unfold fexp, emin, F64.prec, F64.emax. lia. }
  unfold binary_round_aux, shr_fexp. cbn [Zdigits2 shr_record_of_loc].
  change (Zpos (digits2_pos (F64.shl m k))) with (F64.digits (F64.shl m k)).
  rewrite (shl_digits m k Hk), Hd.
  replace (53 + k + (e - k)) with (53 + e) by lia.
  rewrite Hfexp. replace (Z.max e (-1074) - (e - k)) with k by lia.
  assert (Hshr : shr {| shr_m := Zpos (F64.shl m k); shr_r := false;
                        shr_s := false |} (e - k) k
                 = ({| shr_m := Zpos m; shr_r := false; shr_s := false |}, e)).
  { destruct k as [| n | n]; [| | lia].
    - cbn [shr F64.shl]. f_equal. lia.
    - cbn [shr F64.shl]. rewrite shr_exact. f_equal. lia. }
  rewrite Hshr. cbn [shr_m loc_of_shr_record round_nearest_even Zdigits2].
  change (Zpos (digits2_pos m)) with (F64.digits m). rewrite Hd, Hfexp.
  replace (Z.max e (-1074) - e) with 0 by lia.
  cbn [shr shr_m shr_record_of_loc].
  replace (e <=? F64.emax - F64.prec) with true; [reflexivity |].
  symmetry. apply Z.leb_le. unfold F64.emax, F64.prec. lia.
Qed.

Lemma round_aux_exact_at (s : bool) (m M : positive) (e E : Z) :
  F64.digits m = 53 ->
  -1074 <= e <= 971 ->
  E <= e ->
  M = F64.shl m (e - E) ->
  binary_round_aux F64.prec F64.emax s (Zpos M) E loc_Exact
  = S754_finite s m e.
Proof.
  intros Hd He HE ->.
  pose proof (round_aux_exact s m e (e - E) Hd He ltac:(lia)) as H.
  replace (e - (e - E)) with E in H by lia. exact H.
Qed.

(** [binary_round] of the integer [p], given as [M * 2^E] with [E <= 0]. *)
Lemma binary_round_exact (s : bool) (p M : positive) (E : Z) :
  Zpos p < 2 ^ 53 ->
  E <= 0 ->
  M = F64.shl p (- E) ->
  binary_round F64.prec F64.emax s M E = F64.canon s p.
Proof.
  intros Hp HE ->. unfold binary_round, F64.canon.
  pose proof (digits_le_53 p Hp) as Hd. pose proof (digits_pos p) as Hd1.
  change (Zpos (digits2_pos (F64.shl p (- E))))
    with (F64.digits (F64.shl p (- E))).
  rewrite shl_digits by lia.
  replace (fexp F64.prec F64.emax (F64.digits p + - E + E))
    with (F64.digits p - 53)
    by (unfold fexp, emin, F64.prec, F64.emax; lia).
  replace (53 - F64.digits p) with (- (F64.digits p - 53)) by lia.
  set (ce := F64.digits p - 53).
  assert (Hcm : F64.digits (F64.shl p (- ce)) = 53)
    by (rewrite shl_digits by lia; lia).
  unfold shl_align.
  destruct (ce - E) as [| d | d] eqn:Hdiff.
  - apply round_aux_exact_at; [exact Hcm | lia | lia |].
    rewrite shl_shl by lia. f_equal. lia.
  - apply round_aux_exact_at; [exact Hcm | lia | lia |].
    rewrite shl_shl by lia. f_equal. lia.
  - change (Pos.iter xO (F64.shl p (- E)) d)
      with (F64.shl (F64.shl p (- E)) (Zpos d)).
    apply round_aux_exact_at; [exact Hcm | lia | lia |].
    rewrite !shl_shl by lia. f_equal. lia.
Qed.

(** The number an integer literal below 2^53 denotes. *)
Lemma of_Z_pos (p : positive) :
  Zpos p < 2 ^ 53 -> F64.of_Z (Zpos p) = F64.canon false p.
Proof.
  intros Hp. unfold F64.of_Z. cbn [binary_normalize].
  apply binary_round_exact; [exact Hp | lia | reflexivity].
Qed.

Lemma of_Z_neg (p : positive) :
  Zpos p < 2 ^ 53 -> F64.of_Z (Zneg p) = F64.canon true p.
Proof.
  intros Hp. unfold F64.of_Z. cbn [binary_normalize].
  apply binary_round_exact; [exact Hp | lia | reflexivity].
Qed.

(** [binary_normalize] of the integer [z], given as [S * 2^E]. *)
Lemma binary_normalize_exact (S z E : Z) :
  Z.abs z < 2 ^ 53 ->
  E <= 0 ->
  S = z * 2 ^ (- E) ->
  binary_normalize F64.prec F64.emax S E false = F64.of_Z z.
Proof.
  intros Hz HE ->.
  assert (Hpow : 0 < 2 ^ (- E)) by (apply Z.pow_pos_nonneg; lia).
  destruct z as [| p | p].
  - reflexivity.
  - rewrite (of_Z_pos p) by lia.
    destruct (Zpos p * 2 ^ (- E)) as [| M | M] eqn:HM; [lia | | lia].
    cbn [binary_normalize].
    apply binary_round_exact; [lia | exact HE |].
    apply shl_inv; [lia | now rewrite HM].
  - rewrite (of_Z_neg p) by lia.
    destruct (Zneg p * 2 ^ (- E)) as [| M | M] eqn:HM; [lia | lia |].
    cbn [binary_normalize].
    apply binary_round_exact; [lia | exact HE |].
    apply shl_inv; [lia |].
    assert (Zpos M = Zpos p * 2 ^ (- E)); [| assumption].
    change (Zneg p) with (- Zpos p) in HM.
    change (Zneg M) with (- Zpos M) in HM. lia.
Qed.

(** The integer a canonical double denotes, scaled by [2^(-e)]. *)
Lemma canon_aligned (s : bool) (p : positive) (ez : Z) :
  Zpos p < 2 ^ 53 ->
  ez <= F64.digits p - 53 ->
  cond_Zopp s
    (Zpos (fst (shl_align (F64.shl p (53 - F64.digits p))
                  (F64.digits p - 53) ez)))
  = (if s then Zneg p else Zpos p) * 2 ^ (- ez).
Proof.
  intros Hp Hez.
  pose proof (digits_le_53 p Hp) as Hd. pose proof (digits_pos p) as Hd1.
  assert (Hval : Zpos (fst (shl_align (F64.shl p (53 - F64.digits p))
                              (F64.digits p - 53) ez))
                 = Zpos p * 2 ^ (- ez)).
  { unfold shl_align.
    destruct (ez - (F64.digits p - 53)) as [| d | d] eqn:Hdiff;
      cbn [fst].
    - rewrite shl_val by lia. f_equal. f_equal. lia.
    - lia.
    - change (Pos.iter xO (F64.shl p (53 - F64.digits p)) d)
        with (F64.shl (F64.shl p (53 - F64.digits p)) (Zpos d)).
      rewrite shl_shl by lia. rewrite shl_val by lia.
      f_equal. f_equal. lia. }
  rewrite Hval. destruct s; cbn [cond_Zopp]; [| reflexivity].
  change (Zneg p) with (- Zpos p). lia.
Qed.

Lemma add_canon (sa sb : bool) (a b : positive) :
  Zpos a < 2 ^ 53 -> Zpos b < 2 ^ 53 ->
  Z.abs (F64.signed sa a + F64.signed sb b) < 2 ^ 53 ->
  F64.add (F64.canon sa a) (F64.canon sb b)
  = F64.of_Z (F64.signed sa a + F64.signed sb b).
Proof.
  intros Ha Hb Hab. unfold F64.add, F64.canon. cbn [SFadd].
  pose proof (digits_le_53 a Ha). pose proof (digits_le_53 b Hb).
  set (ez := Z.min (F64.digits a - 53) (F64.digits b - 53)).
  rewrite (canon_aligned sa a ez Ha) by (unfold ez; lia).
  rewrite (canon_aligned sb b ez Hb) by (unfold ez; lia).
  apply binary_normalize_exact; [exact Hab | unfold ez; lia |].
  unfold F64.signed. lia.
Qed.

Lemma sub_canon (sa sb : bool) (a b : positive) :
  Zpos a < 2 ^ 53 -> Zpos b < 2 ^ 53 ->
  Z.abs (F64.signed sa a - F64.signed sb b) < 2 ^ 53 ->
  F64.sub (F64.canon sa a) (F64.canon sb b)
  = F64.of_Z (F64.signed sa a - F64.signed sb b).
Proof.
  intros Ha Hb Hab. unfold F64.sub, F64.canon. cbn [SFsub].
  pose proof (digits_le_53 a Ha). pose proof (digits_le_53 b Hb).
  set (ez := Z.min (F64.digits a - 53) (F64.digits b - 53)).
  rewrite (canon_aligned sa a ez Ha) by (unfold ez; lia).
  rewrite (canon_aligned sb b ez Hb) by (unfold ez; lia).
  apply binary_normalize_exact; [exact Hab | unfold ez; lia |].
  unfold F64.signed. lia.
Qed.

Lemma of_Z_signed (s : bool) (p : positive) :
  Zpos p < 2 ^ 53 -> F64.of_Z (F64.signed s p) = F64.canon s p.
Proof. destruct s; [apply of_Z_neg | apply of_Z_pos]. Qed.

Lemma Z_signed (z : Z) :
  z = 0 \/ exists s p, z = F64.signed s p /\ Zpos p = Z.abs z.
Proof.
  destruct z as [| p | p]; [now left | right | right].
  - now exists false, p.
  - now exists true, p.
Qed.

(** Sums and differences of integers are exact as long as the operands and
    the result stay below 2^53. *)
Lemma add_exact (x y : Z) :
  Z.abs x < 2 ^ 53 -> Z.abs y < 2 ^ 53 -> Z.abs (x + y) < 2 ^ 53 ->
  F64.add (F64.of_Z x) (F64.of_Z y) = F64.of_Z (x + y).
Proof.
  intros Hx Hy Hxy.
  destruct (Z_signed x) as [-> | (sx & px & -> & Hpx)].
  { destruct (Z_signed y) as [-> | (sy & py & -> & Hpy)]; [reflexivity |].
    rewrite Z.add_0_l, of_Z_signed by lia. reflexivity. }
  destruct (Z_signed y) as [-> | (sy & py & -> & Hpy)].
  { rewrite Z.add_0_r, of_Z_signed by lia. reflexivity. }
  rewrite !of_Z_signed by lia. apply add_canon; lia.
Qed.

Lemma sub_exact (x y : Z) :
  Z.abs x < 2 ^ 53 -> Z.abs y < 2 ^ 53 -> Z.abs (x - y) < 2 ^ 53 ->
  F64.sub (F64.of_Z x) (F64.of_Z y) = F64.of_Z (x - y).
Proof.
  intros Hx Hy Hxy.
  destruct (Z_signed x) as [-> | (sx & px & -> & Hpx)].
  { destruct (Z_signed y) as [-> | (sy & py & -> & Hpy)]; [reflexivity |].
    rewrite of_Z_signed by lia.
    replace (0 - F64.signed sy py) with (F64.signed (negb sy) py)
      by (destruct sy; reflexivity).
    rewrite of_Z_signed by lia. reflexivity. }
  destruct (Z_signed y) as [-> | (sy & py & -> & Hpy)].
  { rewrite Z.sub_0_r, of_Z_signed by lia. reflexivity. }
  rewrite !of_Z_signed by lia. apply sub_canon; lia.
Qed.

Lemma mul_canon (sa sb : bool) (a b : positive) :
  Zpos (a * b) < 2 ^ 53 ->
  F64.mul (F64.canon sa a) (F64.canon sb b) = F64.canon (xorb sa sb) (a * b).
Proof.
  intros Hab.
  assert (Ha : Zpos a < 2 ^ 53) by (rewrite Pos2Z.inj_mul in Hab; nia).
  assert (Hb : Zpos b < 2 ^ 53) by (rewrite Pos2Z.inj_mul in Hab; nia).
  pose proof (digits_le_53 a Ha) as Hda. pose proof (digits_pos a) as Hda1.
  pose proof (digits_le_53 b Hb) as Hdb. pose proof (digits_pos b) as Hdb1.
  pose proof (digits_le_53 (a * b) Hab) as Hdq.
  assert (Hmono : F64.digits a <= F64.digits (a * b))
    by (apply digits_mono; nia).
  unfold F64.mul, F64.canon. cbn [SFmul].
  apply round_aux_exact_at.
  - rewrite shl_digits by lia. lia.
  - lia.
  - lia.
  - apply shl_inv; [lia |].
    rewrite Pos2Z.inj_mul, !shl_val by lia.
    rewrite (Pos2Z.inj_mul a b).
    assert (Hp : 2 ^ (53 - F64.digits (a * b))
                 * 2 ^ (F64.digits (a * b) - 53
                        - (F64.digits a - 53 + (F64.digits b - 53)))
                 = 2 ^ (53 - F64.digits a) * 2 ^ (53 - F64.digits b)).
    { rewrite <- !Z.pow_add_r by lia. f_equal. lia. }
    revert Hp.
    generalize (2 ^ (53 - F64.digits (a * b)))
               (2 ^ (F64.digits (a * b) - 53
                     - (F64.digits a - 53 + (F64.digits b - 53))))
               (2 ^ (53 - F64.digits a)) (2 ^ (53 - F64.digits b)).
    intros P3 P4 P1 P2 Hp.
    transitivity (Zpos a * Zpos b * (P1 * P2)); [ring |].
    rewrite <- Hp. ring.
Qed.

(** A positive integer stake times an integer multiplier. *)
Lemma mul_exact (x y : Z) :
  0 < x < 2 ^ 53 -> Z.abs (x * y) < 2 ^ 53 ->
  F64.mul (F64.of_Z x) (F64.of_Z y) = F64.of_Z (x * y).
Proof.
  intros Hx Hxy.
  destruct x as [| px | px]; [lia | | lia].
  rewrite (of_Z_pos px) by lia.
  destruct y as [| py | py].
  - reflexivity.
  - change (Zpos px * Zpos py) with (Zpos (px * py)) in *.
    rewrite (of_Z_pos py) by nia.
    rewrite (of_Z_pos (px * py)) by lia.
    apply mul_canon. lia.
  - change (Zpos px * Zneg py) with (Zneg (px * py)) in *.
    rewrite (of_Z_neg py) by nia.
    rewrite (of_Z_neg (px * py)) by lia.
    apply mul_canon. lia.
Qed.

Lemma eqb_of_Z_zero (x : Z) :
  Z.abs x < 2 ^ 53 ->
  F64.eqb (F64.of_Z x) F64.zero = bool_decide (x = 0).
Proof.
  intros Hx. destruct x as [| p | p].
  - reflexivity.
  - rewrite of_Z_pos by lia. reflexivity.
  - rewrite of_Z_neg by lia. reflexivity.
Qed.

End Exactness.

(** ** Single-player store over binary64 *)

Section SinglePlayerDoubles.

Lemma F64_run_single_app (l1 l2 : list F64.SingleOp) (s : F64.Cells) :
  F64.run_single (l1 ++ l2) s = F64.run_single l2 (F64.run_single l1 s).
Proof. unfold F64.run_single. apply fold_left_app. Qed.

Lemma F64_undo_idle (s : F64.Cells) :
  F64.eqb (F64.singleLastAction s) F64.zero = true ->
  F64.singlePlayerUndo s = s.
Proof. intros H. unfold F64.singlePlayerUndo. now rewrite H. Qed.

Lemma F64_undo_clears (s : F64.Cells) :
  F64.eqb (F64.singleLastAction (F64.singlePlayerUndo s)) F64.zero = true.
Proof.
  unfold F64.singlePlayerUndo.
  destruct (F64.eqb (F64.singleLastAction s) F64.zero) eqn:E;
    [exact E | reflexivity].
Qed.

Lemma F64_undos_idle (l : list F64.SingleOp) (s : F64.Cells) :
  Forall (fun op => op = F64.OpUndo) l ->
  F64.eqb (F64.singleLastAction s) F64.zero = true ->
  F64.run_single l s = s.
Proof.
  intros Hall. revert s.
  induction Hall as [| op l Hop _ IH]; intros s Hs; [reflexivity |].
  subst op.
  change (F64.run_single (F64.OpUndo :: l) s)
    with (F64.run_single l (F64.singlePlayerUndo s)).
  rewrite (F64_undo_idle s Hs). now apply IH.
Qed.

(** A non-empty run of undos is one undo. *)
Lemma F64_run_undos (l : list F64.SingleOp) (s : F64.Cells) :
  Forall (fun op => op = F64.OpUndo) l ->
  F64.run_single (l ++ [F64.OpUndo]) s = F64.singlePlayerUndo s.
Proof.
  intros Hall. destruct Hall as [| op l Hop Hall]; [reflexivity |].
  subst op.
  change (F64.run_single ((F64.OpUndo :: l) ++ [F64.OpUndo]) s)
    with (F64.run_single (l ++ [F64.OpUndo]) (F64.singlePlayerUndo s)).
  apply F64_undos_idle.
  - apply Forall_app. split; [exact Hall | repeat constructor].
  - apply F64_undo_clears.
Qed.

End SinglePlayerDoubles.

(** C6, as worded, fails on a decimal stake.  With a stake of 0.1 and nets
    starting at 0, after [applyAction(1)], [applyAction(2)] and [undo()]
    the net is 0.10000000000000003 (two units in the last place above
    0.1), while it was 0.1 right before [applyAction(2)], the most recent
    [applyAction] that stored a nonzero [lastDelta]. *)
Lemma undo_decimal_stake_counterexample :
  let s0 := F64.mkCells F64.tenth F64.zero F64.zero in
  let before := F64.run_single [F64.OpAction (F64.of_Z 1)] s0 in
  let after :=
    F64.run_single
      [F64.OpAction (F64.of_Z 1); F64.OpAction (F64.of_Z 2); F64.OpUndo] s0 in
  F64.sets_nonzero_delta (F64.of_Z 2) before
  /\ F64.singleNet before = F64.tenth
  /\ F64.singleNet after = S754_finite false 7205759403792796 (-56)
  /\ F64.tenth = S754_finite false 7205759403792794 (-56)
  /\ F64.eqb (F64.singleNet after) (F64.singleNet before) = false
  /\ ~ F64.spec_undo_restores.
Proof.
  intros s0 before after.
  assert (Hset : F64.sets_nonzero_delta (F64.of_Z 2) before)
    by (split; vm_compute; reflexivity).
  assert (Hneq : F64.eqb (F64.singleNet after) (F64.singleNet before) = false)
    by (vm_compute; reflexivity).
  split; [exact Hset |].
  split; [vm_compute; reflexivity |].
  split; [vm_compute; reflexivity |].
  split; [vm_compute; reflexivity |].
  split; [exact Hneq |].
  intros H.
  specialize (H s0 [F64.OpAction (F64.of_Z 1)] [] (F64.of_Z 2) Hset).
  assert (Hnone : forall l1 m' l2,
            @nil F64.SingleOp = l1 ++ F64.OpAction m' :: l2 ->
            ~ F64.sets_nonzero_delta m'
                (F64.run_single
                   ([F64.OpAction (F64.of_Z 1)]
                      ++ F64.OpAction (F64.of_Z 2) :: l1) s0)).
  { intros l1 m' l2 Heq. destruct l1; discriminate Heq. }
  specialize (H Hnone).
  change (F64.eqb (F64.singleNet after) (F64.singleNet before) = true) in H.
  rewrite Hneq in H. discriminate H.
Qed.

(** C6, amended.  For every sequence of [applyAction] and [undo] calls on
    numbers, take an [undo()] and the most recent preceding
    [applyAction()] that passed the stake guard, with [n] the net right
    before that call and [d] the delta it stored.  If [d] is not 0, the net
    right after the [undo()] is the double [(n + d) - d], the sum and the
    difference each rounded once, and [lastDelta] is 0; if [d] is 0, the
    [undo()] is a no-op and the net is [n + d].  When stake, multiplier and
    [n] are integers and stake, [d], [n] and [n + d] are below 2^53 in
    magnitude, that net is [n] itself.  And [undo()] with [lastDelta == 0]
    changes nothing. *)
Theorem undo_subtracts_stored_delta
    (s0 : F64.Cells) (before between : list F64.SingleOp) (m : F64.number) :
  let s1 := F64.run_single before s0 in
  let d := F64.mul (F64.singleBase s1) m in
  let s' :=
    F64.run_single (before ++ F64.OpAction m :: between ++ [F64.OpUndo]) s0 in
  F64.leb (F64.singleBase s1) F64.zero = false ->
  Forall (fun op => op = F64.OpUndo) between ->
  (F64.eqb d F64.zero = false ->
   F64.singleNet s' = F64.sub (F64.add (F64.singleNet s1) d) d
   /\ F64.singleLastAction s' = F64.zero)
  /\ (F64.eqb d F64.zero = true ->
      F64.singleNet s' = F64.add (F64.singleNet s1) d)
  /\ (forall b n k : Z,
        F64.singleBase s1 = F64.of_Z b ->
        F64.singleNet s1 = F64.of_Z n ->
        m = F64.of_Z k ->
        0 < b < 2 ^ 53 ->
        Z.abs (b * k) < 2 ^ 53 ->
        Z.abs n < 2 ^ 53 ->
        Z.abs (n + b * k) < 2 ^ 53 ->
        F64.singleNet s' = F64.singleNet s1)
  /\ (forall s, F64.eqb (F64.singleLastAction s) F64.zero = true ->
        F64.singlePlayerUndo s = s).
Proof.
  intros s1 d s' Hbase Hall.
  assert (Hs' : s' = F64.singlePlayerUndo (F64.singlePlayerAction m s1)).
  { subst s' s1. rewrite F64_run_single_app.
    change (F64.run_single (F64.OpAction m :: between ++ [F64.OpUndo]) ?s)
      with (F64.run_single (between ++ [F64.OpUndo])
              (F64.singlePlayerAction m s)).
    now apply F64_run_undos. }
  assert (Hact : F64.singlePlayerAction m s1
                 = F64.mkCells (F64.singleBase s1)
                     (F64.add (F64.singleNet s1) d) d).
  { unfold F64.singlePlayerAction. now rewrite Hbase. }
  assert (Hnz : F64.eqb d F64.zero = false ->
                F64.singleNet s' = F64.sub (F64.add (F64.singleNet s1) d) d
                /\ F64.singleLastAction s' = F64.zero).
  { intros Hd. rewrite Hs', Hact. unfold F64.singlePlayerUndo.
    cbn [F64.singleLastAction F64.singleNet F64.singleBase].
    rewrite Hd. split; reflexivity. }
  assert (Hz : F64.eqb d F64.zero = true ->
               F64.singleNet s' = F64.add (F64.singleNet s1) d).
  { intros Hd. rewrite Hs', Hact. unfold F64.singlePlayerUndo.
    cbn [F64.singleLastAction F64.singleNet F64.singleBase].
    rewrite Hd. reflexivity. }
  split; [exact Hnz |]. split; [exact Hz |]. split.
  - intros b n k Hb Hn Hm Hbb Hbk Hnn Hsum.
    assert (Hd : d = F64.of_Z (b * k)).
    { subst d. rewrite Hb, Hm. now apply mul_exact. }
    assert (Heq : F64.eqb d F64.zero = bool_decide (b * k = 0))
      by (rewrite Hd; now apply eqb_of_Z_zero).
    destruct (decide (b * k = 0)) as [H0 | H0].
    + rewrite bool_decide_eq_true_2 in Heq by exact H0.
      rewrite (Hz Heq), Hd, Hn, H0.
      rewrite add_exact by (cbn; lia). f_equal. lia.
    + rewrite bool_decide_eq_false_2 in Heq by exact H0.
      rewrite (proj1 (Hnz Heq)), Hd, Hn.
      rewrite add_exact by lia.
      rewrite sub_exact by (try lia; replace (n + b * k - b * k) with n; lia).
      f_equal. lia.
  - intros s Hs. unfold F64.singlePlayerUndo. now rewrite Hs.
Qed.

Lemma undo_subtracts_stored_delta_witness :
  let s0 := F64.mkCells F64.tenth F64.zero F64.zero in
  let s2 := F64.mkCells (F64.of_Z 2) (F64.of_Z 6) F64.zero in
  F64.singleNet
    (F64.run_single
       ([F64.OpAction (F64.of_Z 1)]
          ++ F64.OpAction (F64.of_Z 2) :: [] ++ [F64.OpUndo]) s0)
  = F64.sub (F64.add F64.tenth (F64.mul F64.tenth (F64.of_Z 2)))
      (F64.mul F64.tenth (F64.of_Z 2))
  /\ F64.singleNet
       (F64.run_single
          ([] ++ F64.OpAction (F64.of_Z (-3)) :: [F64.OpUndo] ++ [F64.OpUndo])
          s2)
     = F64.of_Z 6.
Proof.
  intros s0 s2. split.
  - destruct (undo_subtracts_stored_delta s0 [F64.OpAction (F64.of_Z 1)] []
                (F64.of_Z 2))
      as (Hnz & _ & _).
    + vm_compute. reflexivity.
    + constructor.
    + destruct Hnz as [Hnet _]; [vm_compute; reflexivity |].
      rewrite Hnet. vm_compute. reflexivity.
  - destruct (undo_subtracts_stored_delta s2 [] [F64.OpUndo]
                (F64.of_Z (-3)))
      as (_ & _ & Hint & _).
    + vm_compute. reflexivity.
    + repeat constructor.
    + exact (Hint 2 6 (-3) eq_refl eq_refl eq_refl
               ltac:(lia) ltac:(cbn; lia) ltac:(cbn; lia) ltac:(cbn; lia)).
Defined.

(** ** Optimistic updates of the participant ledger *)

Ltac unfold_monad :=
  unfold exec, outcome, bind, ret, throw, closure, upd, query, remote,
    localStorage_setItem, try_catch_finally in *.

Section Ledger.

Variable clock : Clock.

Lemma is_player_true (s : Session) :
  role s = Some player -> is_player (role s) = true.
Proof. intros ->. reflexivity. Qed.

(** An accepted write reports no error. *)
Lemma players_update_accepted p u room db :
  (Supabase.players_update None p u room db).1 = None.
Proof.
  unfold Supabase.players_update.
  destruct room; [| reflexivity].
  destruct (Db.players db !! u); [| reflexivity].
  case_decide; reflexivity.
Qed.

Lemma push_ties_length todo : forall i acc,
  length (push_ties clock todo i acc) = (length acc + todo)%nat.
Proof.
  induction todo as [| todo IH]; intros i acc; simpl.
  - lia.
  - rewrite IH, length_app. simpl. lia.
Qed.

Lemma push_ties_zero todo : forall i acc,
  Forall (fun r => Round.multiplier r = 0 /\ Round.amount r = 0) acc ->
  Forall (fun r => Round.multiplier r = 0 /\ Round.amount r = 0)
         (push_ties clock todo i acc).
Proof.
  induction todo as [| todo IH]; intros i acc Hacc; simpl; [exact Hacc |].
  apply IH, Forall_app. split; [exact Hacc |].
  constructor; [split; reflexivity | constructor].
Qed.

End Ledger.


(** C5. For a player and every [n > 0], [massTie(n)] returns the old round
    history with [n] entries of multiplier 0 and amount 0 put in front (so the
    round count grows by exactly [n]), leaves [currentNet] as it was and sets
    [lastDelta] to 0; when the write is accepted, the participant's stored
    record carries that history, the unchanged net and a zero last delta. *)
Theorem playerMassTie_inserts_ties
    (clock : Clock) (w : World) (verdict : option Db.StoreError)
    (n : Z) (currentRoundHistory : list Round.t) :
  0 < n ->
  role (session w) = Some player ->
  let ties := push_ties clock (Z.to_nat n) 0 [] in
  let w' := exec (playerMassTie clock verdict n currentRoundHistory) w in
  outcome (playerMassTie clock verdict n currentRoundHistory) w
    = inr (Some (ties ++ currentRoundHistory))
  /\ length (ties ++ currentRoundHistory)
     = (Z.to_nat n + length currentRoundHistory)%nat
  /\ Forall (fun r => Round.multiplier r = 0 /\ Round.amount r = 0) ties
  /\ currentNet (session w') = currentNet (session w)
  /\ lastActionAmount (session w') = 0
  /\ (verdict = None ->
      forall row,
        Db.players (store w) !! deviceUUID (session w) = Some row ->
        roomId (session w) = Some (Db.room_id row) ->
        exists row',
          Db.players (store w') !! deviceUUID (session w) = Some row'
          /\ Db.round_history row' = Some (ties ++ currentRoundHistory)
          /\ Db.current_net row' = Some (currentNet (session w))
          /\ Db.last_action_amount row' = Some 0).
Proof.
  intros Hn Hrole ties w'. subst w'.
  unfold playerMassTie. unfold_monad. cbn [fst snd].
  rewrite (is_player_true _ Hrole).
  replace (n <=? 0) with false by (symmetry; apply Z.leb_gt; exact Hn).
  cbn [orb negb session store localStorage].
  split; [| split; [| split; [| split; [| split]]]].
  - destruct (Supabase.players_update _ _ _ _ _) as [[e |] db]; reflexivity.
  - rewrite length_app. unfold ties. rewrite push_ties_length. simpl. lia.
  - apply push_ties_zero. constructor.
  - destruct (Supabase.players_update _ _ _ _ _) as [[e |] db]; reflexivity.
  - destruct (Supabase.players_update _ _ _ _ _) as [[e |] db]; reflexivity.
  - intros -> row Hrow Hroom.
    unfold Supabase.players_update. rewrite Hroom, Hrow.
    rewrite decide_True by reflexivity.
    cbn. eexists. rewrite lookup_insert_eq. split; [reflexivity |].
    cbn. auto.
Qed.

(** C10. [massTie] does not roll back: for [n > 0], when the remote write is
    refused, [lastDelta] stays at the 0 it was optimistically set to (it is
    not restored), the call still returns the history with the [n] tie entries
    in front, and only an error message is set; the store is untouched. *)
Theorem playerMassTie_no_rollback
    (clock : Clock) (w : World) (e : Db.StoreError)
    (n : Z) (currentRoundHistory : list Round.t) :
  0 < n ->
  role (session w) = Some player ->
  let w' := exec (playerMassTie clock (Some e) n currentRoundHistory) w in
  outcome (playerMassTie clock (Some e) n currentRoundHistory) w
    = inr (Some (push_ties clock (Z.to_nat n) 0 [] ++ currentRoundHistory))
  /\ lastActionAmount (session w') = 0
  /\ currentNet (session w') = currentNet (session w)
  /\ error (session w')
     = Some "Failed to log missing rounds. Please try again."
  /\ store w' = store w.
Proof.
  intros Hn Hrole w'. subst w'.
  unfold playerMassTie. unfold_monad. cbn [fst snd].
  rewrite (is_player_true _ Hrole).
  replace (n <=? 0) with false by (symmetry; apply Z.leb_gt; exact Hn).
  cbn. auto.
Qed.

(** ** The banker's majority round count *)

Section Majority.
Import BankerBoard.
Local Open Scope nat_scope.

Lemma frequency_snoc (seen : list nat) (r x : nat) :
  frequency (seen ++ [r]) x
  = frequency seen x + (if decide (r = x) then 1 else 0).
Proof.
  unfold frequency. rewrite count_occ_app. simpl.
  destruct (Nat.eq_dec r x); case_decide; congruence.
Qed.

Lemma tally_inv_init : tally_inv [] (mkTally ∅ 0 0).
Proof.
  constructor; simpl; intros; try congruence; try reflexivity;
    unfold frequency; simpl; lia.
Qed.

Lemma tally_counts_step (t : Tally) (r : nat) :
  counts (tally_step t r)
  = <[r := default 0 (counts t !! r) + 1]> (counts t).
Proof.
  unfold tally_step.
  destruct (maxCount t <? _); [reflexivity |].
  destruct (_ && _); reflexivity.
Qed.

Lemma tally_inv_step (seen : list nat) (t : Tally) (r : nat) :
  tally_inv seen t -> tally_inv (seen ++ [r]) (tally_step t r).
Proof.
  intros [Hc Hb Hr Hl Hs].
  assert (Hne : seen ++ [r] <> []) by (destruct seen; discriminate).
  assert (Hfreq : forall x,
             frequency (seen ++ [r]) x
             = frequency seen x + (if decide (r = x) then 1 else 0))
    by (intros; apply frequency_snoc).
  assert (Hcounts : forall x,
             default 0 (counts (tally_step t r) !! x)
             = frequency (seen ++ [r]) x).
  { intros x. rewrite tally_counts_step, Hfreq.
    destruct (decide (r = x)) as [-> | Hrx].
    - rewrite lookup_insert_eq. simpl. rewrite Hc. reflexivity.
    - rewrite lookup_insert_ne by exact Hrx. rewrite Hc. lia. }
  assert (Hseen : seen = [] \/ seen <> [])
    by (destruct seen; [left | right]; congruence).
  pose proof (Hb r) as Hbr.
  unfold tally_step. rewrite (Hc r).
  destruct (maxCount t <? frequency seen r + 1) eqn:E1.
  - apply Nat.ltb_lt in E1.
    constructor; simpl; try congruence.
    + intros x. rewrite <- Hcounts, tally_counts_step, (Hc r). reflexivity.
    + intros x. rewrite Hfreq. specialize (Hb x). case_decide; subst; lia.
    + intros _. rewrite Hfreq. rewrite decide_True by reflexivity. lia.
    + intros x _. rewrite Hfreq. specialize (Hb x).
      case_decide; [subst; lia | lia].
  - apply Nat.ltb_ge in E1.
    assert (Hsne : seen <> []).
    { destruct Hseen as [-> | ?]; [| assumption].
      rewrite (Hs eq_refl) in E1. lia. }
    specialize (Hr Hsne).
    destruct ((frequency seen r + 1 =? maxCount t)
              && (majorityRounds t <? r)) eqn:E2.
    + apply andb_true_iff in E2 as [E2 E3].
      apply Nat.eqb_eq in E2. apply Nat.ltb_lt in E3.
      constructor; simpl; try congruence.
      * intros x. rewrite <- Hcounts, tally_counts_step, (Hc r). reflexivity.
      * intros x. rewrite Hfreq. specialize (Hb x). case_decide; subst; lia.
      * intros _. rewrite Hfreq. rewrite decide_True by reflexivity. lia.
      * intros x _. rewrite Hfreq. specialize (Hl x Hsne).
        case_decide; [subst; lia | lia].
    + apply andb_false_iff in E2.
      assert (Hmaj : r <> majorityRounds t).
      { intros ->. lia. }
      constructor; simpl; try congruence.
      * intros x. rewrite <- Hcounts, tally_counts_step, (Hc r). reflexivity.
      * intros x. rewrite Hfreq. specialize (Hb x). case_decide; subst; lia.
      * intros _. rewrite Hfreq. rewrite decide_False by exact Hmaj. lia.
      * intros x _. rewrite Hfreq. specialize (Hl x Hsne).
        case_decide.
        -- subst x. intros Heq.
           destruct E2 as [E2 | E2].
           ++ apply Nat.eqb_neq in E2. lia.
           ++ apply Nat.ltb_ge in E2. exact E2.
        -- lia.
Qed.

Lemma tally_inv_fold (l : list nat) : forall seen t,
  tally_inv seen t -> tally_inv (seen ++ l) (fold_left tally_step l t).
Proof.
  induction l as [| r l IH]; intros seen t Hinv; simpl.
  - now rewrite app_nil_r.
  - replace (seen ++ r :: l) with ((seen ++ [r]) ++ l)
      by (rewrite <- app_assoc; reflexivity).
    apply IH, tally_inv_step, Hinv.
Qed.

(** The loop computes the most frequent value, the largest one on a tie. *)
Lemma majority_of_mode (l : list nat) :
  l <> [] ->
  In (majority_of l) l
  /\ (forall x, frequency l x <= frequency l (majority_of l))
  /\ (forall x, frequency l x = frequency l (majority_of l) ->
                x <= majority_of l).
Proof.
  intros Hne.
  pose proof (tally_inv_fold l [] _ tally_inv_init) as [Hc Hb Hr Hl Hs].
  simpl in *. specialize (Hr Hne).
  unfold majority_of.
  replace (0 <? length l) with true
    by (symmetry; apply Nat.ltb_lt; destruct l; simpl; [congruence | lia]).
  set (t := fold_left tally_step l (mkTally ∅ 0 0)) in *.
  split; [| split].
  - apply (count_occ_In Nat.eq_dec). fold (frequency l (majorityRounds t)).
    destruct l as [| a l']; [congruence |].
    specialize (Hb a). unfold frequency at 1 in Hb. simpl in Hb.
    destruct (Nat.eq_dec a a); [lia | congruence].
  - intros x. rewrite Hr. apply Hb.
  - intros x Hx. apply (Hl x Hne). rewrite Hx. exact Hr.
Qed.

End Majority.

(** C7. For a non-empty list of current players, the banker's majority round
    count is a round-history length that occurs at least as often among those
    players as every other length, and of the lengths that occur equally
    often it is the largest; with no current player it is 0. *)
Theorem majority_rounds_most_frequent (players : list Db.PlayerRow) :
  let l := BankerBoard.roundCounts players in
  let m := BankerBoard.majority players in
  (BankerBoard.activePlayers players <> [] ->
     In m l
     /\ (forall x, (frequency l x <= frequency l m)%nat)
     /\ (forall x, frequency l x = frequency l m -> (x <= m)%nat))
  /\ (BankerBoard.activePlayers players = [] -> m = 0%nat).
Proof.
  intros l m. split.
  - intros Hne. apply majority_of_mode.
    subst l. unfold BankerBoard.roundCounts.
    destruct (BankerBoard.activePlayers players); [congruence | discriminate].
  - intros Hnil. subst m l.
    unfold BankerBoard.majority, BankerBoard.roundCounts.
    rewrite Hnil. reflexivity.
Qed.

Lemma majority_rounds_most_frequent_witness :
  BankerBoard.activePlayers sample_rows <> []
  /\ BankerBoard.roundCounts sample_rows = [3; 0]%nat
  /\ BankerBoard.majority sample_rows = 3%nat
  /\ (forall x, (frequency [3; 0]%nat x <= frequency [3; 0]%nat 3)%nat)
  /\ BankerBoard.majority [] = 0%nat.
Proof.
  assert (Hne : BankerBoard.activePlayers sample_rows <> [])
    by (vm_compute; discriminate).
  destruct (majority_rounds_most_frequent sample_rows) as [Hmode _].
  destruct (majority_rounds_most_frequent []) as [_ Hnil].
  destruct (Hmode Hne) as (_ & Hfreq & _).
  split; [exact Hne |].
  split; [reflexivity |].
  split; [reflexivity |].
  split; [exact Hfreq |].
  apply Hnil. reflexivity.
Defined.

(** ** The ledger properties on the sample player *)


Lemma playerMassTie_inserts_ties_witness :
  let hist := [sample_round 2; sample_round 1] in
  let w' := exec (playerMassTie sample_clock None 2 hist) player_world in
  outcome (playerMassTie sample_clock None 2 hist) player_world
    = inr (Some [Round.mk 1700000000000 0 0 "12:00:00";
                 Round.mk 1700000000001 0 0 "12:00:00";
                 sample_round 2; sample_round 1])
  /\ currentNet (session w') = 4
  /\ lastActionAmount (session w') = 0.
Proof.
  intros hist w'.
  assert (Hrole : role (session player_world) = Some player) by reflexivity.
  destruct (playerMassTie_inserts_ties sample_clock player_world None 2 hist
              ltac:(lia) Hrole) as (Hout & _ & _ & Hn & Hl & _).
  split; [rewrite Hout; reflexivity |].
  split; [subst w'; rewrite Hn; reflexivity | exact Hl].
Defined.

Lemma playerMassTie_no_rollback_witness :
  let hist := [sample_round 2; sample_round 1] in
  let w' := exec (playerMassTie sample_clock (Some refused) 2 hist)
              player_world in
  lastActionAmount (session player_world) = 2
  /\ lastActionAmount (session w') = 0
  /\ outcome (playerMassTie sample_clock (Some refused) 2 hist) player_world
     = inr (Some [Round.mk 1700000000000 0 0 "12:00:00";
                  Round.mk 1700000000001 0 0 "12:00:00";
                  sample_round 2; sample_round 1])
  /\ error (session w')
     = Some "Failed to log missing rounds. Please try again.".
Proof.
  intros hist w'.
  assert (Hrole : role (session player_world) = Some player) by reflexivity.
  destruct (playerMassTie_no_rollback sample_clock player_world refused 2 hist
              ltac:(lia) Hrole) as (Hout & Hl & _ & He & _).
  split; [reflexivity |].
  split; [exact Hl |].
  split; [rewrite Hout; reflexivity | exact He].
Defined.

(** ** The banker's aggregate net *)

Section BankerNet.

Lemma totalPlayerNet_sum_aux (data : list Db.PlayerRow) : forall acc,
  fold_left (fun sum p => sum + or0 (Db.current_net p)) data acc
  = acc + sum_nets data.
Proof.
  induction data as [| p data IH]; intros acc; simpl.
  - lia.
  - rewrite IH. unfold sum_nets at 2. simpl.
    fold (sum_nets data). lia.
Qed.

Lemma totalPlayerNet_sum (data : list Db.PlayerRow) :
  totalPlayerNet data = sum_nets data.
Proof. unfold totalPlayerNet. rewrite totalPlayerNet_sum_aux. lia. Qed.

(** The sum over all records splits into the players' part and the rest. *)
Lemma sum_nets_split (data : list Db.PlayerRow) :
  sum_nets data
  = sum_nets (filter (fun p => Db.role p = player) data)
    + sum_nets (filter (fun p => Db.role p <> player) data).
Proof.
  induction data as [| p data IH]; [reflexivity |].
  rewrite !filter_cons.
  change (sum_nets (p :: data))
    with (or0 (Db.current_net p) + sum_nets data).
  rewrite IH.
  destruct (decide (Db.role p = player)) as [Hp | Hp].
  - rewrite decide_False by (intros Hn; exact (Hn Hp)).
    change (sum_nets (p :: ?l)) with (or0 (Db.current_net p) + sum_nets l).
    lia.
  - rewrite decide_True by exact Hp.
    change (sum_nets (p :: ?l)) with (or0 (Db.current_net p) + sum_nets l).
    lia.
Qed.

Lemma sum_nets_zero (rows : list Db.PlayerRow) :
  Forall (fun p => or0 (Db.current_net p) = 0) rows -> sum_nets rows = 0.
Proof.
  induction 1 as [| p rows Hp _ IH]; [reflexivity |].
  change (sum_nets (p :: rows))
    with (or0 (Db.current_net p) + sum_nets rows).
  lia.
Qed.

End BankerNet.

(** ** Joining and creating rooms *)

Section Rooms.

Lemma select_existing (code u : string) (db : Db.Store) (row : Db.PlayerRow) :
  Db.players db !! u = Some row ->
  Db.room_id row = code ->
  Supabase.players_select_maybeSingle None code u db
  = Supabase.mkResponse (Some row) None.
Proof.
  intros Hrow Hroom. unfold Supabase.players_select_maybeSingle.
  rewrite Hrow. now rewrite decide_True.
Qed.

Lemma select_absent (code u : string) (db : Db.Store) :
  not_in_room code u db ->
  Supabase.players_select_maybeSingle None code u db
  = Supabase.mkResponse None None.
Proof.
  intros Hout. unfold Supabase.players_select_maybeSingle.
  destruct (Db.players db !! u) as [row |] eqn:E; [| reflexivity].
  rewrite decide_False; [reflexivity |]. now apply Hout.
Qed.

(** When the reconnection read shows no record, its [data] is null. *)
Lemma no_record_data (code : string) (j : JoinVerdicts) (w : World) :
  no_record_seen code j w ->
  Supabase.data
    (Supabase.players_select_maybeSingle (existingVerdict j) code
       (deviceUUID (session w)) (store w)) = None.
Proof.
  intros [Hfail | Hout].
  - destruct (existingVerdict j); [reflexivity | now exfalso].
  - destruct (existingVerdict j); [reflexivity |].
    now rewrite (select_absent _ _ _ Hout).
Qed.

(** The capacity test on the answer of the count read. *)
Lemma seen_free_count (code : string) (j : JoinVerdicts) (w : World) :
  room_seen_free code j w ->
  count_at_least_15
    (Supabase.count
       (Supabase.players_select_count (countVerdict j) code (store w)))
  = false.
Proof.
  intros [Hfail | Hfree].
  - destruct (countVerdict j); [reflexivity | now exfalso].
  - destruct (countVerdict j); [reflexivity |].
    unfold Supabase.players_select_count, Supabase.count, count_at_least_15.
    now apply Nat.leb_gt.
Qed.

Lemma seen_full_count (code : string) (j : JoinVerdicts) (w : World) :
  countVerdict j = None ->
  (15 <= Supabase.players_count code (store w))%nat ->
  count_at_least_15
    (Supabase.count
       (Supabase.players_select_count (countVerdict j) code (store w)))
  = true.
Proof.
  intros -> Hfull.
  unfold Supabase.players_select_count, Supabase.count, count_at_least_15.
  now apply Nat.leb_le.
Qed.

Lemma select_room (code : string) (db : Db.Store) (room : Db.RoomRow) :
  Db.rooms db !! code = Some room ->
  Supabase.rooms_select_single code db = Supabase.mkResponse (Some room) None.
Proof. intros H. unfold Supabase.rooms_select_single. now rewrite H. Qed.

End Rooms.

(** The reconnection, when its read is answered.  If the calling identity
    has a participant record for the room code and the room is active,
    [joinRoom] restores the record's role, base stake, net and last delta
    into the session (a null column reading as 0), leaves the stored record
    and the whole store as they are, and ends without error whatever the
    number of participants in the room and whatever the store would answer
    to the count and the upsert: neither is reached. *)
Lemma joinRoom_reconnect_when_read
    (w : World) (code : string) (j : JoinVerdicts)
    (room : Db.RoomRow) (row : Db.PlayerRow) :
  Db.rooms (store w) !! code = Some room ->
  Db.status room = active ->
  existingVerdict j = None ->
  Db.players (store w) !! deviceUUID (session w) = Some row ->
  Db.room_id row = code ->
  let w' := exec (joinRoom code j) w in
  role (session w') = Some (Db.role row)
  /\ baseAmount (session w') = or0 (Db.base_amount row)
  /\ currentNet (session w') = or0 (Db.current_net row)
  /\ lastActionAmount (session w') = or0 (Db.last_action_amount row)
  /\ roomId (session w') = Some code
  /\ mode (session w') = Some multi
  /\ error (session w') = None
  /\ store w' = store w
  /\ Db.players (store w') !! deviceUUID (session w) = Some row.
Proof.
  intros Hroom Hactive Hread Hrow Hcode w'. subst w'.
  unfold joinRoom, joinRoom_try. unfold_monad.
  cbn [fst snd session store localStorage deviceUUID setLoading setError].
  rewrite (select_room _ _ _ Hroom).
  cbn [Supabase.error Supabase.data].
  rewrite bool_decide_eq_false_2 by (intros H; exact (H Hactive)).
  cbn [fst snd session store localStorage deviceUUID setLoading setError].
  rewrite Hread. rewrite (select_existing _ _ _ _ Hrow Hcode).
  cbn. rewrite Hrow. repeat split; reflexivity.
Qed.

(** *** The paths through [joinRoom]'s [try] block *)

Section JoinPaths.

Variables (code : string) (j : JoinVerdicts) (w : World).

Ltac start_join :=
  unfold joinRoom_try; unfold_monad;
  cbn [fst snd session store localStorage].

Lemma joinRoom_try_not_found :
  Db.rooms (store w) !! code = None ->
  joinRoom_try code j w = (inl (JsError "Room not found"), w).
Proof.
  intros Hroom. start_join.
  unfold Supabase.rooms_select_single. rewrite Hroom. reflexivity.
Qed.

Lemma joinRoom_try_ended (room : Db.RoomRow) :
  Db.rooms (store w) !! code = Some room ->
  Db.status room <> active ->
  joinRoom_try code j w = (inl (JsError "Room has ended"), w).
Proof.
  intros Hroom Hst. start_join.
  rewrite (select_room _ _ _ Hroom). cbn [Supabase.error Supabase.data].
  rewrite bool_decide_eq_true_2 by exact Hst. reflexivity.
Qed.

Lemma joinRoom_try_reconnect (room : Db.RoomRow) (row : Db.PlayerRow) :
  Db.rooms (store w) !! code = Some room ->
  Db.status room = active ->
  existingVerdict j = None ->
  Db.players (store w) !! deviceUUID (session w) = Some row ->
  Db.room_id row = code ->
  joinRoom_try code j w
  = (inr tt,
     mkWorld
       (setMode (Some multi)
          (setRoomStatus (Some (Db.status room))
             (setLastActionAmount (or0 (Db.last_action_amount row))
                (setCurrentNet (or0 (Db.current_net row))
                   (setBaseAmount (or0 (Db.base_amount row))
                      (setRole (Some (Db.role row))
                         (setRoomId (Some code) (session w))))))))
       (store w)
       (<["auto_join_room" := code]> (localStorage w))).
Proof.
  intros Hroom Hst Hread Hrow Hcode. start_join.
  rewrite (select_room _ _ _ Hroom). cbn [Supabase.error Supabase.data].
  rewrite bool_decide_eq_false_2 by (intros H; exact (H Hst)).
  cbn [fst snd session store localStorage].
  rewrite Hread. rewrite (select_existing _ _ _ _ Hrow Hcode). reflexivity.
Qed.

Lemma joinRoom_try_full (room : Db.RoomRow) :
  Db.rooms (store w) !! code = Some room ->
  Db.status room = active ->
  no_record_seen code j w ->
  countVerdict j = None ->
  (15 <= Supabase.players_count code (store w))%nat ->
  joinRoom_try code j w = (inl (JsError room_full_message), w).
Proof.
  intros Hroom Hst Hout Hcount Hfull. start_join.
  rewrite (select_room _ _ _ Hroom). cbn [Supabase.error Supabase.data].
  rewrite bool_decide_eq_false_2 by (intros H; exact (H Hst)).
  cbn [fst snd session store localStorage].
  rewrite (no_record_data _ _ _ Hout).
  cbn [fst snd session store localStorage].
  rewrite (seen_full_count _ _ _ Hcount Hfull).
  reflexivity.
Qed.

Lemma joinRoom_try_refused (room : Db.RoomRow) (e : Db.StoreError) :
  Db.rooms (store w) !! code = Some room ->
  Db.status room = active ->
  no_record_seen code j w ->
  room_seen_free code j w ->
  insertVerdict j = Some e ->
  joinRoom_try code j w = (inl (StoreExn e), w).
Proof.
  intros Hroom Hst Hout Hfree Hv. start_join.
  rewrite (select_room _ _ _ Hroom). cbn [Supabase.error Supabase.data].
  rewrite bool_decide_eq_false_2 by (intros H; exact (H Hst)).
  cbn [fst snd session store localStorage].
  rewrite (no_record_data _ _ _ Hout).
  cbn [fst snd session store localStorage].
  rewrite (seen_free_count _ _ _ Hfree). rewrite Hv.
  cbn. destruct w; reflexivity.
Qed.

Lemma joinRoom_try_joined (room : Db.RoomRow) :
  Db.rooms (store w) !! code = Some room ->
  Db.status room = active ->
  no_record_seen code j w ->
  room_seen_free code j w ->
  insertVerdict j = None ->
  joinRoom_try code j w
  = (inr tt,
     mkWorld
       (setMode (Some multi)
          (setRoomStatus (Some (Db.status room))
             (setRole (Some (Db.role (joining_row code w room)))
                (setRoomId (Some code) (session w)))))
       (Supabase.players_upsert None (joining_row code w room) (store w)).2
       (<["auto_join_room" := code]> (localStorage w))).
Proof.
  intros Hroom Hst Hout Hfree Hv. start_join.
  rewrite (select_room _ _ _ Hroom). cbn [Supabase.error Supabase.data].
  rewrite bool_decide_eq_false_2 by (intros H; exact (H Hst)).
  cbn [fst snd session store localStorage].
  rewrite (no_record_data _ _ _ Hout).
  cbn [fst snd session store localStorage].
  rewrite (seen_free_count _ _ _ Hfree). rewrite Hv.
  reflexivity.
Qed.

(** Past the reconnection test, the call is turned away, refused or let
    in. *)
Lemma join_path_newcomer (room : Db.RoomRow) :
  Db.rooms (store w) !! code = Some room ->
  Db.status room = active ->
  no_record_seen code j w ->
  join_path code j w.
Proof.
  intros Hroom Hst Hout.
  assert (Hcap : (countVerdict j = None
                  /\ (15 <= Supabase.players_count code (store w))%nat)
                 \/ room_seen_free code j w).
  { unfold room_seen_free. destruct (countVerdict j) as [e |].
    - right. left. discriminate.
    - destruct (le_lt_dec 15 (Supabase.players_count code (store w)));
        [left; split; [reflexivity | assumption] | right; right; assumption]. }
  destruct Hcap as [[Hcount Hfull] | Hfree].
  - now apply (path_full _ _ _ room).
  - destruct (insertVerdict j) as [e |] eqn:Hv.
    + now apply (path_refused _ _ _ room e).
    + now apply (path_joined _ _ _ room).
Qed.

Lemma join_path_total : join_path code j w.
Proof.
  destruct (Db.rooms (store w) !! code) as [room |] eqn:Hroom;
    [| now apply path_not_found].
  destruct (decide (Db.status room = active)) as [Hst | Hst];
    [| now apply (path_ended _ _ _ room)].
  destruct (existingVerdict j) as [e |] eqn:Hread.
  { apply (join_path_newcomer room Hroom Hst). left. congruence. }
  destruct (Db.players (store w) !! deviceUUID (session w)) as [row |] eqn:Hrow.
  - destruct (decide (Db.room_id row = code)) as [Hc | Hc];
      [now apply (path_reconnect _ _ _ room row) |].
    apply (join_path_newcomer room Hroom Hst). right.
    intros row' Hrow'. congruence.
  - apply (join_path_newcomer room Hroom Hst). right.
    intros row' Hrow'. congruence.
Qed.

End JoinPaths.

(** *** Failed room operations *)

Section FailedRoomOperations.

(** [joinRoom] around its [try] block: the two setters, the block, then
    [catch] and [finally]. *)
Lemma joinRoom_run (code : string) (v : JoinVerdicts) (w : World) :
  joinRoom code v w
  = match joinRoom_try code v
            (mkWorld (setError None (setLoading true (session w)))
               (store w) (localStorage w)) with
    | (inl e, w1) =>
        (inr tt,
         mkWorld
           (setLoading false
              (setError
                 (Some (str_or (exn_message e) "Failed to join room"))
                 (session w1)))
           (store w1) (localStorage w1))
    | (inr _, w1) =>
        (inr tt,
         mkWorld (setLoading false (session w1)) (store w1)
           (localStorage w1))
    end.
Proof.
  unfold joinRoom. unfold_monad.
  destruct (joinRoom_try code v _) as [[e | []] w1]; reflexivity.
Qed.

Lemma createRoom_run (code suffix : string)
    (rv pv : option Db.StoreError) (w : World) :
  createRoom code suffix rv pv w
  = match createRoom_try code suffix rv pv
            (mkWorld (setError None (setLoading true (session w)))
               (store w) (localStorage w)) with
    | (inl e, w1) =>
        (inr tt,
         mkWorld
           (setLoading false
              (setError
                 (Some (str_or (exn_message e) "Failed to create room"))
                 (session w1)))
           (store w1) (localStorage w1))
    | (inr _, w1) =>
        (inr tt,
         mkWorld (setLoading false (session w1)) (store w1)
           (localStorage w1))
    end.
Proof.
  unfold createRoom. unfold_monad.
  destruct (createRoom_try code suffix rv pv _) as [[e | []] w1];
    reflexivity.
Qed.

(** What [createRoom]'s [try] block does, by the answers of its two
    writes. *)
Lemma createRoom_try_run (code suffix : string)
    (rv pv : option Db.StoreError) (w : World) :
  createRoom_try code suffix rv pv w
  = let banker_row :=
      Db.mkPlayer (deviceUUID (session w)) code banker
        (str_or (playerName (session w)) ("Player " ++ suffix))
        (Some 0) (Some 0) (Some 0) (Some []) None in
    match Supabase.rooms_insert rv
            (Db.mkRoom code (deviceUUID (session w)) active) (store w) with
    | (Some e, db) =>
        (inl (StoreExn e), mkWorld (session w) db (localStorage w))
    | (None, db) =>
        match Supabase.players_upsert pv banker_row db with
        | (Some e, db') =>
            (inl (StoreExn e), mkWorld (session w) db' (localStorage w))
        | (None, db') =>
            (inr tt,
             mkWorld
               (setMode (Some multi)
                  (setRoomStatus (Some active)
                     (setRole (Some banker)
                        (setRoomId (Some code) (session w)))))
               db'
               (<["auto_join_room" := code]> (localStorage w)))
        end
    end.
Proof.
  unfold createRoom_try. unfold_monad.
  cbn [fst snd session store localStorage].
  destruct (Supabase.rooms_insert rv _ (store w)) as [[e |] db];
    [reflexivity |].
  cbn [fst snd session store localStorage].
  destruct (Supabase.players_upsert pv _ db) as [[e |] db']; reflexivity.
Qed.

(** A call has failed exactly when it leaves a message in the error cell. *)
Lemma joinRoom_error_iff_throws (code : string) (v : JoinVerdicts)
    (w : World) :
  error (session (exec (joinRoom code v) w)) <> None
  <-> exists e, outcome (joinRoom_try code v) w = inl e.
Proof.
  unfold outcome, exec. rewrite joinRoom_run.
  set (w0 := mkWorld (setError None (setLoading true (session w)))
               (store w) (localStorage w)).
  destruct (join_path_total code v w)
    as [Hroom | room Hroom Hst | room row Hroom Hst Hread Hrow Hcode
        | room Hroom Hst Hout Hcount Hfull
        | room se Hroom Hst Hout Hfree Hv
        | room Hroom Hst Hout Hfree Hv].
  - rewrite (joinRoom_try_not_found code v w Hroom).
    rewrite (joinRoom_try_not_found code v w0 Hroom).
    cbn. split; [eauto | discriminate].
  - rewrite (joinRoom_try_ended code v w room Hroom Hst).
    rewrite (joinRoom_try_ended code v w0 room Hroom Hst).
    cbn. split; [eauto | discriminate].
  - rewrite (joinRoom_try_reconnect code v w room row
               Hroom Hst Hread Hrow Hcode).
    rewrite (joinRoom_try_reconnect code v w0 room row
               Hroom Hst Hread Hrow Hcode).
    cbn. split; [congruence | intros [e He]; discriminate He].
  - rewrite (joinRoom_try_full code v w room Hroom Hst Hout Hcount Hfull).
    rewrite (joinRoom_try_full code v w0 room Hroom Hst Hout Hcount Hfull).
    cbn. split; [eauto | discriminate].
  - rewrite (joinRoom_try_refused code v w room se Hroom Hst Hout Hfree Hv).
    rewrite (joinRoom_try_refused code v w0 room se Hroom Hst Hout Hfree Hv).
    cbn. split; [eauto | discriminate].
  - rewrite (joinRoom_try_joined code v w room Hroom Hst Hout Hfree Hv).
    rewrite (joinRoom_try_joined code v w0 room Hroom Hst Hout Hfree Hv).
    cbn. split; [congruence | intros [e He]; discriminate He].
Qed.

Lemma createRoom_error_iff_throws (code suffix : string)
    (rv pv : option Db.StoreError) (w : World) :
  error (session (exec (createRoom code suffix rv pv) w)) <> None
  <-> exists e, outcome (createRoom_try code suffix rv pv) w = inl e.
Proof.
  unfold outcome, exec.
  rewrite createRoom_run, !createRoom_try_run.
  cbn [session store localStorage deviceUUID playerName setError setLoading].
  cbv zeta.
  destruct (Supabase.rooms_insert rv _ (store w)) as [[e1 |] db].
  - cbn. split; [eauto | discriminate].
  - destruct (Supabase.players_upsert pv _ db) as [[e2 |] db'].
    + cbn. split; [eauto | discriminate].
    + cbn. split; [congruence | intros [e He]; discriminate He].
Qed.

End FailedRoomOperations.

(** C9. When [createRoom] or [joinRoom] fails at any step (the [try] block
    throws: room not found, room ended, room full, or a refused write), the
    session's mode, room id, role, base amount, net and last delta (and the
    room status) are exactly what they were before the call; the error cell
    holds a message.  A failing [joinRoom] also leaves the store untouched,
    and its failure is one of the four named causes. *)
Theorem failed_room_operation_keeps_session :
  (forall (w : World) (code suffix : string)
          (roomVerdict playerVerdict : option Db.StoreError) (e : Exn),
      outcome (createRoom_try code suffix roomVerdict playerVerdict) w = inl e ->
      let w' := exec (createRoom code suffix roomVerdict playerVerdict) w in
      session_kept (session w) (session w')
      /\ error (session w')
         = Some (str_or (exn_message e) "Failed to create room")
      /\ localStorage w' = localStorage w)
  /\ (forall (w : World) (code : string) (j : JoinVerdicts) (e : Exn),
      outcome (joinRoom_try code j) w = inl e ->
      let w' := exec (joinRoom code j) w in
      session_kept (session w) (session w')
      /\ error (session w')
         = Some (str_or (exn_message e) "Failed to join room")
      /\ localStorage w' = localStorage w
      /\ store w' = store w
      /\ (e = JsError "Room not found"
          \/ e = JsError "Room has ended"
          \/ e = JsError room_full_message
          \/ exists se, insertVerdict j = Some se /\ e = StoreExn se)).
Proof.
  split.
  - intros w code suffix rv pv e H w'. subst w'.
    unfold outcome in H. rewrite createRoom_try_run in H.
    unfold exec. rewrite createRoom_run, createRoom_try_run.
    cbn [session store localStorage deviceUUID playerName setError setLoading]
      in *.
    cbv zeta in *.
    destruct (Supabase.rooms_insert rv _ (store w)) as [[e1 |] db].
    + cbn in H. injection H as <-. cbn. unfold session_kept. cbn. tauto.
    + destruct (Supabase.players_upsert pv _ db) as [[e2 |] db'].
      * cbn in H. injection H as <-. cbn. unfold session_kept. cbn. tauto.
      * discriminate H.
  - intros w code v e H w'. subst w'.
    unfold outcome in H. unfold exec. rewrite joinRoom_run.
    set (w0 := mkWorld (setError None (setLoading true (session w)))
                 (store w) (localStorage w)).
    destruct (join_path_total code v w)
      as [Hroom | room Hroom Hst | room row Hroom Hst Hread Hrow Hcode
          | room Hroom Hst Hout Hcount Hfull
          | room se Hroom Hst Hout Hfree Hv
          | room Hroom Hst Hout Hfree Hv].
    + rewrite (joinRoom_try_not_found code v w Hroom) in H.
      rewrite (joinRoom_try_not_found code v w0 Hroom).
      injection H as <-. cbn. unfold session_kept. cbn. tauto.
    + rewrite (joinRoom_try_ended code v w room Hroom Hst) in H.
      rewrite (joinRoom_try_ended code v w0 room Hroom Hst).
      injection H as <-. cbn. unfold session_kept. cbn. tauto.
    + rewrite (joinRoom_try_reconnect code v w room row
                 Hroom Hst Hread Hrow Hcode) in H.
      discriminate H.
    + rewrite (joinRoom_try_full code v w room Hroom Hst Hout Hcount Hfull) in H.
      rewrite (joinRoom_try_full code v w0 room Hroom Hst Hout Hcount Hfull).
      injection H as <-. cbn. unfold session_kept. cbn. tauto.
    + rewrite (joinRoom_try_refused code v w room se Hroom Hst Hout Hfree Hv)
        in H.
      rewrite (joinRoom_try_refused code v w0 room se Hroom Hst Hout Hfree Hv).
      injection H as <-. cbn. unfold session_kept. cbn.
      repeat (split; [tauto |]).
      right. right. right. exists se. split; [exact Hv | reflexivity].
    + rewrite (joinRoom_try_joined code v w room Hroom Hst Hout Hfree Hv) in H.
      discriminate H.
Qed.

(** *** The capacity check *)

Section Capacity.

Lemma capacity_outcomes_lookup (n : nat) : forall c k,
  (k < n)%nat ->
  capacity_outcomes c n !! k
  = Some (if (c + k <? 15)%nat then None else Some room_full_message).
Proof.
  induction n as [| n IH]; intros c k Hk; [lia |].
  simpl. destruct (c <? 15)%nat eqn:E.
  - destruct k as [| k]; simpl.
    + now rewrite Nat.add_0_r, E.
    + rewrite IH by lia. now replace (S c + k)%nat with (c + S k)%nat by lia.
  - apply Nat.ltb_ge in E. destruct k as [| k]; simpl.
    + replace (c + 0 <? 15)%nat with false
        by (symmetry; apply Nat.ltb_ge; lia).
      reflexivity.
    + rewrite IH by lia.
      replace (c + k <? 15)%nat with false
        by (symmetry; apply Nat.ltb_ge; lia).
      replace (c + S k <? 15)%nat with false
        by (symmetry; apply Nat.ltb_ge; lia).
      reflexivity.
Qed.

(** A first join adds one record to the room. *)
Lemma count_after_upsert (code : string) (r : Db.PlayerRow) (db : Db.Store) :
  Db.room_id r = code ->
  not_in_room code (Db.uuid r) db ->
  Supabase.players_count code (Supabase.players_upsert None r db).2
  = S (Supabase.players_count code db).
Proof.
  intros Hcode Hout.
  unfold Supabase.players_count, Supabase.room_rows, Supabase.players_upsert.
  cbn [snd Db.players].
  rewrite map_filter_insert_True by exact Hcode.
  apply map_size_insert_None.
  apply map_lookup_filter_None. right. intros row Hrow Hin.
  exact (Hout row Hrow Hin).
Qed.

Lemma upsert_keeps_others (code u : string) (r : Db.PlayerRow)
    (db : Db.Store) :
  u <> Db.uuid r ->
  not_in_room code u db ->
  not_in_room code u (Supabase.players_upsert None r db).2.
Proof.
  intros Hne Hout row. unfold Supabase.players_upsert. cbn [snd Db.players].
  rewrite lookup_insert_ne by congruence. apply Hout.
Qed.

Lemma empty_room_has_nobody (code u : string) (db : Db.Store) :
  Supabase.players_count code db = 0%nat -> not_in_room code u db.
Proof.
  unfold Supabase.players_count, Supabase.room_rows.
  intros Hsize row Hrow Hin.
  apply map_size_empty_inv in Hsize.
  assert (Hl : filter (Supabase.in_room code) (Db.players db) !! u = Some row)
    by (apply map_lookup_filter_Some; split; assumption).
  rewrite Hsize, lookup_empty in Hl. discriminate Hl.
Qed.

Variable code : string.

Lemma join_as_full (d : string) (db : Db.Store) (room : Db.RoomRow) :
  Db.rooms db !! code = Some room ->
  Db.status room = active ->
  not_in_room code d db ->
  (15 <= Supabase.players_count code db)%nat ->
  join_as code d db = (Some room_full_message, db).
Proof.
  intros Hroom Hst Hout Hfull.
  unfold join_as, exec. rewrite joinRoom_run.
  set (w0 := mkWorld _ _ _).
  rewrite (joinRoom_try_full code (answered None) w0 room Hroom Hst
             (or_intror Hout) eq_refl Hfull).
  reflexivity.
Qed.

Lemma join_as_joined (d : string) (db : Db.Store) (room : Db.RoomRow) :
  Db.rooms db !! code = Some room ->
  Db.status room = active ->
  not_in_room code d db ->
  (Supabase.players_count code db < 15)%nat ->
  join_as code d db
  = (None,
     (Supabase.players_upsert None
        (joining_row code (fresh_world d db) room) db).2).
Proof.
  intros Hroom Hst Hout Hfree.
  unfold join_as, exec. rewrite joinRoom_run.
  set (w0 := mkWorld _ _ _).
  rewrite (joinRoom_try_joined code (answered None) w0 room Hroom Hst
             (or_intror Hout) (or_intror Hfree) eq_refl).
  reflexivity.
Qed.

(** Distinct newcomers joining an active room one after the other get in
    until the room holds 15 records. *)
Lemma join_in_sequence_capacity (devices : list string) :
  forall (db : Db.Store) (room : Db.RoomRow),
    Db.rooms db !! code = Some room ->
    Db.status room = active ->
    NoDup devices ->
    (forall d, d ∈ devices -> not_in_room code d db) ->
    join_in_sequence code devices db
    = capacity_outcomes (Supabase.players_count code db) (length devices).
Proof.
  induction devices as [| d ds IH]; intros db room Hroom Hst Hnd Hout;
    [reflexivity |].
  apply NoDup_cons in Hnd as [Hd Hnd].
  assert (Hme : not_in_room code d db) by (apply Hout; left).
  cbn [join_in_sequence capacity_outcomes length].
  destruct (Supabase.players_count code db <? 15)%nat eqn:E.
  - apply Nat.ltb_lt in E.
    rewrite (join_as_joined d db room Hroom Hst Hme E).
    set (r := joining_row code (fresh_world d db) room).
    rewrite (IH _ room); try assumption.
    + rewrite (count_after_upsert code r db); [reflexivity | reflexivity |].
      exact Hme.
    + intros d' Hd'. apply upsert_keeps_others.
      * cbn. intros ->. exact (Hd Hd').
      * apply Hout. now right.
  - apply Nat.ltb_ge in E.
    rewrite (join_as_full d db room Hroom Hst Hme E).
    rewrite (IH db room); try assumption; [reflexivity |].
    intros d' Hd'. apply Hout. now right.
Qed.

End Capacity.

Lemma created_store (code bankerDevice : string) (db : Db.Store) :
  Db.rooms db !! code = None ->
  store (exec (createRoom code "" None None) (fresh_world bankerDevice db))
  = (Supabase.players_upsert None
       (Db.mkPlayer bankerDevice code banker "Player " (Some 0) (Some 0)
          (Some 0) (Some []) None)
       (Db.mkStore (<[code := Db.mkRoom code bankerDevice active]> (Db.rooms db))
          (Db.players db))).2.
Proof.
  intros Hfree. unfold exec. rewrite createRoom_run, createRoom_try_run.
  cbn [session store localStorage deviceUUID playerName setError setLoading
       fresh_world initial_session].
  unfold Supabase.rooms_insert. cbn [Db.id]. rewrite Hfree.
  reflexivity.
Qed.

(** With every read answered, the capacity check counts every participant
    record of the room, the banker's own (written by [createRoom]) included:
    after the banker [bank] has created room 4821 on an empty store and
    sixteen distinct new identities join one after the other, the fourteenth
    is the last to get in. *)
Lemma fifteenth_joiner_rejected :
  NoDup sample_devices
  /\ ("bank" ∉ sample_devices)
  /\ create_then_join "4821" "bank" sample_devices empty_store !! 13%nat
     = Some None
  /\ create_then_join "4821" "bank" sample_devices empty_store !! 14%nat
     = Some (Some "Room is full (max 15 players)").
Proof.
  split; [apply (bool_decide_unpack _); vm_compute; exact I |].
  split; [apply (bool_decide_unpack _); vm_compute; exact I |].
  split; vm_compute; reflexivity.
Qed.

(** The capacity check when the count read is answered: [joinRoom] by an
    identity of which the reconnection read shows no record raises the
    capacity error exactly when the room holds at least 15 records at the
    moment of the check; so in a room just created by a banker, of distinct
    identities joining in sequence the first 14 succeed and the 15th and
    every later one fail with the capacity error. *)
Lemma join_capacity_when_counted :
  (forall (w : World) (code : string) (j : JoinVerdicts) (room : Db.RoomRow),
      Db.rooms (store w) !! code = Some room ->
      Db.status room = active ->
      no_record_seen code j w ->
      countVerdict j = None ->
      (outcome (joinRoom_try code j) w = inl (JsError room_full_message)
       <-> (15 <= Supabase.players_count code (store w))%nat))
  /\ (forall (db : Db.Store) (code bankerDevice : string)
             (devices : list string) (k : nat),
      Db.rooms db !! code = None ->
      Supabase.players_count code db = 0%nat ->
      NoDup devices ->
      bankerDevice ∉ devices ->
      (k < length devices)%nat ->
      create_then_join code bankerDevice devices db !! k
      = Some (if (k <? 14)%nat then None else Some room_full_message)).
Proof.
  split.
  - intros w code v room Hroom Hst Hout Hcount. unfold outcome.
    destruct (le_lt_dec 15 (Supabase.players_count code (store w)))
      as [Hfull | Hfree].
    + rewrite (joinRoom_try_full code v w room Hroom Hst Hout Hcount Hfull).
      split; [intros _; exact Hfull | reflexivity].
    + split; [| lia].
      destruct (insertVerdict v) as [e |] eqn:Hv.
      * rewrite (joinRoom_try_refused code v w room e
                   Hroom Hst Hout (or_intror Hfree) Hv).
        discriminate.
      * rewrite (joinRoom_try_joined code v w room
                   Hroom Hst Hout (or_intror Hfree) Hv).
        discriminate.
  - intros db code b devices k Hfree Hempty Hnd Hb Hk.
    unfold create_then_join. rewrite (created_store code b db Hfree).
    set (row := Db.mkPlayer b code banker _ _ _ _ _ _).
    set (db1 := Db.mkStore _ _).
    assert (Hcount : Supabase.players_count code
                       (Supabase.players_upsert None row db1).2 = 1%nat).
    { rewrite (count_after_upsert code row db1 eq_refl).
      - f_equal. exact Hempty.
      - apply empty_room_has_nobody. exact Hempty. }
    rewrite (join_in_sequence_capacity code devices _
               (Db.mkRoom code b active)).
    + rewrite Hcount. rewrite capacity_outcomes_lookup by exact Hk.
      reflexivity.
    + cbn. apply lookup_insert_eq.
    + reflexivity.
    + exact Hnd.
    + intros d Hd. apply upsert_keeps_others.
      * cbn. intros ->. exact (Hb Hd).
      * apply (empty_room_has_nobody code d db1). exact Hempty.
Qed.

(** When the count read fails, the capacity test passes whatever the room
    holds: a call of which the reconnection read shows no record goes on to
    the upsert, and an accepted upsert lets the caller in. *)
Lemma joinRoom_uncounted (w : World) (code : string) (j : JoinVerdicts)
    (room : Db.RoomRow) (e : Db.StoreError) :
  Db.rooms (store w) !! code = Some room ->
  Db.status room = active ->
  no_record_seen code j w ->
  countVerdict j = Some e ->
  insertVerdict j = None ->
  let w' := exec (joinRoom code j) w in
  error (session w') = None
  /\ roomId (session w') = Some code
  /\ role (session w') = Some (Db.role (joining_row code w room))
  /\ store w'
     = (Supabase.players_upsert None (joining_row code w room) (store w)).2.
Proof.
  intros Hroom Hst Hout Hcount Hv w'. subst w'.
  unfold exec. rewrite joinRoom_run.
  set (w0 := mkWorld _ _ _).
  assert (Hfree : room_seen_free code j w0) by (left; congruence).
  rewrite (joinRoom_try_joined code j w0 room Hroom Hst Hout Hfree Hv).
  cbn. repeat split; reflexivity.
Qed.

(** C2.  The failing input: room 4821 holds 15 records (the banker and 14
    players) and a sixteenth identity, [p15], calls [joinRoom] while the
    count read fails.  The hook drops the read's [error]; its [count] is
    null and [null >= 15] is false, so the call goes through: no error is
    shown, [p15] is a player of the room and the room holds 16 records.
    The same call with the count read answered is turned away with the
    capacity error. *)
Theorem join_full_room_on_failed_count :
  let w := fresh_world "p15" busy_room in
  let w' := exec (joinRoom "4821" (mkJoin None (Some refused) None)) w in
  Supabase.players_count "4821" busy_room = 15%nat
  /\ Db.players busy_room !! "p15" = None
  /\ error (session (exec (joinRoom "4821" (answered None)) w))
     = Some room_full_message
  /\ error (session w') = None
  /\ roomId (session w') = Some "4821"
  /\ role (session w') = Some player
  /\ mode (session w') = Some multi
  /\ (exists row, Db.players (store w') !! "p15" = Some row
                  /\ Db.room_id row = "4821")
  /\ Supabase.players_count "4821" (store w') = 16%nat.
Proof.
  intros w w'.
  split; [vm_compute; reflexivity |].
  split; [vm_compute; reflexivity |].
  split; [vm_compute; reflexivity |].
  split; [vm_compute; reflexivity |].
  split; [vm_compute; reflexivity |].
  split; [vm_compute; reflexivity |].
  split; [vm_compute; reflexivity |].
  split; [| vm_compute; reflexivity].
  eexists. split; vm_compute; reflexivity.
Qed.

(** C4.  The failing input: [p01] has a record in the active room 4821
    (base 2, net 4, last delta 2) and calls [joinRoom] from a freshly
    mounted hook while the reconnection read fails.  The hook drops the
    read's [error]; its [data] is null, so the call is treated as a first
    join: the upsert overwrites the stored record with zeros and the
    session shows a net of 0.  The same call with the read answered restores
    base 2, net 4 and last delta 2 and leaves the store alone.  In a room
    that holds 15 records the returning participant is even turned away
    with the capacity error. *)
Theorem reconnect_read_failure_resets_record :
  let w := fresh_world "p01" (store player_world) in
  let failing := mkJoin (Some refused) None None in
  let w' := exec (joinRoom "4821" failing) w in
  let restored := exec (joinRoom "4821" (answered None)) w in
  (exists row, Db.players (store w) !! "p01" = Some row
               /\ Db.room_id row = "4821"
               /\ Db.base_amount row = Some 2
               /\ Db.current_net row = Some 4
               /\ Db.last_action_amount row = Some 2)
  /\ (baseAmount (session restored) = 2
      /\ currentNet (session restored) = 4
      /\ lastActionAmount (session restored) = 2
      /\ store restored = store w)
  /\ (exists row', Db.players (store w') !! "p01" = Some row'
                   /\ Db.base_amount row' = Some 0
                   /\ Db.current_net row' = Some 0
                   /\ Db.last_action_amount row' = Some 0)
  /\ (error (session w') = None
      /\ role (session w') = Some player
      /\ baseAmount (session w') = 0
      /\ currentNet (session w') = 0
      /\ lastActionAmount (session w') = 0)
  /\ error (session (exec (joinRoom "4821" failing)
                       (fresh_world "p01" busy_room)))
     = Some room_full_message.
Proof.
  intros w failing w' restored.
  split.
  { eexists. split; [vm_compute; reflexivity |].
    repeat split; reflexivity. }
  split.
  { repeat match goal with |- _ /\ _ => split end; vm_compute; reflexivity. }
  split.
  { eexists. split; [vm_compute; reflexivity |].
    repeat split; reflexivity. }
  split.
  { repeat match goal with |- _ /\ _ => split end; vm_compute; reflexivity. }
  vm_compute. reflexivity.
Qed.

Lemma failed_room_operation_keeps_session_witness :
  (let w' := exec (joinRoom "0000" (answered None)) player_world in
   outcome (joinRoom_try "0000" (answered None)) player_world
     = inl (JsError "Room not found")
   /\ session_kept (session player_world) (session w')
   /\ error (session w') = Some "Room not found")
  /\ (let w := fresh_world "p02" room_4821 in
      let w' := exec (createRoom "4821" "" None None) w in
      outcome (createRoom_try "4821" "" None None) w
        = inl (StoreExn Supabase.duplicate_key)
      /\ session_kept (session w) (session w')
      /\ error (session w')
         = Some "duplicate key value violates unique constraint").
Proof.
  destruct failed_room_operation_keeps_session as [Hcreate Hjoin].
  split.
  - intros w'.
    assert (H : outcome (joinRoom_try "0000" (answered None)) player_world
                = inl (JsError "Room not found"))
      by (vm_compute; reflexivity).
    destruct (Hjoin player_world "0000" (answered None) _ H) as (Hk & He & _).
    split; [exact H |]. split; [exact Hk | exact He].
  - intros w w'.
    assert (H : outcome (createRoom_try "4821" "" None None) w
                = inl (StoreExn Supabase.duplicate_key))
      by (vm_compute; reflexivity).
    destruct (Hcreate w "4821" "" None None _ H) as (Hk & He & _).
    split; [exact H |]. split; [exact Hk | exact He].
Defined.

(* ===================================================================== *)
(** * Further properties of the hook and the boards *)
(* ===================================================================== *)

(** ** The participant ledger: undo, synchrony with the store, framing *)

Section LedgerMore.

Variable clock : Clock.

Lemma role_player_guard (s : Session) :
  role s = Some player -> negb (is_player (role s)) = false.
Proof. intros ->. reflexivity. Qed.

(** What an accepted update does to the store, when the device's record
    lies in the room of the filter. *)
Lemma players_update_hit (p : Supabase.Payload) (u : string)
    (db : Db.Store) (row : Db.PlayerRow) :
  Db.players db !! u = Some row ->
  Supabase.players_update None p u (Some (Db.room_id row)) db
  = (None,
     Db.mkStore (Db.rooms db)
       (<[u := Supabase.apply_payload p row]> (Db.players db))).
Proof.
  intros Hrow. unfold Supabase.players_update. rewrite Hrow.
  now rewrite decide_True.
Qed.

(** An update never touches another record, never creates one, and keeps the
    key, room, role and name of the record it changes. *)
Lemma players_update_frame (verdict : option Db.StoreError)
    (p : Supabase.Payload) (u : string) (room : option string)
    (db : Db.Store) :
  Supabase.set_name p = None ->
  Supabase.set_room_id p = room ->
  own_record_only u db (Supabase.players_update verdict p u room db).2.
Proof.
  intros Hname Hroom.
  assert (Hid : own_record_only u db db).
  { split; [reflexivity |]. split; [reflexivity |]. split; [tauto |].
    intros row Hrow. exists row. tauto. }
  unfold Supabase.players_update.
  destruct verdict as [e |]; [exact Hid |].
  destruct room as [code |]; [| exact Hid].
  destruct (Db.players db !! u) as [row |] eqn:Hrow; [| exact Hid].
  case_decide as Hin; [| exact Hid].
  cbn [snd]. split; [reflexivity |]. split; [| split].
  - intros v Hv. cbn. now rewrite lookup_insert_ne by congruence.
  - intros Hn. congruence.
  - intros row0 Hrow0. assert (row0 = row) as -> by congruence. eexists. cbn. rewrite lookup_insert_eq.
    split; [reflexivity |]. cbn. rewrite Hname, Hroom. cbn. auto.
Qed.

Lemma playerAction_guarded (w : World) (verdict : option Db.StoreError)
    (m : Z) (h : option (list Round.t)) :
  baseAmount (session w) <= 0 \/ role (session w) <> Some player ->
  playerAction clock verdict m h w = (inr tt, w).
Proof.
  intros Hg. unfold playerAction. unfold_monad. cbn [fst snd].
  replace ((baseAmount (session w) <=? 0)
           || negb (is_player (role (session w)))) with true; [reflexivity |].
  symmetry. apply orb_true_iff. destruct Hg as [Hb | Hr].
  - left. now apply Z.leb_le.
  - right. unfold is_player. now rewrite bool_decide_eq_false_2.
Qed.

Lemma playerAction_accepted_run (w : World) (m : Z)
    (h : option (list Round.t)) :
  role (session w) = Some player ->
  0 < baseAmount (session w) ->
  playerAction clock None m h w
  = (inr tt,
     mkWorld
       (setLastActionAmount (baseAmount (session w) * m)
          (setCurrentNet (currentNet (session w) + baseAmount (session w) * m)
             (session w)))
       (Supabase.players_update None (action_payload clock (session w) m h)
          (deviceUUID (session w)) (roomId (session w)) (store w)).2
       (localStorage w)).
Proof.
  intros Hrole Hbase. unfold playerAction. unfold_monad. cbn [fst snd].
  rewrite (role_player_guard _ Hrole).
  replace (baseAmount (session w) <=? 0) with false
    by (symmetry; apply Z.leb_gt; exact Hbase).
  cbn [orb session store localStorage].
  fold (action_payload clock (session w) m h).
  pose proof (players_update_accepted (action_payload clock (session w) m h)
                (deviceUUID (session w)) (roomId (session w)) (store w))
    as Hacc.
  destruct (Supabase.players_update None _ _ _ _) as [res db'].
  cbn in Hacc. subst res. reflexivity.
Qed.

Lemma playerAction_refused_run (w : World) (e : Db.StoreError) (m : Z)
    (h : option (list Round.t)) :
  role (session w) = Some player ->
  0 < baseAmount (session w) ->
  playerAction clock (Some e) m h w
  = (inr tt,
     mkWorld
       (setError (Some "Failed to update. Please try again.")
          (setLastActionAmount (lastActionAmount (session w))
             (setCurrentNet (currentNet (session w))
                (setLastActionAmount (baseAmount (session w) * m)
                   (setCurrentNet
                      (currentNet (session w) + baseAmount (session w) * m)
                      (session w))))))
       (store w) (localStorage w)).
Proof.
  intros Hrole Hbase. unfold playerAction. unfold_monad. cbn [fst snd].
  rewrite (role_player_guard _ Hrole).
  replace (baseAmount (session w) <=? 0) with false
    by (symmetry; apply Z.leb_gt; exact Hbase).
  reflexivity.
Qed.

Lemma playerUndo_guarded (w : World) (verdict : option Db.StoreError)
    (h : option (list Round.t)) :
  lastActionAmount (session w) = 0 \/ role (session w) <> Some player ->
  playerUndo clock verdict h w = (inr tt, w).
Proof.
  intros Hg. unfold playerUndo. unfold_monad. cbn [fst snd].
  replace ((lastActionAmount (session w) =? 0)
           || negb (is_player (role (session w)))) with true; [reflexivity |].
  symmetry. apply orb_true_iff. destruct Hg as [Hb | Hr].
  - left. now apply Z.eqb_eq.
  - right. unfold is_player. now rewrite bool_decide_eq_false_2.
Qed.

Lemma playerUndo_accepted_run (w : World) (h : option (list Round.t)) :
  role (session w) = Some player ->
  lastActionAmount (session w) <> 0 ->
  playerUndo clock None h w
  = (inr tt,
     mkWorld
       (setLastActionAmount 0
          (setCurrentNet (currentNet (session w) - lastActionAmount (session w))
             (session w)))
       (Supabase.players_update None (undo_payload clock (session w) h)
          (deviceUUID (session w)) (roomId (session w)) (store w)).2
       (localStorage w)).
Proof.
  intros Hrole Hlast. unfold playerUndo. unfold_monad. cbn [fst snd].
  rewrite (role_player_guard _ Hrole).
  replace (lastActionAmount (session w) =? 0) with false
    by (symmetry; apply Z.eqb_neq; exact Hlast).
  cbn [orb session store localStorage].
  fold (undo_payload clock (session w) h).
  pose proof (players_update_accepted (undo_payload clock (session w) h)
                (deviceUUID (session w)) (roomId (session w)) (store w))
    as Hacc.
  destruct (Supabase.players_update None _ _ _ _) as [res db'].
  cbn in Hacc. subst res. reflexivity.
Qed.

Lemma playerUndo_refused_run (w : World) (e : Db.StoreError)
    (h : option (list Round.t)) :
  role (session w) = Some player ->
  lastActionAmount (session w) <> 0 ->
  playerUndo clock (Some e) h w
  = (inr tt,
     mkWorld
       (setError (Some "Undo failed. Please try again.")
          (setLastActionAmount (lastActionAmount (session w))
             (setCurrentNet (currentNet (session w))
                (setLastActionAmount 0
                   (setCurrentNet
                      (currentNet (session w) - lastActionAmount (session w))
                      (session w))))))
       (store w) (localStorage w)).
Proof.
  intros Hrole Hlast. unfold playerUndo. unfold_monad. cbn [fst snd].
  rewrite (role_player_guard _ Hrole).
  replace (lastActionAmount (session w) =? 0) with false
    by (symmetry; apply Z.eqb_neq; exact Hlast).
  reflexivity.
Qed.

End LedgerMore.





(** X4. The player operations [setPlayerBase], [playerAction], [playerUndo]
    and [playerMassTie] write to nothing but the caller's own record: for
    every answer of the store, the rooms table and every other device's
    record are unchanged, no record is created, and the caller's record keeps
    its key, room, role and name. *)
Theorem player_operations_touch_own_record_only
    (clock : Clock) (w : World) (verdict : option Db.StoreError)
    (amount multiplier count : Z) (h : option (list Round.t))
    (currentRoundHistory : list Round.t) :
  let me := deviceUUID (session w) in
  own_record_only me (store w) (store (exec (setPlayerBase verdict amount) w))
  /\ own_record_only me (store w)
       (store (exec (playerAction clock verdict multiplier h) w))
  /\ own_record_only me (store w)
       (store (exec (playerUndo clock verdict h) w))
  /\ own_record_only me (store w)
       (store (exec (playerMassTie clock verdict count currentRoundHistory) w)).
Proof.
  intros me.
  assert (Hid : own_record_only me (store w) (store w)).
  { split; [reflexivity |]. split; [reflexivity |]. split; [tauto |].
    intros row Hrow. exists row. tauto. }
  split; [| split; [| split]].
  - unfold setPlayerBase. unfold_monad. cbn [fst snd session store].
    destruct (roomId (session w)) as [r |] eqn:Hroom; [| exact Hid].
    destruct (bool_decide (r = "")); [exact Hid |].
    cbn [fst snd session store localStorage roomId deviceUUID setBaseAmount].
    match goal with
    | |- context [Supabase.players_update ?v ?p ?u ?r ?db] =>
        pose proof (players_update_frame v p u r db eq_refl eq_refl) as Hf;
        destruct (Supabase.players_update v p u r db) as [res db']
    end.
    exact Hf.
  - unfold playerAction. unfold_monad. cbn [fst snd].
    destruct (_ || _); [exact Hid |].
    cbn [fst snd session store localStorage].
    match goal with
    | |- context [Supabase.players_update ?v ?p ?u ?r ?db] =>
        pose proof (players_update_frame v p u r db eq_refl eq_refl) as Hf;
        destruct (Supabase.players_update v p u r db) as [[e |] db']
    end; exact Hf.
  - unfold playerUndo. unfold_monad. cbn [fst snd].
    destruct (_ || _); [exact Hid |].
    cbn [fst snd session store localStorage].
    match goal with
    | |- context [Supabase.players_update ?v ?p ?u ?r ?db] =>
        pose proof (players_update_frame v p u r db eq_refl eq_refl) as Hf;
        destruct (Supabase.players_update v p u r db) as [[e |] db']
    end; exact Hf.
  - unfold playerMassTie. unfold_monad. cbn [fst snd].
    destruct (_ || _); [exact Hid |].
    cbn [fst snd session store localStorage].
    match goal with
    | |- context [Supabase.players_update ?v ?p ?u ?r ?db] =>
        pose proof (players_update_frame v p u r db eq_refl eq_refl) as Hf;
        destruct (Supabase.players_update v p u r db) as [[e |] db']
    end; exact Hf.
Qed.

(** ** Rooms: leaving, rejoining, creating *)

Section RoomsMore.

Lemma leaveRoom_world_run (verdict : option Db.StoreError) (w : World) :
  leaveRoom_world verdict w
  = (inr tt,
     mkWorld (reset_multiplayer (session w))
       (if bool_decide (role (session w) = Some banker)
           && truthy (roomId (session w))
        then (rooms_update_status verdict ended
                (default "" (roomId (session w))) (store w)).2
        else store w)
       (delete "auto_join_room" (localStorage w))).
Proof.
  unfold leaveRoom_world, localStorage_removeItem. unfold_monad.
  cbn [fst snd session store localStorage].
  destruct (bool_decide (role (session w) = Some banker)
            && truthy (roomId (session w))).
  - cbn [fst snd session store localStorage].
    destruct (rooms_update_status verdict ended _ (store w)) as [res db].
    reflexivity.
  - reflexivity.
Qed.

Lemma joinRoom_reconnect_run (code : string) (v : JoinVerdicts)
    (w : World) (room : Db.RoomRow) (row : Db.PlayerRow) :
  existingVerdict v = None ->
  Db.rooms (store w) !! code = Some room ->
  Db.status room = active ->
  Db.players (store w) !! deviceUUID (session w) = Some row ->
  Db.room_id row = code ->
  joinRoom code v w
  = (inr tt,
     mkWorld (reconnected code room row (session w)) (store w)
       (<["auto_join_room" := code]> (localStorage w))).
Proof.
  intros Hread Hroom Hst Hrow Hcode. rewrite joinRoom_run.
  set (w0 := mkWorld _ _ _).
  now rewrite (joinRoom_try_reconnect code v w0 room row
                 Hroom Hst Hread Hrow Hcode).
Qed.

Lemma joinRoom_joined_run (code : string) (j : JoinVerdicts) (w : World)
    (room : Db.RoomRow) :
  insertVerdict j = None ->
  Db.rooms (store w) !! code = Some room ->
  Db.status room = active ->
  not_in_room code (deviceUUID (session w)) (store w) ->
  (Supabase.players_count code (store w) < 15)%nat ->
  joinRoom code j w
  = (inr tt,
     mkWorld (joined code room (joining_row code w room) (session w))
       (Supabase.players_upsert None (joining_row code w room) (store w)).2
       (<["auto_join_room" := code]> (localStorage w))).
Proof.
  intros Hv Hroom Hst Hout Hfree. rewrite joinRoom_run.
  set (w0 := mkWorld _ _ _).
  now rewrite (joinRoom_try_joined code j w0 room Hroom Hst
                 (or_intror Hout) (or_intror Hfree) Hv).
Qed.

Lemma joinRoom_ended_run (code : string) (v : JoinVerdicts)
    (w : World) (room : Db.RoomRow) :
  Db.rooms (store w) !! code = Some room ->
  Db.status room <> active ->
  joinRoom code v w
  = (inr tt,
     mkWorld (failed_with "Room has ended" (session w)) (store w)
       (localStorage w)).
Proof.
  intros Hroom Hst. rewrite joinRoom_run.
  set (w0 := mkWorld _ _ _).
  now rewrite (joinRoom_try_ended code v w0 room Hroom Hst).
Qed.

Lemma joinRoom_not_found_run (code : string) (v : JoinVerdicts)
    (w : World) :
  Db.rooms (store w) !! code = None ->
  joinRoom code v w
  = (inr tt,
     mkWorld (failed_with "Room not found" (session w)) (store w)
       (localStorage w)).
Proof.
  intros Hroom. rewrite joinRoom_run.
  set (w0 := mkWorld _ _ _).
  now rewrite (joinRoom_try_not_found code v w0 Hroom).
Qed.

Lemma truthy_Some (s : string) : s <> "" -> truthy (Some s) = true.
Proof. intros H. cbn. now rewrite bool_decide_eq_false_2. Qed.

End RoomsMore.

(** X5. When the banker leaves and the write is accepted, the room is
    marked ended while every participant record stays in the store; from
    then on [joinRoom] for that code fails with "Room has ended" for every
    device, former participants included, and changes neither the caller's
    session nor the store. *)
Theorem banker_leave_ends_room
    (w : World) (ch : option string) (code : string) (room : Db.RoomRow) :
  role (session w) = Some banker ->
  roomId (session w) = Some code ->
  code <> "" ->
  Db.rooms (store w) !! code = Some room ->
  let db' := store (world (leaveRoom None (mkDevice w ch))) in
  Db.rooms db' !! code
    = Some (Db.mkRoom (Db.id room) (Db.banker_uuid room) ended)
  /\ Db.players db' = Db.players (store w)
  /\ (forall (w2 : World) (v : JoinVerdicts),
        store w2 = db' ->
        let w3 := exec (joinRoom code v) w2 in
        error (session w3) = Some "Room has ended"
        /\ session_kept (session w2) (session w3)
        /\ store w3 = store w2).
Proof.
  intros Hrole Hroom Hne Hlook db'.
  assert (Hdb : db'
                = Db.mkStore
                    (<[code := Db.mkRoom (Db.id room) (Db.banker_uuid room)
                                 ended]> (Db.rooms (store w)))
                    (Db.players (store w))).
  { subst db'. unfold leaveRoom, exec. cbn [world].
    rewrite leaveRoom_world_run. cbn [snd store].
    rewrite Hrole, Hroom, (truthy_Some code Hne).
    rewrite bool_decide_eq_true_2 by reflexivity.
    cbn [andb default from_option]. unfold id, rooms_update_status.
    now rewrite Hlook. }
  rewrite Hdb. cbn [Db.rooms Db.players].
  split; [apply lookup_insert_eq |].
  split; [reflexivity |].
  intros w2 v Hw2. unfold exec.
  rewrite (joinRoom_ended_run code v w2
             (Db.mkRoom (Db.id room) (Db.banker_uuid room) ended)).
  - cbn. unfold session_kept. cbn. tauto.
  - rewrite Hw2. cbn. apply lookup_insert_eq.
  - discriminate.
Qed.

Lemma banker_leave_ends_room_witness :
  let db' := store (world (leaveRoom None (mkDevice banker_world None))) in
  Db.rooms db' !! "4821" = Some (Db.mkRoom "4821" "bank" ended)
  /\ error (session (exec (joinRoom "4821" (answered None))
                         (fresh_world "p01" db')))
     = Some "Room has ended".
Proof.
  intros db'.
  destruct (banker_leave_ends_room banker_world None "4821"
              (Db.mkRoom "4821" "bank" active))
    as (Hroom & _ & Hjoin).
  - reflexivity.
  - reflexivity.
  - discriminate.
  - vm_compute. reflexivity.
  - split; [exact Hroom |].
    exact (proj1 (Hjoin (fresh_world "p01" db') (answered None) eq_refl)).
Defined.

(** X6. The banker's leave does not look at the store's answer: when the
    write that should end the room is refused, the store is unchanged (the
    room keeps its status), yet the banker's session is reset all the same
    and no error is shown. *)
Theorem banker_leave_refused_is_silent
    (w : World) (ch : option string) (e : Db.StoreError) (code : string)
    (room : Db.RoomRow) :
  role (session w) = Some banker ->
  roomId (session w) = Some code ->
  Db.rooms (store w) !! code = Some room ->
  let d' := leaveRoom (Some e) (mkDevice w ch) in
  store (world d') = store w
  /\ Db.rooms (store (world d')) !! code = Some room
  /\ error (session (world d')) = None
  /\ mode (session (world d')) = None
  /\ roomId (session (world d')) = None
  /\ role (session (world d')) = None.
Proof.
  intros Hrole Hroom Hlook d'. subst d'. unfold leaveRoom, exec. cbn [world].
  rewrite leaveRoom_world_run. cbn [snd session store].
  assert (Hst : (if bool_decide (role (session w) = Some banker)
                    && truthy (roomId (session w))
                 then (rooms_update_status (Some e) ended
                         (default "" (roomId (session w))) (store w)).2
                 else store w) = store w)
    by (destruct (_ && _); reflexivity).
  rewrite Hst. repeat split. exact Hlook.
Qed.

Lemma banker_leave_refused_is_silent_witness :
  let d' := leaveRoom (Some refused) (mkDevice banker_world None) in
  Db.rooms (store (world d')) !! "4821"
    = Some (Db.mkRoom "4821" "bank" active)
  /\ error (session (world d')) = None
  /\ mode (session (world d')) = None.
Proof.
  intros d'.
  destruct (banker_leave_refused_is_silent banker_world None refused "4821"
              (Db.mkRoom "4821" "bank" active) eq_refl eq_refl
              ltac:(vm_compute; reflexivity))
    as (_ & Hroom & He & Hm & _).
  split; [exact Hroom |]. split; [exact He | exact Hm].
Defined.

(** X7. Leaving a room, whatever the role and the store's answer, clears
    every multiplayer cell, drops the subscription and removes the
    auto-join key, while no participant record is deleted and the
    single-player cells are untouched; afterwards the banker prompt sends
    nothing and the auto-join effect of a remount does nothing. *)
Theorem leaveRoom_resets_session
    (w : World) (ch : option string) (verdict : option Db.StoreError) :
  let d' := leaveRoom verdict (mkDevice w ch) in
  let s' := session (world d') in
  (roomId s' = None /\ role s' = None /\ mode s' = None
   /\ baseAmount s' = 0 /\ currentNet s' = 0 /\ lastActionAmount s' = 0
   /\ bankerNet s' = 0 /\ players s' = [] /\ roomStatus s' = None
   /\ tiePromptActive s' = None /\ error s' = None)
  /\ (singleBase s' = singleBase (session w)
      /\ singleNet s' = singleNet (session w)
      /\ singleLastAction s' = singleLastAction (session w)
      /\ deviceUUID s' = deviceUUID (session w))
  /\ Db.players (store (world d')) = Db.players (store w)
  /\ localStorage (world d') !! "auto_join_room" = None
  /\ realtimeChannelRef d' = None
  /\ (forall playerId missing, promptPlayerTie playerId missing d' = None)
  /\ (forall v, exec (autoJoin_effect v) (world d') = world d').
Proof.
  intros d' s'. subst s' d'. unfold leaveRoom, exec.
  cbn [world realtimeChannelRef].
  rewrite leaveRoom_world_run. cbn [snd session store localStorage].
  split; [cbn; tauto |].
  split; [cbn; tauto |].
  split.
  { destruct (_ && _); [| reflexivity].
    unfold rooms_update_status. destruct verdict; [reflexivity |].
    destruct (Db.rooms (store w) !! _); reflexivity. }
  split; [apply lookup_delete_eq |].
  split; [reflexivity |].
  split.
  - intros playerId missing. unfold promptPlayerTie. cbn. reflexivity.
  - intros v. unfold autoJoin_effect, localStorage_getItem. unfold_monad.
    cbn [fst snd session store localStorage].
    rewrite lookup_delete_eq. reflexivity.
Qed.

(** X8. A player who leaves and joins the same room again gets the ledger
    back, provided the reconnection read of the rejoin is answered: leaving
    deletes nothing from the store, and for a synchronised player in an
    active room the rejoin restores the net and the last delta the session
    had before leaving, again in multiplayer mode in that room and in
    synchrony with the store. *)
Theorem leave_and_rejoin_restores
    (w : World) (ch : option string) (code : string) (room : Db.RoomRow)
    (leaveVerdict : option Db.StoreError) (j : JoinVerdicts) :
  in_sync w ->
  role (session w) = Some player ->
  roomId (session w) = Some code ->
  Db.rooms (store w) !! code = Some room ->
  Db.status room = active ->
  existingVerdict j = None ->
  let d1 := leaveRoom leaveVerdict (mkDevice w ch) in
  let w2 := exec (joinRoom code j) (world d1) in
  currentNet (session w2) = currentNet (session w)
  /\ lastActionAmount (session w2) = lastActionAmount (session w)
  /\ roomId (session w2) = Some code
  /\ mode (session w2) = Some multi
  /\ error (session w2) = None
  /\ store w2 = store w
  /\ in_sync w2.
Proof.
  intros (row & Hrow & Hroomid & Hnet & Hlast) Hrole Hroom Hlook Hst Hread
    d1 w2.
  assert (Hcode : Db.room_id row = code) by congruence.
  pose (w1 := mkWorld (reset_multiplayer (session w)) (store w)
                (delete "auto_join_room" (localStorage w))).
  assert (Hd1 : world d1 = w1).
  { subst d1 w1. unfold leaveRoom, exec. cbn [world].
    rewrite leaveRoom_world_run. cbn [snd]. rewrite Hrole.
    rewrite bool_decide_eq_false_2 by discriminate. reflexivity. }
  subst w2. unfold exec. rewrite Hd1.
  rewrite (joinRoom_reconnect_run code j w1 room row
             Hread Hlook Hst Hrow Hcode).
  subst w1. cbn [snd session store]. unfold reconnected. cbn.
  rewrite Hnet, Hlast. cbn.
  repeat (split; [reflexivity |]).
  exists row. cbn. rewrite Hnet, Hlast, Hcode. auto.
Qed.

Lemma leave_and_rejoin_restores_witness :
  let d1 := leaveRoom None (mkDevice player_world None) in
  let w2 := exec (joinRoom "4821" (answered None)) (world d1) in
  currentNet (session (world d1)) = 0
  /\ currentNet (session w2) = currentNet (session player_world)
  /\ lastActionAmount (session w2) = lastActionAmount (session player_world).
Proof.
  intros d1 w2.
  assert (Hsync : in_sync player_world).
  { eexists. split; [vm_compute; reflexivity |].
    split; [reflexivity |]. split; reflexivity. }
  destruct (leave_and_rejoin_restores player_world None "4821"
              (Db.mkRoom "4821" "bank" active) None (answered None)
              Hsync eq_refl eq_refl
              ltac:(vm_compute; reflexivity) eq_refl eq_refl)
    as (Hn & Hl & _).
  split; [reflexivity |]. split; [exact Hn | exact Hl].
Defined.

(** X9. A successful [createRoom] leaves an active room owned by the caller
    and a zeroed banker record for the caller in that room, whatever record
    the caller had before (a record in an earlier room is overwritten);
    other rooms and other devices' records are untouched, the session is in
    multiplayer mode as banker of the room, and the auto-join key holds the
    code. *)
Theorem createRoom_success
    (w : World) (code suffix : string) :
  Db.rooms (store w) !! code = None ->
  let w' := exec (createRoom code suffix None None) w in
  let me := deviceUUID (session w) in
  Db.rooms (store w') !! code = Some (Db.mkRoom code me active)
  /\ (forall c, c <> code -> Db.rooms (store w') !! c = Db.rooms (store w) !! c)
  /\ (exists row,
        Db.players (store w') !! me = Some row
        /\ Db.room_id row = code /\ Db.role row = banker
        /\ Db.base_amount row = Some 0 /\ Db.current_net row = Some 0
        /\ Db.last_action_amount row = Some 0
        /\ Db.round_history row = Some [])
  /\ (forall u, u <> me ->
        Db.players (store w') !! u = Db.players (store w) !! u)
  /\ (roomId (session w') = Some code /\ role (session w') = Some banker
      /\ roomStatus (session w') = Some active /\ mode (session w') = Some multi
      /\ error (session w') = None /\ loading (session w') = false)
  /\ localStorage w' !! "auto_join_room" = Some code.
Proof.
  intros Hfree w' me. subst w' me. unfold exec.
  rewrite createRoom_run, createRoom_try_run.
  cbn [session store localStorage deviceUUID playerName setError setLoading].
  cbv zeta. unfold Supabase.rooms_insert. cbn [Db.id]. rewrite Hfree.
  cbn [Supabase.players_upsert snd fst].
  cbn [session store localStorage Db.rooms Db.players].
  split; [apply lookup_insert_eq |].
  split; [intros c Hc; now rewrite lookup_insert_ne by congruence |].
  split.
  { eexists. split; [apply lookup_insert_eq |]. cbn. tauto. }
  split; [intros u Hu; cbn; now rewrite lookup_insert_ne by congruence |].
  split; [cbn; tauto |].
  apply lookup_insert_eq.
Qed.

Lemma createRoom_success_witness :
  let w' := exec (createRoom "7777" "ab12" None None) player_world in
  Db.rooms (store w') !! "7777" = Some (Db.mkRoom "7777" "p01" active)
  /\ role (session w') = Some banker
  /\ (exists row, Db.players (store w') !! "p01" = Some row
                  /\ Db.room_id row = "7777" /\ Db.current_net row = Some 0).
Proof.
  intros w'.
  destruct (createRoom_success player_world "7777" "ab12"
              ltac:(vm_compute; reflexivity))
    as (Hroom & _ & (row & Hrow & Hc & _ & _ & Hn & _) & _ & (_ & Hr & _) & _).
  split; [exact Hroom |]. split; [exact Hr |].
  exists row. auto.
Defined.

(** X10. [createRoom] with a code that is already taken fails without side
    effects: the insert is refused on the primary key, the banker upsert is
    not attempted, so the existing room (owner and status), every
    participant record, the caller's session cells and local storage are
    unchanged, and an error message is shown. *)
Theorem createRoom_code_taken
    (w : World) (code suffix : string)
    (roomVerdict playerVerdict : option Db.StoreError) (taken : Db.RoomRow) :
  Db.rooms (store w) !! code = Some taken ->
  let w' := exec (createRoom code suffix roomVerdict playerVerdict) w in
  store w' = store w
  /\ session_kept (session w) (session w')
  /\ localStorage w' = localStorage w
  /\ is_Some (error (session w')).
Proof.
  intros Htaken w'. subst w'. unfold exec.
  rewrite createRoom_run, createRoom_try_run.
  cbn [session store localStorage deviceUUID playerName setError setLoading].
  cbv zeta. unfold Supabase.rooms_insert. cbn [Db.id]. rewrite Htaken.
  destruct roomVerdict as [e |]; cbn; unfold session_kept; cbn;
    (split; [destruct (store w); reflexivity |]);
    (split; [tauto |]); (split; [reflexivity |]); eauto.
Qed.

Lemma createRoom_code_taken_witness :
  let w := fresh_world "p02" room_4821 in
  let w' := exec (createRoom "4821" "" None None) w in
  Db.rooms (store w') !! "4821" = Some (Db.mkRoom "4821" "bank" active)
  /\ mode (session w') = None
  /\ is_Some (error (session w')).
Proof.
  intros w w'.
  destruct (createRoom_code_taken w "4821" "" None None
              (Db.mkRoom "4821" "bank" active) ltac:(vm_compute; reflexivity))
    as (Hs & (Hm & _) & _ & He).
  split; [unfold w'; rewrite Hs; vm_compute; reflexivity |].
  split; [exact Hm | exact He].
Defined.

(** X11. [createRoom] is not atomic on the store, and [joinRoom] repairs
    it: when the room insert is accepted but the banker upsert is refused,
    the room row stays in the store without any participant record while the
    session is left on the home screen with an error; a following
    [joinRoom] of that code by the same device (not yet in the room, room not
    full) whose upsert is accepted is a first join that assigns the role of
    banker, whatever the two reads of that call answer. *)
Theorem createRoom_partial_failure_recovers
    (w : World) (code suffix : string) (e : Db.StoreError)
    (j : JoinVerdicts) :
  Db.rooms (store w) !! code = None ->
  not_in_room code (deviceUUID (session w)) (store w) ->
  (Supabase.players_count code (store w) < 15)%nat ->
  insertVerdict j = None ->
  let w1 := exec (createRoom code suffix None (Some e)) w in
  let w2 := exec (joinRoom code j) w1 in
  (Db.rooms (store w1) !! code
     = Some (Db.mkRoom code (deviceUUID (session w)) active)
   /\ Db.players (store w1) = Db.players (store w)
   /\ session_kept (session w) (session w1)
   /\ is_Some (error (session w1)))
  /\ (role (session w2) = Some banker
      /\ roomId (session w2) = Some code
      /\ mode (session w2) = Some multi
      /\ error (session w2) = None
      /\ exists row,
           Db.players (store w2) !! deviceUUID (session w) = Some row
           /\ Db.room_id row = code /\ Db.role row = banker).
Proof.
  intros Hfree Hout Hcount Hv w1 w2.
  pose (room := Db.mkRoom code (deviceUUID (session w)) active).
  pose (w1' := mkWorld
                 (failed_with (str_or (Db.message e) "Failed to create room")
                    (session w))
                 (Db.mkStore (<[code := room]> (Db.rooms (store w)))
                    (Db.players (store w)))
                 (localStorage w)).
  assert (Hw1 : w1 = w1').
  { subst w1 w1'. unfold exec.
    rewrite createRoom_run, createRoom_try_run.
    cbn [session store localStorage deviceUUID playerName setError setLoading].
    cbv zeta. unfold Supabase.rooms_insert. cbn [Db.id]. rewrite Hfree.
    reflexivity. }
  split.
  - rewrite Hw1. subst w1'. cbn [store session Db.rooms Db.players].
    split; [apply lookup_insert_eq |]. split; [reflexivity |].
    unfold session_kept. cbn. split; [tauto | eauto].
  - subst w2. unfold exec. rewrite Hw1.
    rewrite (joinRoom_joined_run code j w1' room).
    + subst w1'. cbn [snd session store]. unfold joined, joining_row. cbn.
      rewrite bool_decide_eq_true_2 by reflexivity.
      repeat (split; [reflexivity |]).
      eexists. rewrite lookup_insert_eq. split; [reflexivity |]. cbn. tauto.
    + exact Hv.
    + subst w1'. cbn. apply lookup_insert_eq.
    + reflexivity.
    + exact Hout.
    + exact Hcount.
Qed.

Lemma createRoom_partial_failure_recovers_witness :
  let w := fresh_world "bank" empty_store in
  let w1 := exec (createRoom "4821" "" None (Some refused)) w in
  let w2 := exec (joinRoom "4821" (answered None)) w1 in
  mode (session w1) = None
  /\ error (session w1) = Some "network error"
  /\ role (session w2) = Some banker.
Proof.
  intros w w1 w2.
  destruct (createRoom_partial_failure_recovers w "4821" "" refused
              (answered None))
    as ((_ & _ & (Hm & _) & _) & (Hr & _)).
  - vm_compute. reflexivity.
  - intros row Hrow. vm_compute in Hrow. discriminate Hrow.
  - vm_compute. lia.
  - reflexivity.
  - split; [exact Hm |]. split; [vm_compute; reflexivity | exact Hr].
Defined.

(** X12. Joining is idempotent on the store.  A first [joinRoom] (active
    room, no record yet, room not full, upsert accepted) adds exactly one
    zeroed record for the caller, with role banker exactly when the caller
    owns the room; any further [joinRoom] of that code by the same device
    whose reconnection read is answered, from whatever session state,
    changes nothing in the store and restores that same role. *)
Theorem joinRoom_twice_is_once
    (w : World) (code : string) (room : Db.RoomRow) (j : JoinVerdicts) :
  Db.rooms (store w) !! code = Some room ->
  Db.status room = active ->
  not_in_room code (deviceUUID (session w)) (store w) ->
  (Supabase.players_count code (store w) < 15)%nat ->
  insertVerdict j = None ->
  let me := deviceUUID (session w) in
  let w1 := exec (joinRoom code j) w in
  let assigned :=
    if bool_decide (Db.banker_uuid room = me) then banker else player in
  (exists row,
      Db.players (store w1) !! me = Some row
      /\ Db.room_id row = code /\ Db.role row = assigned
      /\ Db.base_amount row = Some 0 /\ Db.current_net row = Some 0
      /\ Db.last_action_amount row = Some 0)
  /\ Supabase.players_count code (store w1)
     = S (Supabase.players_count code (store w))
  /\ role (session w1) = Some assigned
  /\ (forall (w1' : World) (v : JoinVerdicts),
        store w1' = store w1 ->
        deviceUUID (session w1') = me ->
        existingVerdict v = None ->
        let w2 := exec (joinRoom code v) w1' in
        store w2 = store w1
        /\ role (session w2) = Some assigned
        /\ currentNet (session w2) = 0
        /\ error (session w2) = None).
Proof.
  intros Hroom Hst Hout Hfree Hv me w1 assigned.
  pose (row := joining_row code w room).
  assert (Hw1 : joinRoom code j w
                = (inr tt,
                   mkWorld (joined code room row (session w))
                     (Supabase.players_upsert None row (store w)).2
                     (<["auto_join_room" := code]> (localStorage w))))
    by exact (joinRoom_joined_run code j w room Hv Hroom Hst Hout Hfree).
  assert (Hstored : exists stored,
             Db.players (store w1) !! me = Some stored
             /\ Db.room_id stored = code /\ Db.role stored = assigned
             /\ Db.base_amount stored = Some 0
             /\ Db.current_net stored = Some 0
             /\ Db.last_action_amount stored = Some 0).
  { subst w1. unfold exec. rewrite Hw1. cbn [snd store].
    unfold Supabase.players_upsert. cbn [snd Db.players].
    eexists. split; [apply lookup_insert_eq |]. cbn. tauto. }
  split; [exact Hstored |].
  split.
  { subst w1. unfold exec. rewrite Hw1. cbn [snd store].
    apply (count_after_upsert code row (store w)); [reflexivity | exact Hout]. }
  split.
  { subst w1. unfold exec. rewrite Hw1. reflexivity. }
  intros w1' v Hstore Hdev Hread w2.
  destruct Hstored as (stored & Hlook & Hcode & Hrole & _ & Hnet & _).
  assert (Hroom1 : Db.rooms (store w1') !! code = Some room).
  { rewrite Hstore. subst w1. unfold exec. rewrite Hw1. exact Hroom. }
  assert (Hlook1 : Db.players (store w1') !! deviceUUID (session w1')
                   = Some stored)
    by (rewrite Hstore, Hdev; exact Hlook).
  subst w2. unfold exec.
  rewrite (joinRoom_reconnect_run code v w1' room stored
             Hread Hroom1 Hst Hlook1 Hcode).
  cbn [snd store session]. unfold reconnected. cbn.
  rewrite Hrole, Hnet. auto.
Qed.

Lemma joinRoom_twice_is_once_witness :
  let w := fresh_world "p01" room_4821 in
  let w1 := exec (joinRoom "4821" (answered None)) w in
  Supabase.players_count "4821" (store w1) = 2%nat
  /\ role (session w1) = Some player
  /\ store (exec (joinRoom "4821" (answered None)) player_world)
     = store player_world.
Proof.
  intros w w1.
  assert (Hout : not_in_room "4821" (deviceUUID (session w)) (store w))
    by (intros row Hrow; vm_compute in Hrow; discriminate Hrow).
  destruct (joinRoom_twice_is_once w "4821" (Db.mkRoom "4821" "bank" active)
              (answered None)
              ltac:(vm_compute; reflexivity) eq_refl Hout
              ltac:(vm_compute; lia) eq_refl)
    as (_ & Hcount & Hrole & _).
  split; [unfold w1; rewrite Hcount; vm_compute; reflexivity |].
  split; [exact Hrole |].
  vm_compute. reflexivity.
Defined.

(** X13. The auto-join effect restores a session from the store: on a hook
    that has just mounted (no mode, not loading, no room) with the auto-join
    key set to the code of an active room in which the device has a record,
    the effect acts as [joinRoom] of that code and, when the reconnection
    read is answered, the session shows the record's role, base, net and
    last delta, in multiplayer mode. *)
Theorem autoJoin_restores
    (w : World) (code : string) (room : Db.RoomRow) (row : Db.PlayerRow)
    (v : JoinVerdicts) :
  existingVerdict v = None ->
  localStorage w !! "auto_join_room" = Some code ->
  code <> "" ->
  mode (session w) = None ->
  loading (session w) = false ->
  roomId (session w) = None ->
  Db.rooms (store w) !! code = Some room ->
  Db.status room = active ->
  Db.players (store w) !! deviceUUID (session w) = Some row ->
  Db.room_id row = code ->
  let w' := exec (autoJoin_effect v) w in
  w' = exec (joinRoom code v) w
  /\ role (session w') = Some (Db.role row)
  /\ baseAmount (session w') = or0 (Db.base_amount row)
  /\ currentNet (session w') = or0 (Db.current_net row)
  /\ lastActionAmount (session w') = or0 (Db.last_action_amount row)
  /\ roomId (session w') = Some code
  /\ mode (session w') = Some multi
  /\ store w' = store w.
Proof.
  intros Hread Hkey Hne Hmode Hload Hroomid Hroom Hst Hrow Hcode w'.
  assert (Heff : autoJoin_effect v w = joinRoom code v w).
  { unfold autoJoin_effect, localStorage_getItem.
    unfold bind at 1 2. unfold closure. cbn [fst snd].
    rewrite Hkey, Hmode, Hload, Hroomid, (truthy_Some code Hne).
    reflexivity. }
  subst w'. unfold exec. rewrite Heff.
  split; [reflexivity |].
  rewrite (joinRoom_reconnect_run code v w room row
             Hread Hroom Hst Hrow Hcode).
  cbn. tauto.
Qed.

Lemma autoJoin_restores_witness :
  let w := mkWorld (initial_session "p01" "") (store player_world)
             (localStorage player_world) in
  let w' := exec (autoJoin_effect (answered None)) w in
  role (session w') = Some player
  /\ baseAmount (session w') = 2
  /\ currentNet (session w') = 4
  /\ lastActionAmount (session w') = 2.
Proof.
  intros w w'.
  pose (row := Db.mkPlayer "p01" "4821" player "" (Some 2) (Some 4) (Some 2)
                 (Some []) (Some "2024-01-01T12:00:00.000Z")).
  assert (H1 : localStorage w !! "auto_join_room" = Some "4821")
    by (vm_compute; reflexivity).
  assert (H2 : Db.rooms (store w) !! "4821"
               = Some (Db.mkRoom "4821" "bank" active))
    by (vm_compute; reflexivity).
  assert (H3 : Db.players (store w) !! deviceUUID (session w) = Some row)
    by (vm_compute; reflexivity).
  destruct (autoJoin_restores w "4821" (Db.mkRoom "4821" "bank" active) row
              (answered None) eq_refl H1 ltac:(discriminate) eq_refl eq_refl
              eq_refl H2 eq_refl H3 eq_refl)
    as (_ & Hr & Hb & Hn & Hl & _).
  split; [exact Hr |]. split; [exact Hb |]. split; [exact Hn | exact Hl].
Defined.

(** X14. A failed auto-join never clears its key: when the saved room no
    longer exists or has ended, the effect leaves the hook on the home screen
    with the error and local storage exactly as it was, so the same attempt is
    made, and fails the same way, on every later mount. *)
Theorem autoJoin_failure_keeps_key
    (w : World) (code : string) (v : JoinVerdicts) :
  localStorage w !! "auto_join_room" = Some code ->
  code <> "" ->
  mode (session w) = None ->
  loading (session w) = false ->
  roomId (session w) = None ->
  (Db.rooms (store w) !! code = None
   \/ exists room, Db.rooms (store w) !! code = Some room
                   /\ Db.status room <> active) ->
  let w' := exec (autoJoin_effect v) w in
  localStorage w' = localStorage w
  /\ store w' = store w
  /\ mode (session w') = None
  /\ roomId (session w') = None
  /\ loading (session w') = false
  /\ is_Some (error (session w'))
  /\ session (exec (autoJoin_effect v) w') = session w'.
Proof.
  intros Hkey Hne Hmode Hload Hroomid Hgone w'.
  assert (Heff : forall w0, localStorage w0 !! "auto_join_room" = Some code ->
            mode (session w0) = None -> loading (session w0) = false ->
            roomId (session w0) = None ->
            autoJoin_effect v w0 = joinRoom code v w0).
  { intros w0 Hk Hm Hl Hr. unfold autoJoin_effect, localStorage_getItem.
    unfold bind at 1 2. unfold closure. cbn [fst snd].
    rewrite Hk, Hm, Hl, Hr, (truthy_Some code Hne). reflexivity. }
  assert (Hrun : exists msg, forall w0, store w0 = store w ->
            joinRoom code v w0
            = (inr tt, mkWorld (failed_with msg (session w0)) (store w0)
                         (localStorage w0))).
  { destruct Hgone as [Hnone | (room & Hroom & Hst)].
    - exists "Room not found". intros w0 Hs.
      apply joinRoom_not_found_run. now rewrite Hs.
    - exists "Room has ended". intros w0 Hs.
      apply (joinRoom_ended_run code v w0 room); [now rewrite Hs | exact Hst]. }
  destruct Hrun as (msg & Hrun).
  assert (Hw' : w' = mkWorld (failed_with msg (session w)) (store w)
                       (localStorage w)).
  { subst w'. unfold exec. rewrite (Heff w Hkey Hmode Hload Hroomid).
    now rewrite (Hrun w eq_refl). }
  rewrite Hw'.
  set (w1 := mkWorld (failed_with msg (session w)) (store w) (localStorage w)).
  split; [reflexivity |]. split; [reflexivity |].
  split; [exact Hmode |]. split; [exact Hroomid |].
  split; [reflexivity |]. split; [cbn; eauto |].
  unfold exec. rewrite (Heff w1 Hkey Hmode eq_refl Hroomid).
  rewrite (Hrun w1 eq_refl). reflexivity.
Qed.

Lemma autoJoin_failure_keeps_key_witness :
  let db' := store (world (leaveRoom None (mkDevice banker_world None))) in
  let w := mkWorld (initial_session "p01" "") db' (localStorage player_world) in
  let w' := exec (autoJoin_effect (answered None)) w in
  localStorage w' = localStorage w
  /\ localStorage w !! "auto_join_room" = Some "4821"
  /\ mode (session w') = None
  /\ is_Some (error (session w')).
Proof.
  intros db' w w'.
  assert (H1 : localStorage w !! "auto_join_room" = Some "4821")
    by (vm_compute; reflexivity).
  assert (H2 : Db.rooms (store w) !! "4821"
               = Some (Db.mkRoom "4821" "bank" ended))
    by (vm_compute; reflexivity).
  assert (H3 : Db.rooms (store w) !! "4821" = None
               \/ exists room, Db.rooms (store w) !! "4821" = Some room
                               /\ Db.status room <> active).
  { right. exists (Db.mkRoom "4821" "bank" ended).
    split; [exact H2 | discriminate]. }
  assert (Hne : "4821" <> "") by discriminate.
  assert (Hm0 : mode (session w) = None) by reflexivity.
  assert (Hl0 : loading (session w) = false) by reflexivity.
  assert (Hr0 : roomId (session w) = None) by reflexivity.
  destruct (autoJoin_failure_keeps_key w "4821" (answered None)
              H1 Hne Hm0 Hl0 Hr0 H3)
    as (Hls & _ & Hm & _ & _ & He & _).
  split; [exact Hls |]. split; [exact H1 |].
  split; [exact Hm | exact He].
Defined.

(** ** Device identity *)

(** X15. [getDeviceUUID] is get-or-create: with a non-empty fresh draw, the
    returned id is never empty and is what local storage holds afterwards; a
    non-empty stored id is returned as it is, without writing; and a second
    call returns the first call's id and changes nothing, whatever it
    draws. *)
Theorem getDeviceUUID_stable
    (fresh fresh' : string) (ls : gmap string string) :
  fresh <> "" ->
  let '(id1, ls1) := getDeviceUUID fresh ls in
  id1 <> ""
  /\ ls1 !! "device_uuid" = Some id1
  /\ (forall stored, ls !! "device_uuid" = Some stored -> stored <> "" ->
        id1 = stored /\ ls1 = ls)
  /\ (forall k, k <> "device_uuid" -> ls1 !! k = ls !! k)
  /\ getDeviceUUID fresh' ls1 = (id1, ls1).
Proof.
  intros Hfresh. unfold getDeviceUUID.
  destruct (ls !! "device_uuid") as [stored |] eqn:Hls.
  - cbn [truthy]. destruct (decide (stored = "")) as [-> | Hne].
    + rewrite bool_decide_eq_true_2 by reflexivity. cbn [negb].
      split; [exact Hfresh |].
      split; [apply lookup_insert_eq |].
      split; [intros s [= <-] Hs; congruence |].
      split; [intros k Hk; now rewrite lookup_insert_ne by congruence |].
      rewrite lookup_insert_eq. cbn [truthy default from_option].
      now rewrite bool_decide_eq_false_2.
    + rewrite bool_decide_eq_false_2 by exact Hne. cbn [negb default].
      split; [exact Hne |].
      split; [exact Hls |].
      split; [intros s [= <-] _; auto |].
      split; [reflexivity |].
      rewrite Hls. cbn [truthy default].
      now rewrite bool_decide_eq_false_2.
  - cbn [truthy].
    split; [exact Hfresh |].
    split; [apply lookup_insert_eq |].
    split; [discriminate |].
    split; [intros k Hk; now rewrite lookup_insert_ne by congruence |].
    rewrite lookup_insert_eq. cbn [truthy default from_option].
    now rewrite bool_decide_eq_false_2.
Qed.

Lemma getDeviceUUID_stable_witness :
  getDeviceUUID "u-1" ∅ = ("u-1", {["device_uuid" := "u-1"]})
  /\ getDeviceUUID "u-2" (getDeviceUUID "u-1" ∅).2
     = ("u-1", {["device_uuid" := "u-1"]}).
Proof.
  pose proof (getDeviceUUID_stable "u-1" "u-2" ∅ ltac:(discriminate)) as H.
  assert (E : getDeviceUUID "u-1" ∅ = ("u-1", {["device_uuid" := "u-1"]}))
    by (vm_compute; reflexivity).
  rewrite E in H. destruct H as (_ & _ & _ & _ & H2).
  split; [exact E |]. rewrite E. exact H2.
Defined.

(** ** The tie prompt and the catch-up round trip *)

Section TiePrompt.

Lemma missed_or_1_nonzero (m : option Z) : missed_or_1 m <> 0.
Proof.
  unfold missed_or_1. destruct m as [n |]; [| discriminate].
  destruct (n =? 0) eqn:E; [discriminate |]. now apply Z.eqb_neq.
Qed.

(** [playerMassTie] for a player and a positive count. *)
Lemma playerMassTie_run (clock : Clock) (verdict : option Db.StoreError)
    (n : Z) (hist : list Round.t) (w : World) :
  0 < n ->
  role (session w) = Some player ->
  outcome (playerMassTie clock verdict n hist) w
    = inr (Some (push_ties clock (Z.to_nat n) 0 [] ++ hist))
  /\ currentNet (session (exec (playerMassTie clock verdict n hist) w))
     = currentNet (session w)
  /\ lastActionAmount (session (exec (playerMassTie clock verdict n hist) w))
     = 0
  /\ tiePromptActive (session (exec (playerMassTie clock verdict n hist) w))
     = tiePromptActive (session w).
Proof.
  intros Hn Hrole. unfold playerMassTie. unfold_monad. cbn [fst snd].
  rewrite (role_player_guard _ Hrole).
  replace (n <=? 0) with false by (symmetry; apply Z.leb_gt; exact Hn).
  cbn [orb session store localStorage].
  destruct (Supabase.players_update _ _ _ _ _) as [[e |] db]; cbn; auto.
Qed.

Lemma history_total_app (h1 h2 : list Round.t) :
  history_total (h1 ++ h2) = history_total h1 + history_total h2.
Proof.
  induction h1 as [| r h1 IH]; [reflexivity |].
  cbn [app]. unfold history_total in *. cbn [foldr]. rewrite IH. lia.
Qed.

Lemma history_total_zero (h : list Round.t) :
  Forall (fun r => Round.multiplier r = 0 /\ Round.amount r = 0) h ->
  history_total h = 0.
Proof.
  induction 1 as [| r h [_ Hr] _ IH]; [reflexivity |].
  unfold history_total in *. cbn [foldr]. rewrite IH, Hr. reflexivity.
Qed.

(** What accepting the prompt does, by the pending count. *)
Lemma resolveTiePrompt_outcomes_aux
    (clock : Clock) (verdict : option Db.StoreError) (w : World)
    (hist : list Round.t) :
  let cleared :=
    mkWorld (setTiePromptActive None (session w)) (store w) (localStorage w) in
  let n := default 1 (tiePromptActive (session w)) in
  (n <= 1 ->
      resolveTiePrompt clock verdict true hist w = (inr None, cleared))
  /\ (2 <= n -> role (session w) = Some player ->
      let w' := exec (resolveTiePrompt clock verdict true hist) w in
      outcome (resolveTiePrompt clock verdict true hist) w
        = inr (Some (push_ties clock (Z.to_nat n) 0 [] ++ hist))
      /\ length (push_ties clock (Z.to_nat n) 0 [] ++ hist)
         = (Z.to_nat n + length hist)%nat
      /\ history_total (push_ties clock (Z.to_nat n) 0 [] ++ hist)
         = history_total hist
      /\ currentNet (session w') = currentNet (session w)
      /\ lastActionAmount (session w') = 0
      /\ tiePromptActive (session w') = None).
Proof.
  intros cleared n.
  split.
  - intros Hn. unfold resolveTiePrompt. unfold bind at 1 2.
    unfold closure, upd. cbn [fst snd]. fold n.
    replace (1 <? n) with false by (symmetry; apply Z.ltb_ge; exact Hn).
    reflexivity.
  - intros Hn Hrole w'.
    assert (Hrun : resolveTiePrompt clock verdict true hist w
                   = playerMassTie clock verdict n hist cleared).
    { unfold resolveTiePrompt. unfold bind at 1 2.
      unfold closure, upd. cbn [fst snd]. fold n.
      replace (1 <? n) with true by (symmetry; apply Z.ltb_lt; lia).
      reflexivity. }
    destruct (playerMassTie_run clock verdict n hist cleared
                ltac:(lia) Hrole) as (Hout & Hnet & Hlast & Hprompt).
    subst w'. unfold outcome, exec in *. rewrite Hrun.
    split; [exact Hout |].
    split; [rewrite length_app, push_ties_length; simpl; lia |].
    split.
    { rewrite history_total_app, history_total_zero; [lia |].
      apply push_ties_zero. constructor. }
    split; [exact Hnet |]. split; [exact Hlast | exact Hprompt].
Qed.

End TiePrompt.

(** X16. A [prompt_tie] broadcast changes a device only if the device is
    subscribed to the message's channel, is a player, and is the addressed
    identity; in that case it sets the pending prompt to the announced count
    of missing rounds, or to 1 when that count is 0 or absent, so a pending
    count is never 0.  In no case does it touch the ledger cells, the store
    or the subscription. *)
Theorem prompt_reaches_only_addressed_player (b : Broadcast) (d : Device) :
  let d' := receive b d in
  let addressed :=
    realtimeChannelRef d = Some (channel_name b)
    /\ role (session (world d)) = Some player
    /\ target_uuid (payload b) = Some (deviceUUID (session (world d))) in
  (d' <> d -> addressed)
  /\ (addressed ->
      tiePromptActive (session (world d'))
        = Some (missed_or_1 (missedRounds (payload b)))
      /\ missed_or_1 (missedRounds (payload b)) <> 0)
  /\ (store (world d') = store (world d)
      /\ currentNet (session (world d')) = currentNet (session (world d))
      /\ lastActionAmount (session (world d'))
         = lastActionAmount (session (world d))
      /\ role (session (world d')) = role (session (world d))
      /\ realtimeChannelRef d' = realtimeChannelRef d).
Proof.
  intros d' addressed. subst d' addressed. unfold receive.
  destruct (decide (realtimeChannelRef d = Some (channel_name b))) as [Hch | Hch].
  2: { rewrite bool_decide_eq_false_2 by exact Hch. cbn [andb].
       split; [congruence |]. split; [tauto | auto]. }
  destruct (decide (role (session (world d)) = Some player)) as [Hpl | Hpl].
  2: { unfold is_player. rewrite (bool_decide_eq_false_2 _ Hpl).
       rewrite andb_false_r.
       split; [congruence |]. split; [tauto | auto]. }
  rewrite (bool_decide_eq_true_2 _ Hch). unfold is_player.
  rewrite (bool_decide_eq_true_2 _ Hpl). cbn [andb].
  unfold on_prompt_tie. unfold_monad. cbn [fst snd].
  destruct (decide (target_uuid (payload b)
                    = Some (deviceUUID (session (world d))))) as [Ht | Ht].
  - rewrite (bool_decide_eq_true_2 _ Ht). cbn.
    split; [auto |].
    split; [intros _; split; [reflexivity | apply missed_or_1_nonzero] |].
    auto.
  - rewrite (bool_decide_eq_false_2 _ Ht). cbn.
    split; [intros Hd; exfalso; apply Hd; destruct d as [[? ? ?] ?];
            reflexivity |].
    split; [tauto | auto].
Qed.

Lemma prompt_reaches_only_addressed_player_witness :
  let d := mkDevice player_world (Some "room-4821") in
  let b := mkBroadcast "room-4821" (mkTiePayload (Some "p01") (Some 0)) in
  let other := mkBroadcast "room-4821" (mkTiePayload (Some "p02") (Some 3)) in
  tiePromptActive (session (world (receive b d))) = Some 1
  /\ ~ receive other d <> d.
Proof.
  intros d b other.
  destruct (prompt_reaches_only_addressed_player b d) as (_ & Hset & _).
  destruct (prompt_reaches_only_addressed_player other d) as (Honly & _).
  split.
  - destruct Hset as [Hp _].
    + split; [reflexivity |].
      split; [vm_compute; reflexivity | vm_compute; reflexivity].
    + exact Hp.
  - intros Hne. destruct (Honly Hne) as (_ & _ & Ht).
    vm_compute in Ht. discriminate Ht.
Defined.

(** X17. Answering the tie prompt always clears it.  A rejection changes
    nothing else and resolves to null.  So does an acceptance when the
    pending count is 1 (or nothing is pending): the hook itself inserts no
    tie for a single missing round.  An acceptance by a player with a
    pending count [n >= 2] resolves to the given history with [n] zero
    entries in front, with the net unchanged and the last delta at 0. *)
Theorem resolveTiePrompt_outcomes
    (clock : Clock) (verdict : option Db.StoreError) (w : World)
    (hist : list Round.t) :
  let cleared :=
    mkWorld (setTiePromptActive None (session w)) (store w) (localStorage w) in
  let n := default 1 (tiePromptActive (session w)) in
  resolveTiePrompt clock verdict false hist w = (inr None, cleared)
  /\ (n <= 1 ->
      resolveTiePrompt clock verdict true hist w = (inr None, cleared))
  /\ (2 <= n -> role (session w) = Some player ->
      let w' := exec (resolveTiePrompt clock verdict true hist) w in
      outcome (resolveTiePrompt clock verdict true hist) w
        = inr (Some (push_ties clock (Z.to_nat n) 0 [] ++ hist))
      /\ length (push_ties clock (Z.to_nat n) 0 [] ++ hist)
         = (Z.to_nat n + length hist)%nat
      /\ history_total (push_ties clock (Z.to_nat n) 0 [] ++ hist)
         = history_total hist
      /\ currentNet (session w') = currentNet (session w)
      /\ lastActionAmount (session w') = 0
      /\ tiePromptActive (session w') = None).
Proof.
  intros cleared n.
  destruct (resolveTiePrompt_outcomes_aux clock verdict w hist)
    as (Hone & Htwo).
  split; [reflexivity |]. split; [exact Hone | exact Htwo].
Qed.

Lemma resolveTiePrompt_outcomes_witness :
  let w := mkWorld (setTiePromptActive (Some 3) (session player_world))
             (store player_world) (localStorage player_world) in
  let hist := [sample_round 2; sample_round 1] in
  (exists h,
      outcome (resolveTiePrompt sample_clock None true hist) w = inr (Some h)
      /\ length h = 5%nat)
  /\ currentNet (session (exec (resolveTiePrompt sample_clock None true hist) w))
     = 4.
Proof.
  intros w hist.
  destruct (resolveTiePrompt_outcomes sample_clock None w hist)
    as (_ & _ & Hacc).
  destruct Hacc as (Hout & Hlen & _ & Hnet & _).
  - vm_compute. discriminate.
  - reflexivity.
  - split.
    + eexists. split; [exact Hout | exact Hlen].
    + rewrite Hnet. reflexivity.
Defined.

(** ** The banker's view *)

Section BankerViewFacts.
Import BankerBoard.

Lemma roundCounts_pRounds (ps : list Db.PlayerRow) :
  roundCounts ps = map BankerView.pRounds (activePlayers ps).
Proof. reflexivity. Qed.

(** Two lists with the same frequencies have the same majority. *)
Lemma majority_of_frequencies (l l' : list nat) :
  (forall x, frequency l x = frequency l' x) ->
  majority_of l = majority_of l'.
Proof.
  intros Hfreq.
  assert (Hnil : forall a b : list nat,
             (forall x, frequency a x = frequency b x) -> a = [] -> b = []).
  { intros a b H ->. destruct b as [| y b]; [reflexivity |].
    specialize (H y). unfold frequency in H. simpl in H.
    destruct (Nat.eq_dec y y); [discriminate | congruence]. }
  destruct l as [| a l0] eqn:El.
  - rewrite (Hnil [] l' Hfreq eq_refl). reflexivity.
  - rewrite <- El in *.
    assert (Hne : l <> []) by (rewrite El; discriminate).
    assert (Hne' : l' <> []).
    { intros E. apply Hne. apply (Hnil l' l); [| exact E].
      intros x. symmetry. apply Hfreq. }
    destruct (majority_of_mode l Hne) as (_ & Hmax & Htie).
    destruct (majority_of_mode l' Hne') as (_ & Hmax' & Htie').
    assert (Heq : frequency l (majority_of l') = frequency l (majority_of l)).
    { apply Nat.le_antisymm; [apply Hmax |].
      rewrite !Hfreq. apply Hmax'. }
    apply Nat.le_antisymm.
    + apply Htie'. rewrite <- !Hfreq. symmetry. exact Heq.
    + apply Htie. exact Heq.
Qed.

Lemma activePlayers_perm (ps ps' : list Db.PlayerRow) :
  Permutation ps ps' -> Permutation (activePlayers ps) (activePlayers ps').
Proof. intros H. unfold activePlayers. now apply filter_Permutation. Qed.

End BankerViewFacts.

(** X19. The board never flags everybody: with at least one player, some
    player has exactly the majority round count and is not shown as behind;
    every player shown as behind misses at least one round; and when all
    players have the same round count, that count is the majority and nobody
    is behind. *)
Theorem someone_is_on_track (ps : list Db.PlayerRow) :
  BankerBoard.activePlayers ps <> [] ->
  (exists p, p ∈ BankerBoard.activePlayers ps
             /\ BankerView.pRounds p = BankerBoard.majority ps
             /\ BankerView.isBehind ps p = false)
  /\ (forall p, BankerView.isBehind ps p = true ->
        (1 <= BankerBoard.majority ps - BankerView.pRounds p)%nat)
  /\ (forall c,
        (forall p, p ∈ BankerBoard.activePlayers ps -> BankerView.pRounds p = c) ->
        BankerBoard.majority ps = c
        /\ forall p, p ∈ BankerBoard.activePlayers ps ->
                     BankerView.isBehind ps p = false).
Proof.
  intros Hne.
  assert (Hl : BankerBoard.roundCounts ps <> []).
  { rewrite roundCounts_pRounds.
    destruct (BankerBoard.activePlayers ps); [congruence | discriminate]. }
  destruct (majority_of_mode _ Hl) as (Hin & _ & _).
  fold (BankerBoard.majority ps) in Hin.
  rewrite roundCounts_pRounds in Hin.
  apply in_map_iff in Hin as (p & Hp & Hpin).
  apply list_elem_of_In in Hpin.
  split.
  { exists p. split; [exact Hpin |]. split; [exact Hp |].
    unfold BankerView.isBehind. rewrite Hp. apply Nat.ltb_irrefl. }
  split.
  { intros q Hq. unfold BankerView.isBehind in Hq.
    apply Nat.ltb_lt in Hq. lia. }
  intros c Hall.
  assert (Hm : BankerBoard.majority ps = c)
    by (rewrite <- Hp; apply Hall; exact Hpin).
  split; [exact Hm |].
  intros q Hq. unfold BankerView.isBehind. rewrite Hm, (Hall q Hq).
  apply Nat.ltb_irrefl.
Qed.

Lemma someone_is_on_track_witness :
  exists p, p ∈ BankerBoard.activePlayers sample_rows
            /\ BankerView.pRounds p = BankerBoard.majority sample_rows.
Proof.
  destruct (someone_is_on_track sample_rows ltac:(vm_compute; discriminate))
    as ((p & Hin & Hp & _) & _).
  exists p. split; assumption.
Defined.

(** X20. The board's counts do not depend on the order in which the store
    returns the rows: for any reordering of the fetched records the number
    of players shown and the majority round count (ties between round
    counts included) are the same. *)
Theorem banker_counts_ignore_row_order (ps ps' : list Db.PlayerRow) :
  Permutation ps ps' ->
  BankerView.playerCount ps = BankerView.playerCount ps'
  /\ BankerBoard.majority ps = BankerBoard.majority ps'.
Proof.
  intros Hperm.
  assert (Hact := activePlayers_perm ps ps' Hperm).
  split; [unfold BankerView.playerCount; now apply Permutation_length |].
  unfold BankerBoard.majority. apply majority_of_frequencies.
  intros x. unfold frequency. apply Permutation_count_occ.
  rewrite !roundCounts_pRounds. now apply Permutation_map.
Qed.

Lemma banker_counts_ignore_row_order_witness :
  BankerView.playerCount (rev sample_rows) = 2%nat
  /\ BankerBoard.majority (rev sample_rows) = 3%nat.
Proof.
  destruct (banker_counts_ignore_row_order (rev sample_rows) sample_rows)
    as (Hcount & Hmaj).
  - symmetry. apply Permutation_rev.
  - split; [rewrite Hcount | rewrite Hmaj]; vm_compute; reflexivity.
Defined.

(** The rows [fetchRoomPlayers] reads for the session's room. *)
Lemma fetchRoomPlayers_run (w : World) :
  fetchRoomPlayers w
  = (inr tt,
     if truthy (roomId (session w))
     then
       let data :=
         (map_to_list
            (Supabase.room_rows (default "" (roomId (session w))) (store w))).*2
       in
       mkWorld (setBankerNet (- totalPlayerNet data)
                  (setPlayers data (session w)))
         (store w) (localStorage w)
     else w).
Proof.
  unfold fetchRoomPlayers, on_players_fetched, Supabase.players_select_room.
  unfold_monad. cbn [fst snd].
  destruct (roomId (session w)) as [r |]; [| reflexivity].
  cbn [truthy]. destruct (bool_decide (r = "")); reflexivity.
Qed.

Lemma fetchRoomPlayers_keeps_store (w : World) :
  store (exec fetchRoomPlayers w) = store w.
Proof.
  unfold exec. rewrite fetchRoomPlayers_run. cbn [snd].
  destruct (truthy _); reflexivity.
Qed.

(** X21. [fetchRoomPlayers] is idempotent and read-only: it never changes
    the store, local storage or any cell but [players] and [bankerNet];
    running it again on an unchanged store changes nothing more, so
    duplicated change notifications are harmless; and without a room it
    does nothing at all. *)
Theorem fetchRoomPlayers_idempotent (w : World) :
  let w' := exec fetchRoomPlayers w in
  exec fetchRoomPlayers w' = w'
  /\ store w' = store w
  /\ localStorage w' = localStorage w
  /\ (currentNet (session w') = currentNet (session w)
      /\ lastActionAmount (session w') = lastActionAmount (session w)
      /\ role (session w') = role (session w)
      /\ roomId (session w') = roomId (session w)
      /\ error (session w') = error (session w))
  /\ (truthy (roomId (session w)) = false -> w' = w).
Proof.
  intros w'. subst w'. unfold exec.
  rewrite (fetchRoomPlayers_run w). cbn [snd].
  destruct (truthy (roomId (session w))) eqn:Hroom.
  - cbv zeta. rewrite fetchRoomPlayers_run.
    cbn [snd session store localStorage roomId setBankerNet setPlayers].
    rewrite Hroom. cbv zeta.
    split; [reflexivity |]. split; [reflexivity |]. split; [reflexivity |].
    split; [cbn; tauto | discriminate].
  - rewrite fetchRoomPlayers_run, Hroom. cbn [snd].
    split; [reflexivity |]. split; [reflexivity |]. split; [reflexivity |].
    split; [tauto | reflexivity].
Qed.

(** X22. The subscription effect subscribes a device exactly when it is in
    multiplayer mode with a room: then the channel is named after the room,
    so two subscribed devices share a channel exactly when they are in the
    same room; otherwise the effect does nothing.  It never writes to the
    store, and only a banker's effect fetches the player list. *)
Theorem subscription_follows_room (d d2 : Device) :
  let d' := subscription_effect d in
  (forall code, mode (session (world d)) = Some multi ->
      roomId (session (world d)) = Some code -> code <> "" ->
      realtimeChannelRef d' = Some ("room-" +:+ code)
      /\ (forall code2, mode (session (world d2)) = Some multi ->
            roomId (session (world d2)) = Some code2 -> code2 <> "" ->
            (realtimeChannelRef (subscription_effect d2)
               = realtimeChannelRef d' <-> code2 = code)))
  /\ (mode (session (world d)) <> Some multi
      \/ truthy (roomId (session (world d))) = false -> d' = d)
  /\ store (world d') = store (world d)
  /\ (role (session (world d)) <> Some banker -> world d' = world d).
Proof.
  intros d'. subst d'.
  assert (Hsub : forall (x : Device) code,
             mode (session (world x)) = Some multi ->
             roomId (session (world x)) = Some code -> code <> "" ->
             realtimeChannelRef (subscription_effect x)
             = Some ("room-" +:+ code)).
  { intros x code Hm Hr Hne. unfold subscription_effect.
    rewrite Hm, Hr, (truthy_Some code Hne).
    rewrite bool_decide_eq_true_2 by reflexivity. reflexivity. }
  split.
  { intros code Hm Hr Hne. split; [now apply Hsub |].
    intros code2 Hm2 Hr2 Hne2.
    rewrite (Hsub d code Hm Hr Hne), (Hsub d2 code2 Hm2 Hr2 Hne2).
    split; [| now intros ->].
    intros [= H]. exact H. }
  split.
  { intros Hno. unfold subscription_effect.
    destruct Hno as [Hm | Ht].
    - rewrite bool_decide_eq_false_2 by exact Hm. reflexivity.
    - rewrite Ht. rewrite orb_true_r. reflexivity. }
  split.
  { unfold subscription_effect.
    destruct (_ || _); [reflexivity |]. cbn [world].
    destruct (bool_decide _); [| reflexivity].
    apply fetchRoomPlayers_keeps_store. }
  intros Hrole. unfold subscription_effect.
  destruct (_ || _); [reflexivity |]. cbn [world].
  now rewrite bool_decide_eq_false_2.
Qed.

Lemma fetchRoomPlayers_idempotent_witness :
  let w' := exec fetchRoomPlayers banker_world in
  exec fetchRoomPlayers w' = w'
  /\ exec fetchRoomPlayers (fresh_world "bank" sample_store)
     = fresh_world "bank" sample_store.
Proof.
  intros w'.
  destruct (fetchRoomPlayers_idempotent banker_world) as (Hidem & _).
  destruct (fetchRoomPlayers_idempotent (fresh_world "bank" sample_store))
    as (_ & _ & _ & _ & Hnone).
  split; [exact Hidem | apply Hnone; reflexivity].
Defined.

Lemma subscription_follows_room_witness :
  realtimeChannelRef (subscription_effect (mkDevice player_world None))
    = Some "room-4821"
  /\ subscription_effect (mkDevice (fresh_world "p01" empty_store) None)
     = mkDevice (fresh_world "p01" empty_store) None.
Proof.
  destruct (subscription_follows_room (mkDevice player_world None)
              (mkDevice player_world None)) as (Hsub & _).
  destruct (subscription_follows_room
              (mkDevice (fresh_world "p01" empty_store) None)
              (mkDevice player_world None)) as (_ & Hnone & _).
  split.
  - destruct (Hsub "4821") as [Hch _];
      [reflexivity | reflexivity | discriminate |].
    exact Hch.
  - apply Hnone. left. discriminate.
Defined.

(** ** Single-player exit and the board's round history *)

Section BoardFacts.

Lemma run_single_idle (ops : list SingleOp) (s : Session) :
  singleBase s <= 0 ->
  singleLastAction s = 0 ->
  run_single ops s = s.
Proof.
  intros Hb Hl. induction ops as [| op ops IH]; [reflexivity |].
  change (run_single (op :: ops) s)
    with (run_single ops (single_step s op)).
  assert (Hstep : single_step s op = s).
  { destruct op as [m |]; cbn [single_step].
    - unfold singlePlayerAction.
      replace (singleBase s <=? 0) with true
        by (symmetry; apply Z.leb_le; exact Hb).
      reflexivity.
    - unfold singlePlayerUndo. rewrite Hl. reflexivity. }
  rewrite Hstep. exact IH.
Qed.

End BoardFacts.

(** X23. [singlePlayerExit] zeroes the three single-player cells, leaves
    mode selection, removes its three keys and the auto-join key from local
    storage and nothing else, and does not touch the store or the
    multiplayer cells; afterwards every sequence of [applyAction] and
    [undo] is without effect (until a base is set again). *)
Theorem singlePlayerExit_resets (w : World) (ops : list SingleOp) :
  let w' := exec singlePlayerExit w in
  (singleBase (session w') = 0 /\ singleNet (session w') = 0
   /\ singleLastAction (session w') = 0 /\ mode (session w') = None)
  /\ (forall k, k ∈ ["single_base"; "single_net"; "single_last_action";
                     "auto_join_room"] -> localStorage w' !! k = None)
  /\ (forall k, k ∉ ["single_base"; "single_net"; "single_last_action";
                     "auto_join_room"] ->
        localStorage w' !! k = localStorage w !! k)
  /\ store w' = store w
  /\ (roomId (session w') = roomId (session w)
      /\ role (session w') = role (session w)
      /\ currentNet (session w') = currentNet (session w)
      /\ baseAmount (session w') = baseAmount (session w))
  /\ run_single ops (session w') = session w'.
Proof.
  intros w'. subst w'.
  unfold singlePlayerExit, localStorage_removeItem, exec. unfold_monad.
  cbn [fst snd session store localStorage].
  split; [cbn; tauto |].
  split.
  { intros k Hk. rewrite !lookup_delete.
    repeat (case_decide; [reflexivity |]).
    exfalso. apply list_elem_of_In in Hk. simpl in Hk. intuition congruence. }
  split.
  { intros k Hk. rewrite !lookup_delete.
    repeat (case_decide;
            [exfalso; apply Hk, list_elem_of_In; simpl; intuition congruence |]).
    reflexivity. }
  split; [reflexivity |].
  split; [cbn; tauto |].
  apply run_single_idle; cbn; [lia | reflexivity].
Qed.



(** X26. [setPlayerBase] is best effort: the session's base is the new
    amount whatever the store answers and no error is ever shown; an
    accepted write stores the amount in the caller's record, a refused one
    leaves the store as it was, so that the next reconnection to the room
    (a [joinRoom] whose reconnection read is answered) brings back the old
    stored base. *)
Theorem setPlayerBase_is_best_effort
    (w : World) (verdict : option Db.StoreError) (amount : Z)
    (row : Db.PlayerRow) (room : Db.RoomRow) :
  Db.players (store w) !! deviceUUID (session w) = Some row ->
  roomId (session w) = Some (Db.room_id row) ->
  Db.room_id row <> "" ->
  Db.rooms (store w) !! Db.room_id row = Some room ->
  Db.status room = active ->
  let w' := exec (setPlayerBase verdict amount) w in
  baseAmount (session w') = amount
  /\ error (session w') = error (session w)
  /\ (verdict = None ->
      exists row',
        Db.players (store w') !! deviceUUID (session w) = Some row'
        /\ Db.base_amount row' = Some amount
        /\ Db.current_net row' = Db.current_net row)
  /\ (forall e, verdict = Some e ->
      store w' = store w
      /\ forall v,
           existingVerdict v = None ->
           baseAmount (session (exec (joinRoom (Db.room_id row) v) w'))
           = or0 (Db.base_amount row)).
Proof.
  intros Hrow Hroom Hne Hlook Hst w'.
  pose (p := Supabase.mkPayload None (Some amount) None None
               (Some (Db.room_id row)) None None).
  assert (Hrun : setPlayerBase verdict amount w
                 = (inr tt,
                    mkWorld (setBaseAmount amount (session w))
                      (Supabase.players_update verdict p
                         (deviceUUID (session w)) (Some (Db.room_id row))
                         (store w)).2
                      (localStorage w))).
  { unfold setPlayerBase. unfold_monad.
    cbn [fst snd session store localStorage roomId deviceUUID setBaseAmount].
    rewrite Hroom. rewrite bool_decide_eq_false_2 by exact Hne.
    fold p. destruct (Supabase.players_update verdict p _ _ _); reflexivity. }
  subst w'. unfold exec at 1 2 3 4. rewrite Hrun. cbn [snd session store].
  split; [reflexivity |]. split; [reflexivity |].
  split.
  - intros ->. rewrite (players_update_hit p _ _ row Hrow).
    eexists. cbn [snd Db.players]. rewrite lookup_insert_eq.
    split; [reflexivity |]. cbn. auto.
  - intros e ->. cbn [Supabase.players_update snd].
    split; [reflexivity |]. intros v Hread. unfold exec. rewrite Hrun.
    cbn [Supabase.players_update snd].
    set (w1 := mkWorld _ _ _).
    rewrite (joinRoom_reconnect_run (Db.room_id row) v w1 room row
               Hread Hlook Hst Hrow eq_refl).
    reflexivity.
Qed.

Lemma setPlayerBase_is_best_effort_witness :
  let w' := exec (setPlayerBase (Some refused) 50) player_world in
  baseAmount (session w') = 50
  /\ baseAmount (session (exec (joinRoom "4821" (answered None)) w')) = 2.
Proof.
  intros w'.
  pose (row := Db.mkPlayer "p01" "4821" player "" (Some 2) (Some 4) (Some 2)
                 (Some []) (Some "2024-01-01T12:00:00.000Z")).
  assert (Hrow : Db.players (store player_world)
                   !! deviceUUID (session player_world) = Some row)
    by (vm_compute; reflexivity).
  assert (Hroom : Db.rooms (store player_world) !! Db.room_id row
                  = Some (Db.mkRoom "4821" "bank" active))
    by (vm_compute; reflexivity).
  destruct (setPlayerBase_is_best_effort player_world (Some refused) 50 row
              (Db.mkRoom "4821" "bank" active) Hrow eq_refl
              ltac:(discriminate) Hroom eq_refl)
    as (Hb & _ & _ & Hrefused).
  split; [exact Hb |].
  destruct (Hrefused refused eq_refl) as [_ Hjoin].
  exact (Hjoin (answered None) eq_refl).
Defined.


(* ===================================================================== *)
(** * The banker's net on the stores the program builds *)
(* ===================================================================== *)

Section StoreInvariant.

Lemma rooms_extend_refl (db : Db.Store) : rooms_extend db db.
Proof. intros code room H. now exists room. Qed.

Lemma rooms_extend_same (db db' : Db.Store) :
  Db.rooms db' = Db.rooms db -> rooms_extend db db'.
Proof. intros H code room Hroom. exists room. now rewrite H. Qed.

Lemma hook_ok_extend (db db' : Db.Store) (s : Session) :
  rooms_extend db db' -> hook_ok db s -> hook_ok db' s.
Proof.
  intros Hext Hok Hrole code Hcode.
  destruct (Hok Hrole code Hcode) as (room & Hroom & Hne).
  destruct (Hext code room Hroom) as (room' & Hroom' & Hb).
  exists room'. split; [exact Hroom' | now rewrite Hb].
Qed.

Lemma hook_ok_identity (db : Db.Store) (s s' : Session) :
  same_identity s s' -> hook_ok db s -> hook_ok db s'.
Proof.
  intros (Hu & Hr & Hrole) Hok Hrole' code Hcode.
  rewrite Hu. apply Hok; congruence.
Qed.

Lemma hook_ok_no_player (db : Db.Store) (s : Session) :
  role s <> Some player -> hook_ok db s.
Proof. intros H Hrole. contradiction. Qed.

Lemma role_not_banker (r : Role) : r <> banker -> r = player.
Proof. destruct r; congruence. Qed.

(** An accepted update that leaves the room alone, and writes the net only
    to a player's record, keeps the store well formed. *)
Lemma update_store_ok (p : Supabase.Payload) (u : string)
    (room : option string) (db : Db.Store) :
  store_ok db ->
  (Supabase.set_room_id p = None \/ Supabase.set_room_id p = room) ->
  (is_Some (Supabase.set_current_net p) ->
   forall row, Db.players db !! u = Some row ->
               Some (Db.room_id row) = room -> Db.role row = player) ->
  store_ok (Supabase.players_update None p u room db).2
  /\ Db.rooms (Supabase.players_update None p u room db).2 = Db.rooms db.
Proof.
  intros Hok Hroom Hnet. unfold Supabase.players_update.
  destruct room as [code |]; [| now split].
  destruct (Db.players db !! u) as [r |] eqn:Hr; [| now split].
  case_decide as Hin; [| now split].
  cbn [snd Db.rooms]. split; [| reflexivity].
  intros v row. cbn [Db.players Db.rooms].
  destruct (decide (v = u)) as [-> | Hv].
  - rewrite lookup_insert_eq. intros [= <-].
    destruct (Hok u r Hr) as (rm & Hrm & Hiff & Hzero).
    assert (Hsame : Db.room_id (Supabase.apply_payload p r) = Db.room_id r).
    { cbn. destruct Hroom as [-> | ->]; cbn; congruence. }
    exists rm. rewrite Hsame. split; [exact Hrm |].
    split; [exact Hiff |].
    cbn [Supabase.apply_payload Db.role Db.current_net]. intros Hb.
    destruct (Supabase.set_current_net p) as [x |] eqn:Hx.
    + assert (Db.role r = player)
        by (apply Hnet; [eauto | reflexivity | congruence]).
      congruence.
    + cbn. now apply Hzero.
  - rewrite lookup_insert_ne by congruence. apply Hok.
Qed.

Lemma ledger_write_ok (s : Session) (db db' : Db.Store) :
  store_ok db -> hook_ok db s -> ledger_write s db db' ->
  store_ok db' /\ Db.rooms db' = Db.rooms db.
Proof.
  intros Hok Hhook [-> | (p & -> & Hroom & Hnet)]; [now split |].
  apply update_store_ok; [exact Hok | exact Hroom |].
  intros Hsome row Hrow Hin.
  destruct (Hhook (Hnet Hsome) (Db.room_id row) (eq_sym Hin))
    as (room & Hlook & Hne).
  destruct (Hok _ row Hrow) as (room' & Hlook' & Hiff & _).
  apply role_not_banker. intros Hb. apply Hne.
  apply Hiff in Hb. congruence.
Qed.

(** Writing a zeroed record whose role follows the room's banker keeps the
    store well formed. *)
Lemma upsert_store_ok (db : Db.Store) (room : Db.RoomRow)
    (row : Db.PlayerRow) :
  store_ok db ->
  Db.rooms db !! Db.room_id row = Some room ->
  (Db.role row = banker <-> Db.banker_uuid room = Db.uuid row) ->
  or0 (Db.current_net row) = 0 ->
  store_ok (Supabase.players_upsert None row db).2.
Proof.
  intros Hok Hroom Hiff Hzero v r. unfold Supabase.players_upsert.
  cbn [snd Db.players Db.rooms].
  destruct (decide (v = Db.uuid row)) as [-> | Hv].
  - rewrite lookup_insert_eq. intros [= <-]. exists room. cbn. auto.
  - rewrite lookup_insert_ne by congruence. apply Hok.
Qed.

Lemma insert_room_store_ok (db : Db.Store) (r : Db.RoomRow) :
  store_ok db ->
  Db.rooms db !! Db.id r = None ->
  store_ok (Db.mkStore (<[Db.id r := r]> (Db.rooms db)) (Db.players db)).
Proof.
  intros Hok Hfree u row Hrow. cbn [Db.players Db.rooms] in *.
  destruct (Hok u row Hrow) as (room & Hroom & Hrest).
  exists room. split; [| exact Hrest].
  rewrite lookup_insert_ne; [exact Hroom | congruence].
Qed.

Lemma status_store_ok (db : Db.Store) (code : string) (room : Db.RoomRow)
    (st : RoomStatus) :
  store_ok db ->
  Db.rooms db !! code = Some room ->
  store_ok
    (Db.mkStore
       (<[code := Db.mkRoom (Db.id room) (Db.banker_uuid room) st]>
          (Db.rooms db))
       (Db.players db)).
Proof.
  intros Hok Hroom u row Hrow. cbn [Db.players Db.rooms] in *.
  destruct (Hok u row Hrow) as (rm & Hrm & Hrest).
  destruct (decide (Db.room_id row = code)) as [Hc | Hc].
  - rewrite Hc in *. rewrite lookup_insert_eq.
    assert (rm = room) as -> by congruence.
    eexists. split; [reflexivity | exact Hrest].
  - rewrite lookup_insert_ne by congruence. now exists rm.
Qed.

End StoreInvariant.

(** ** What each call does to the store and to the caller's identity *)

Section CallEffects.

Lemma ledger_write_update (s : Session) (db : Db.Store)
    (verdict : option Db.StoreError) (p : Supabase.Payload) :
  (Supabase.set_room_id p = None \/ Supabase.set_room_id p = roomId s) ->
  (is_Some (Supabase.set_current_net p) -> role s = Some player) ->
  ledger_write s db
    (Supabase.players_update verdict p (deviceUUID s) (roomId s) db).2.
Proof.
  intros Hroom Hnet. destruct verdict as [e |]; [left; reflexivity |].
  right. exists p. auto.
Qed.

Lemma same_identity_refl (s : Session) : same_identity s s.
Proof. repeat split. Qed.

Lemma is_player_true_role (r : option Role) :
  is_player r = true -> r = Some player.
Proof. unfold is_player. apply bool_decide_eq_true_1. Qed.

Lemma setPlayerName_ledger (clock : Clock) (v : option Db.StoreError)
    (name : string) (w : World) :
  let w' := exec (setPlayerName clock v name) w in
  ledger_write (session w) (store w) (store w')
  /\ same_identity (session w) (session w').
Proof.
  intros w'. subst w'.
  unfold setPlayerName, localStorage_setItem, exec. unfold_monad.
  cbn [fst snd session store localStorage].
  destruct (bool_decide (mode (session w) = Some multi)
            && truthy (roomId (session w)) && is_player (role (session w))).
  - cbn [fst snd session store localStorage].
    set (p := Supabase.mkPayload _ _ _ _ _ _ _).
    pose proof (ledger_write_update (session w) (store w) v p
                  (or_introl eq_refl)) as H.
    destruct (Supabase.players_update v p _ _ _) as [res db'].
    cbn in *. split; [apply H; intros [x Hx]; discriminate Hx |].
    apply same_identity_refl.
  - cbn. split; [now left | apply same_identity_refl].
Qed.

Lemma setPlayerBase_ledger (v : option Db.StoreError) (amount : Z)
    (w : World) :
  let w' := exec (setPlayerBase v amount) w in
  ledger_write (session w) (store w) (store w')
  /\ same_identity (session w) (session w').
Proof.
  intros w'. subst w'. unfold setPlayerBase, exec. unfold_monad.
  cbn [fst snd session store localStorage].
  destruct (roomId (session w)) as [r |] eqn:Hr;
    [| cbn; split; [now left | repeat split]].
  destruct (bool_decide (r = ""));
    [cbn; split; [now left | repeat split] |].
  cbn [fst snd session store localStorage deviceUUID roomId setBaseAmount].
  set (p := Supabase.mkPayload _ _ _ _ _ _ _).
  pose proof (ledger_write_update (session w) (store w) v p) as H.
  rewrite Hr in H.
  destruct (Supabase.players_update v p _ _ _) as [res db'].
  cbn in *. split; [| repeat split].
  apply H; [now right | intros [x Hx]; discriminate Hx].
Qed.

Lemma playerAction_ledger (clock : Clock) (v : option Db.StoreError)
    (m : Z) (h : option (list Round.t)) (w : World) :
  let w' := exec (playerAction clock v m h) w in
  ledger_write (session w) (store w) (store w')
  /\ same_identity (session w) (session w').
Proof.
  intros w'. subst w'. unfold exec.
  destruct (decide (role (session w) = Some player)) as [Hrole | Hrole];
    [| rewrite playerAction_guarded by (now right);
       split; [now left | apply same_identity_refl]].
  destruct (Z_le_gt_dec (baseAmount (session w)) 0) as [Hb | Hb];
    [rewrite playerAction_guarded by (now left);
     split; [now left | apply same_identity_refl] |].
  destruct v as [e |].
  - rewrite playerAction_refused_run by (assumption || lia).
    cbn. split; [now left | repeat split].
  - rewrite playerAction_accepted_run by (assumption || lia).
    cbn [snd store session]. split; [| repeat split].
    apply ledger_write_update; [now right | intros _; exact Hrole].
Qed.

Lemma playerUndo_ledger (clock : Clock) (v : option Db.StoreError)
    (h : option (list Round.t)) (w : World) :
  let w' := exec (playerUndo clock v h) w in
  ledger_write (session w) (store w) (store w')
  /\ same_identity (session w) (session w').
Proof.
  intros w'. subst w'. unfold exec.
  destruct (decide (role (session w) = Some player)) as [Hrole | Hrole];
    [| rewrite playerUndo_guarded by (now right);
       split; [now left | apply same_identity_refl]].
  destruct (decide (lastActionAmount (session w) = 0)) as [Hl | Hl];
    [rewrite playerUndo_guarded by (now left);
     split; [now left | apply same_identity_refl] |].
  destruct v as [e |].
  - rewrite playerUndo_refused_run by assumption.
    cbn. split; [now left | repeat split].
  - rewrite playerUndo_accepted_run by assumption.
    cbn [snd store session]. split; [| repeat split].
    apply ledger_write_update; [now right | intros _; exact Hrole].
Qed.

Lemma playerMassTie_ledger (clock : Clock) (v : option Db.StoreError)
    (n : Z) (hist : list Round.t) (w : World) :
  let w' := exec (playerMassTie clock v n hist) w in
  ledger_write (session w) (store w) (store w')
  /\ same_identity (session w) (session w').
Proof.
  intros w'. subst w'. unfold playerMassTie, exec. unfold_monad.
  cbn [fst snd session store localStorage].
  destruct ((n <=? 0) || negb (is_player (role (session w)))) eqn:Hg;
    [cbn; split; [now left | apply same_identity_refl] |].
  apply orb_false_iff in Hg as [_ Hp]. apply negb_false_iff in Hp.
  apply is_player_true_role in Hp.
  cbn [fst snd session store localStorage deviceUUID roomId currentNet
       setLastActionAmount].
  set (p := Supabase.mkPayload _ _ _ _ _ _ _).
  pose proof (ledger_write_update (session w) (store w) v p
                (or_intror eq_refl) (fun _ => Hp)) as H.
  destruct (Supabase.players_update v p _ _ _) as [[e |] db'];
    cbn in *; (split; [exact H | repeat split]).
Qed.

Lemma resolveTiePrompt_ledger (clock : Clock) (v : option Db.StoreError)
    (accept : bool) (hist : list Round.t) (w : World) :
  let w' := exec (resolveTiePrompt clock v accept hist) w in
  ledger_write (session w) (store w) (store w')
  /\ same_identity (session w) (session w').
Proof.
  intros w'. subst w'.
  set (cleared := mkWorld (setTiePromptActive None (session w)) (store w)
                    (localStorage w)).
  assert (Hrun : exec (resolveTiePrompt clock v accept hist) w = cleared
                 \/ exec (resolveTiePrompt clock v accept hist) w
                    = exec (playerMassTie clock v
                              (default 1 (tiePromptActive (session w))) hist)
                        cleared).
  { unfold resolveTiePrompt, exec. unfold bind, closure, upd.
    cbn [fst snd].
    destruct accept; [| left; reflexivity].
    destruct (1 <? default 1 (tiePromptActive (session w)));
      [right; reflexivity | left; reflexivity]. }
  destruct Hrun as [-> | ->].
  - split; [now left | repeat split].
  - destruct (playerMassTie_ledger clock v
                (default 1 (tiePromptActive (session w))) hist cleared)
      as [Hw Hid].
    split; [exact Hw |].
    destruct Hid as (Hu & Hr & Hrole). repeat split; assumption.
Qed.

Lemma fetchRoomPlayers_ledger (w : World) :
  let w' := exec fetchRoomPlayers w in
  ledger_write (session w) (store w) (store w')
  /\ same_identity (session w) (session w').
Proof.
  intros w'. subst w'. unfold exec. rewrite fetchRoomPlayers_run.
  cbn [snd]. destruct (truthy (roomId (session w)));
    (split; [now left | repeat split]).
Qed.

End CallEffects.

(** ** Every call keeps the store and the caller well formed *)

Section CallsPreserve.

Variable w : World.
Hypothesis Hstore : store_ok (store w).
Hypothesis Hhook : hook_ok (store w) (session w).

Lemma preserved_ledger (w' : World) :
  ledger_write (session w) (store w) (store w') ->
  same_identity (session w) (session w') ->
  preserved w w'.
Proof.
  intros Hw Hid.
  destruct (ledger_write_ok _ _ _ Hstore Hhook Hw) as [Hok Hrooms].
  assert (Hext : rooms_extend (store w) (store w'))
    by now apply rooms_extend_same.
  split; [exact Hok |]. split; [| exact Hext].
  apply (hook_ok_identity _ (session w)); [exact Hid |].
  now apply (hook_ok_extend (store w)).
Qed.

Lemma preserved_unchanged (s' : Session) (ls : gmap string string) :
  same_identity (session w) s' ->
  preserved w (mkWorld s' (store w) ls).
Proof.
  intros Hid. apply preserved_ledger; [now left | exact Hid].
Qed.

Lemma createRoom_preserves (code suffix : string)
    (rv pv : option Db.StoreError) :
  preserved w (exec (createRoom code suffix rv pv) w).
Proof.
  unfold exec. rewrite createRoom_run, createRoom_try_run.
  cbn [session store localStorage deviceUUID playerName setError setLoading].
  cbv zeta. unfold Supabase.rooms_insert. cbn [Db.id].
  destruct rv as [e |];
    [cbn; apply preserved_unchanged; repeat split |].
  destruct (Db.rooms (store w) !! code) as [taken |] eqn:Hfree;
    [cbn; apply preserved_unchanged; repeat split |].
  set (room := Db.mkRoom code (deviceUUID (session w)) active).
  set (db1 := Db.mkStore (<[code := room]> (Db.rooms (store w)))
                (Db.players (store w))).
  assert (Hok1 : store_ok db1)
    by (apply (insert_room_store_ok (store w) room Hstore); exact Hfree).
  assert (Hext1 : rooms_extend (store w) db1).
  { intros c r Hr. exists r. split; [| reflexivity]. cbn.
    rewrite lookup_insert_ne; [exact Hr | congruence]. }
  unfold Supabase.players_upsert. destruct pv as [e |].
  - cbn. split; [exact Hok1 |]. split; [| exact Hext1].
    apply (hook_ok_identity _ (session w)); [repeat split |].
    now apply (hook_ok_extend (store w)).
  - cbn [snd session store].
    set (row := Db.mkPlayer _ _ _ _ _ _ _ _ _).
    split; [| split].
    + apply (upsert_store_ok db1 room
               (Db.mkPlayer (deviceUUID (session w)) code banker
                  (str_or (playerName (session w)) ("Player " ++ suffix))
                  (Some 0) (Some 0) (Some 0) (Some []) None) Hok1).
      * cbn. apply lookup_insert_eq.
      * cbn. tauto.
      * reflexivity.
    + apply hook_ok_no_player. cbn. discriminate.
    + exact Hext1.
Qed.

Lemma joinRoom_preserves (code : string) (j : JoinVerdicts) :
  preserved w (exec (joinRoom code j) w).
Proof.
  unfold exec. rewrite joinRoom_run.
  set (w0 := mkWorld (setError None (setLoading true (session w)))
               (store w) (localStorage w)).
  destruct (join_path_total code j w)
    as [Hroom | room Hroom Hst | room row Hroom Hst Hread Hrow Hcode
        | room Hroom Hst Hout Hcount Hfull
        | room se Hroom Hst Hout Hfree Hv
        | room Hroom Hst Hout Hfree Hv].
  - rewrite (joinRoom_try_not_found code j w0 Hroom).
    cbn. apply preserved_unchanged. repeat split.
  - rewrite (joinRoom_try_ended code j w0 room Hroom Hst).
    cbn. apply preserved_unchanged. repeat split.
  - rewrite (joinRoom_try_reconnect code j w0 room row
               Hroom Hst Hread Hrow Hcode).
    cbn [snd session store].
    split; [exact Hstore |]. split; [| apply rooms_extend_refl].
    intros Hrole c Hc. cbn in Hrole, Hc.
    injection Hc as <-. injection Hrole as Hrole.
    destruct (Hstore _ row Hrow) as (room' & Hroom' & Hiff & _).
    exists room'. split; [cbn; rewrite <- Hcode; exact Hroom' |]. cbn.
    intros Hb. apply Hiff in Hb. congruence.
  - rewrite (joinRoom_try_full code j w0 room Hroom Hst Hout Hcount Hfull).
    cbn. apply preserved_unchanged. repeat split.
  - rewrite (joinRoom_try_refused code j w0 room se Hroom Hst Hout Hfree Hv).
    cbn. apply preserved_unchanged. repeat split.
  - rewrite (joinRoom_try_joined code j w0 room Hroom Hst Hout Hfree Hv).
    cbn [snd session store].
    split; [| split].
    + apply (upsert_store_ok (store w) room (joining_row code w0 room) Hstore).
      * exact Hroom.
      * cbn. case_bool_decide; split; congruence.
      * reflexivity.
    + intros Hrole c Hc. cbn in Hrole, Hc. injection Hc as <-.
      exists room. split; [exact Hroom |]. cbn.
      intros Hb. rewrite bool_decide_eq_true_2 in Hrole by exact Hb.
      discriminate Hrole.
    + apply rooms_extend_same. reflexivity.
Qed.

Lemma autoJoin_preserves (j : JoinVerdicts) :
  preserved w (exec (autoJoin_effect j) w).
Proof.
  assert (H : exec (autoJoin_effect j) w = w
              \/ exists code, exec (autoJoin_effect j) w
                              = exec (joinRoom code j) w).
  { unfold autoJoin_effect, localStorage_getItem, exec.
    unfold bind, closure. cbn [fst snd].
    destruct (truthy _ && _ && _ && _);
      [right; eexists; reflexivity | left; reflexivity]. }
  destruct H as [-> | [code ->]].
  - apply preserved_ledger; [now left | apply same_identity_refl].
  - apply joinRoom_preserves.
Qed.

Lemma leaveRoom_preserves (v : option Db.StoreError) :
  preserved w (exec (leaveRoom_world v) w).
Proof.
  unfold exec. rewrite leaveRoom_world_run. cbn [snd].
  assert (Hhook' : forall db, hook_ok db (reset_multiplayer (session w)))
    by (intros db; apply hook_ok_no_player; cbn; discriminate).
  destruct (bool_decide (role (session w) = Some banker)
            && truthy (roomId (session w)));
    [| split; [exact Hstore | split; [apply Hhook' | apply rooms_extend_refl]]].
  unfold rooms_update_status.
  destruct v as [e |];
    [split; [exact Hstore | split; [apply Hhook' | apply rooms_extend_refl]] |].
  destruct (Db.rooms (store w) !! default "" (roomId (session w)))
    as [room |] eqn:Hroom;
    [| split; [exact Hstore | split; [apply Hhook' | apply rooms_extend_refl]]].
  cbn [snd store]. split; [| split; [apply Hhook' |]].
  - now apply status_store_ok.
  - intros c r Hr. cbn [Db.rooms store].
    destruct (decide (c = default "" (roomId (session w)))) as [-> | Hc].
    + rewrite lookup_insert_eq. eexists. split; [reflexivity |].
      cbn. congruence.
    + rewrite lookup_insert_ne by congruence. now exists r.
Qed.

Lemma run_call_preserves (c : Call) : preserved w (run_call c w).
Proof.
  destruct c; cbn [run_call].
  - apply createRoom_preserves.
  - apply joinRoom_preserves.
  - apply autoJoin_preserves.
  - apply preserved_ledger; apply setPlayerName_ledger.
  - apply preserved_ledger; apply setPlayerBase_ledger.
  - apply preserved_ledger; apply playerAction_ledger.
  - apply preserved_ledger; apply playerUndo_ledger.
  - apply preserved_ledger; apply playerMassTie_ledger.
  - apply preserved_ledger; apply resolveTiePrompt_ledger.
  - apply preserved_ledger; apply fetchRoomPlayers_ledger.
  - apply leaveRoom_preserves.
Qed.

End CallsPreserve.

(** ** The reachable states are well formed *)

Lemma reachable_ok (sys : System) : reachable sys -> system_ok sys.
Proof.
  induction 1 as [| sys device name ls _ IH | sys i c _ IH
                  | sys i h s' ls' _ IH Hi Hid].
  - split; [| constructor].
    intros u row Hrow. cbn in Hrow. rewrite lookup_empty in Hrow.
    discriminate Hrow.
  - destruct IH as [Hs Hh]. split; [exact Hs |].
    cbn [mount hooks database]. apply Forall_app. split; [exact Hh |].
    constructor; [| constructor].
    apply hook_ok_no_player. cbn. discriminate.
  - unfold call. destruct (hooks sys !! i) as [h |] eqn:Hi; [| exact IH].
    destruct IH as [Hs Hh].
    assert (Hhk : hook_ok (database sys) (hook_session h))
      by exact (Forall_lookup_1 _ _ _ _ Hh Hi).
    destruct (run_call_preserves (world_of (database sys) h) Hs Hhk c)
      as (Hs' & Hh' & Hext).
    cbn [database hooks]. split; [exact Hs' |].
    apply Forall_insert; [| exact Hh'].
    apply (Forall_impl _ _ _ Hh). intros h0. now apply hook_ok_extend.
  - destruct IH as [Hs Hh]. split; [exact Hs |].
    cbn [database hooks]. apply Forall_insert; [exact Hh |].
    cbn. apply (hook_ok_identity _ (hook_session h)); [exact Hid |].
    exact (Forall_lookup_1 _ _ _ _ Hh Hi).
Qed.

(** In a well-formed store every fetched record that is not a player's
    carries a net of 0. *)
Lemma room_rows_banker_zero (db : Db.Store) (code : string) :
  store_ok db ->
  Forall (fun p => Db.role p <> player -> or0 (Db.current_net p) = 0)
    (map_to_list (Supabase.room_rows code db)).*2.
Proof.
  intros Hok. apply List.Forall_forall. intros row Hin.
  apply list_elem_of_In in Hin.
  apply list_elem_of_fmap in Hin as ([u r] & -> & Hin).
  apply elem_of_map_to_list in Hin. unfold Supabase.room_rows in Hin.
  apply map_lookup_filter_Some in Hin as [Hrow _]. cbn.
  destruct (Hok u r Hrow) as (room & _ & _ & Hzero).
  intros Hrole. apply Hzero. destruct (Db.role r); congruence.
Qed.


